(** * HanjaMemorizer: the cache store and the dataset loader

    A shallow embedding of the non-GUI functions of [HanjaMemorizer.py]:
    [ensure_cache_dir], [load_cache_index], [save_cache_index],
    [add_to_cache], [load_from_cache], [extract_google_sheet_id],
    [get_google_sheet_csv_url] and [HanjaMemorizer.parse_dataframe].

    Modelling conventions.
    - A Python [str] is a Rocq [string] holding its UTF-8 bytes.  Equality,
      concatenation and the ASCII-only regular expressions are exact on
      that encoding; the one place that counts characters
      ([re.sub(...)[:50]]) splits the bytes into code points first.
    - Values handled through [json.load]/[json.dump] are of type [json];
      Python dicts are association lists in insertion order.
    - The disk is a finite map from path strings to regular files.  A file
      either holds one complete JSON document or text that [json.load]
      rejects ([Corrupt]: empty, truncated or otherwise unparsable);
      [json.load] of a document written by [json.dump] gives back the
      value that was dumped.  Directories, permissions and device errors
      are outside the model.
    - A regular file has one key in that map: a path is looked up as it is
      spelled.  The paths the cache store makes from plain file names
      ([plain_name]: not empty, no slash, not [.] or [..]) are such keys.
      A file name of another shape can name a directory ([""] names the
      cache directory itself) or respell the path of a stored file
      ([./x] for [x]); wherever a statement depends on an existence test
      or a deletion, it requires the file names it reads from the index
      or takes from the caller to be plain.
    - Exceptions are values: every effectful function returns an outcome
      together with the disk it leaves behind. *)

From Stdlib Require Import ZArith String Ascii List Bool Lia.
From stdpp Require Import base option list strings pretty gmap.

Set Warnings "-register-all".

(** ** Python values and exceptions *)

Inductive json : Type :=
  | JNull
  | JBool (b : bool)
  | JNum (n : Z)
  | JStr (s : string)
  | JArr (l : list json)
  | JObj (kvs : list (string * json)).

Inductive exn : Type :=
  | KeyError | TypeError | AttributeError | ValueError
  | IndexError | FileNotFoundError.

Inductive res (A : Type) : Type :=
  | Ok (a : A)
  | Raise (e : exn).
Arguments Ok {A} a.
Arguments Raise {A} e.

Definition res_bind {A B} (r : res A) (k : A -> res B) : res B :=
  match r with Ok a => k a | Raise e => Raise e end.

(** A file on disk. *)
Inductive file : Type :=
  | Corrupt
  | Json (v : json).

Abbreviation disk := (gmap string file).

(** The state-and-exception monad of the effectful functions. *)
Definition M (A : Type) : Type := disk -> res A * disk.

Definition ret {A} (a : A) : M A := fun fs => (Ok a, fs).
Definition bind {A B} (m : M A) (k : A -> M B) : M B :=
  fun fs => match m fs with
            | (Ok a, fs') => k a fs'
            | (Raise e, fs') => (Raise e, fs')
            end.
Definition lift {A} (r : res A) : M A := fun fs => (r, fs).

(** [try: m  except: h] (a bare except catches every exception). *)
Definition try_except {A} (m : M A) (h : M A) : M A :=
  fun fs => match m fs with
            | (Ok a, fs') => (Ok a, fs')
            | (Raise _, fs') => h fs'
            end.

Notation "'let*' x ':=' m 'in' k" := (bind m (fun x => k))
  (at level 10, x binder, m at level 200, k at level 200).
Notation "'do' m 'in' k" := (bind m (fun _ => k))
  (at level 10, m at level 200, k at level 200).

(** ** Dict and list operations on parsed JSON *)

Fixpoint assoc (k : string) (kvs : list (string * json)) : option json :=
  match kvs with
  | [] => None
  | (k', v) :: rest => if String.eqb k' k then Some v else assoc k rest
  end.

(** [d[k] = v] on a dict: an existing key keeps its place. *)
Fixpoint dict_set (k : string) (v : json) (kvs : list (string * json))
  : list (string * json) :=
  match kvs with
  | [] => [(k, v)]
  | (k', v') :: rest =>
      if String.eqb k' k then (k, v) :: rest else (k', v') :: dict_set k v rest
  end.

(** [d[k]]: KeyError on a dict without the key, TypeError on anything
    that is not a dict (a list or a string wants integer indices, the
    other values are not subscriptable). *)
Definition getitem (d : json) (k : string) : res json :=
  match d with
  | JObj kvs => match assoc k kvs with Some v => Ok v | None => Raise KeyError end
  | _ => Raise TypeError
  end.

(** [d[k] = v]. *)
Definition setitem (d : json) (k : string) (v : json) : res json :=
  match d with
  | JObj kvs => Ok (JObj (dict_set k v kvs))
  | _ => Raise TypeError
  end.

(** [f.get(k)]: only dicts have the method; a missing key gives [None]. *)
Definition get (f : json) (k : string) : res json :=
  match f with
  | JObj kvs => Ok (default JNull (assoc k kvs))
  | _ => Raise AttributeError
  end.

(** [v != s] for a string [s]. *)
Definition ne_str (v : json) (s : string) : bool :=
  match v with
  | JStr t => negb (String.eqb t s)
  | _ => true
  end.

(** ** Characters of a UTF-8 string *)

Definition byte (a : ascii) : nat := nat_of_ascii a.

(** Continuation bytes are 10xxxxxx. *)
Definition is_cont (a : ascii) : bool := (128 <=? byte a) && (byte a <? 192).

(** [split_cp s] is the run of continuation bytes [s] starts with, and the
    characters of what follows. *)
Fixpoint split_cp (s : string) : string * list string :=
  match s with
  | EmptyString => (EmptyString, [])
  | String a s' =>
      let '(c, gs) := split_cp s' in
      if is_cont a then (String a c, gs)
      else if byte a <? 128 then
        (EmptyString, String a EmptyString :: (if String.eqb c "" then gs else c :: gs))
      else (EmptyString, String a c :: gs)
  end.

Definition utf8_chars (s : string) : list string :=
  let '(c, gs) := split_cp s in
  if String.eqb c "" then gs else c :: gs.

Fixpoint concat_str (l : list string) : string :=
  match l with
  | [] => ""
  | s :: rest => s +:+ concat_str rest
  end.

(** Iterating a loaded JSON value, as [for f in v] does: a list gives its
    elements, a string its characters, a dict its keys; the rest is not
    iterable. *)
Definition py_iter (v : json) : res (list json) :=
  match v with
  | JArr l => Ok l
  | JStr s => Ok (map JStr (utf8_chars s))
  | JObj kvs => Ok (map (fun kv => JStr (fst kv)) kvs)
  | _ => Raise TypeError
  end.

(** ** [re] character classes *)

Definition is_digit (a : ascii) : bool := (48 <=? byte a) && (byte a <=? 57).
Definition is_upper (a : ascii) : bool := (65 <=? byte a) && (byte a <=? 90).
Definition is_lower (a : ascii) : bool := (97 <=? byte a) && (byte a <=? 122).
Definition is_alnum (a : ascii) : bool := is_lower a || is_upper a || is_digit a.

(** [[a-zA-Z0-9-_]]: three ranges, then the literals [-] and [_]. *)
Definition is_id_char (a : ascii) : bool :=
  is_alnum a || Ascii.eqb a "-" || Ascii.eqb a "_".

(** ** Dates *)

Record datetime : Type := mk_datetime {
  year : nat; month : nat; day : nat;
  hour : nat; minute : nat; second : nat
}.

Definition digit (n : nat) : ascii := ascii_of_nat (48 + n mod 10).

Definition pad2 (n : nat) : string :=
  String (digit (n / 10)) (String (digit n) "").

(** The year as [%Y] prints it from the year 1000 on, where [datetime.now()]
    lies: four digits. *)
Definition pad4 (n : nat) : string :=
  String (digit (n / 1000)) (String (digit (n / 100)) (pad2 n)).

(** [strftime("%Y%m%d_%H%M%S")]. *)
Definition strftime (t : datetime) : string :=
  pad4 (year t) +:+ pad2 (month t) +:+ pad2 (day t) +:+ "_"
  +:+ pad2 (hour t) +:+ pad2 (minute t) +:+ pad2 (second t).

(** ** Paths *)

Definition starts_with_slash (s : string) : bool :=
  match s with
  | String a _ => Ascii.eqb a "/"
  | EmptyString => false
  end.

Fixpoint ends_with_slash (s : string) : bool :=
  match s with
  | EmptyString => false
  | String a EmptyString => Ascii.eqb a "/"
  | String _ s' => ends_with_slash s'
  end.

(** [os.path.join(a, b)] of [posixpath]: an absolute [b] discards [a]. *)
Definition os_path_join (a b : string) : string :=
  if starts_with_slash b then b
  else if String.eqb a "" || ends_with_slash a then a +:+ b
  else a +:+ "/" +:+ b.

(** A plain file name: not empty, not [.] or [..], and without a slash.
    Joined to a directory it is the path of an entry of that directory, in
    its one spelling. *)
Definition plain_name (s : string) : bool :=
  negb (String.eqb s "") && negb (String.eqb s ".") && negb (String.eqb s "..")
  && forallb (fun a => negb (Ascii.eqb a "/")) (list_ascii_of_string s).

(** ** Primitive file operations

    The file at a path is the one stored under that very string.  This is
    what [os.path.exists], [open] and [os.remove] do for the path of a
    plain file name in the cache directory.  For a path of another shape
    (a directory, a second spelling of a stored path) they are not
    modelled, and the statements about existence tests and deletions keep
    to plain file names. *)

Definition os_path_exists (p : string) : M bool :=
  fun fs => (Ok (bool_decide (is_Some (fs !! p))), fs).

(** [open(p, 'w')] truncates the file (or creates it empty). *)
Definition open_w (p : string) : M unit :=
  fun fs => (Ok tt, <[p := Corrupt]> fs).

(** [json.dump(v, f)] followed by closing [f]: the document is complete. *)
Definition json_dump (v : json) (p : string) : M unit :=
  fun fs => (Ok tt, <[p := Json v]> fs).

(** [with open(p, 'r') as f: return json.load(f)]. *)
Definition read_json (p : string) : M json :=
  fun fs => match fs !! p with
            | None => (Raise FileNotFoundError, fs)
            | Some Corrupt => (Raise ValueError, fs)
            | Some (Json v) => (Ok v, fs)
            end.

Definition os_remove (p : string) : M unit :=
  fun fs => match fs !! p with
            | None => (Raise FileNotFoundError, fs)
            | Some _ => (Ok tt, delete p fs)
            end.

Section CacheStore.

(** [os.path.expanduser("~")]. *)
Variable home : string.

(** [str.isalnum] on a character outside ASCII (the Unicode tables of
    the interpreter), given on the UTF-8 bytes of the character. *)
Variable unicode_alnum : string -> bool.

Definition CACHE_DIR : string := os_path_join home ".hanja_memorizer".
Definition CACHE_INDEX_FILE : string := os_path_join CACHE_DIR "cache_index.json".

(** The directory layer is not part of the disk model, so creating the
    cache directory leaves the file map as it is. *)
Definition ensure_cache_dir : M unit := ret tt.

Definition empty_index : json := JObj [("files", JArr [])].

Definition load_cache_index : M json :=
  do ensure_cache_dir in
  let* ex := os_path_exists CACHE_INDEX_FILE in
  if ex then
    try_except (read_json CACHE_INDEX_FILE) (ret empty_index)
  else ret empty_index.

Definition save_cache_index (index : json) : M unit :=
  do ensure_cache_dir in
  do open_w CACHE_INDEX_FILE in
  json_dump index CACHE_INDEX_FILE.

Definition load_from_cache (cache_filename : string) : M (option json) :=
  let cache_filepath := os_path_join CACHE_DIR cache_filename in
  let* ex := os_path_exists cache_filepath in
  if ex then
    let* v := read_json cache_filepath in
    ret (Some v)
  else ret None.

(** *** [add_to_cache] *)

(** [[\w\-_]] on one character: ASCII letters, digits, [_] and [-]; beyond
    ASCII, what [str.isalnum] accepts. *)
Definition keep_char (g : string) : bool :=
  match g with
  | String a _ =>
      if byte a <? 128 then is_alnum a || Ascii.eqb a "_" || Ascii.eqb a "-"
      else unicode_alnum g
  | EmptyString => false
  end.

(** [re.sub(r'[^\w\-_]', '_', name)[:50]]. *)
Definition safe_name_of (name : string) : string :=
  concat_str (take 50 (map (fun g => if keep_char g then g else "_") (utf8_chars name))).

Definition cache_filename_of (now : datetime) (name : string) : string :=
  safe_name_of name +:+ "_" +:+ strftime now +:+ ".json".

Definition new_entry (name source_type source_path cache_filename timestamp : string)
    (data : list json) : json :=
  JObj [("name", JStr name);
        ("source_type", JStr source_type);
        ("source_path", JStr source_path);
        ("cache_file", JStr cache_filename);
        ("cached_at", JStr timestamp);
        ("count", JNum (Z.of_nat (length data)))].

(** [[f for f in files if f.get("source_path") != source_path]]. *)
Fixpoint dedup (source_path : string) (files : list json) : res (list json) :=
  match files with
  | [] => Ok []
  | f :: rest =>
      res_bind (get f "source_path") (fun v =>
      res_bind (dedup source_path rest) (fun kept =>
      Ok (if ne_str v source_path then f :: kept else kept)))
  end.

(** [os.path.join(CACHE_DIR, c)] for a loaded value [c]. *)
Definition cache_path (c : json) : res string :=
  match c with
  | JStr s => Ok (os_path_join CACHE_DIR s)
  | _ => Raise TypeError
  end.

(** The loop deleting the files of the entries beyond the cap. *)
Fixpoint remove_old_files (old_files : list json) : M unit :=
  match old_files with
  | [] => ret tt
  | old :: rest =>
      let* c := lift (getitem old "cache_file") in
      let* old_path := lift (cache_path c) in
      let* ex := os_path_exists old_path in
      do (if ex then os_remove old_path else ret tt) in
      remove_old_files rest
  end.

Definition add_to_cache (now : datetime) (name source_type source_path : string)
    (data : list json) : M string :=
  do ensure_cache_dir in
  let timestamp := strftime now in
  let cache_filename := cache_filename_of now name in
  let cache_filepath := os_path_join CACHE_DIR cache_filename in
  do open_w cache_filepath in
  do json_dump (JArr data) cache_filepath in
  let* index := load_cache_index in
  let* files := lift (getitem index "files") in
  let* elems := lift (py_iter files) in
  let* kept := lift (dedup source_path elems) in
  let* index := lift (setitem index "files" (JArr kept)) in
  let files :=
    new_entry name source_type source_path cache_filename timestamp data :: kept in
  let* index := lift (setitem index "files" (JArr files)) in
  let* index :=
    (if 20 <? length files then
       let old_files := drop 20 files in
       let* index := lift (setitem index "files" (JArr (take 20 files))) in
       do remove_old_files old_files in
       ret index
     else ret index) in
  do save_cache_index index in
  ret cache_filepath.

(** *** Reading the stored index back *)

(** The entries of the index on disk: those of [load_cache_index()["files"]]
    when that is a list, [None] otherwise. *)
Definition stored_entries (fs : disk) : option (list json) :=
  match load_cache_index fs with
  | (Ok (JObj kvs), _) =>
      match assoc "files" kvs with
      | Some (JArr l) => Some l
      | _ => None
      end
  | _ => None
  end.

(** The [cache_file] of an index entry, when it is a dict that has one and
    it is a string. *)
Definition entry_file (e : json) : option string :=
  match e with
  | JObj kvs =>
      match assoc "cache_file" kvs with
      | Some (JStr c) => Some c
      | _ => None
      end
  | _ => None
  end.

(** The [source_path] of an index entry ([f.get("source_path")]). *)
Definition entry_source (e : json) : json :=
  match e with
  | JObj kvs => default JNull (assoc "source_path" kvs)
  | _ => JNull
  end.

Definition has_source (source_path : string) (e : json) : bool :=
  negb (ne_str (entry_source e) source_path).

(** The backing file of an index entry. *)
Definition entry_path (e : json) : option string :=
  option_map (os_path_join CACHE_DIR) (entry_file e).

End CacheStore.

(** ** Dataset loader *)

(** A cell of the data frame: missing ([NaN], [None]) or a value, kept as
    the text [str] gives for it. *)
Inductive cell : Type :=
  | NA
  | Cell (text : string).

(** [pd.notna] on a scalar cell. *)
Definition notna (c : cell) : bool :=
  match c with NA => false | Cell _ => true end.

(** [str] of a cell; the missing float prints as [nan]. *)
Definition str (c : cell) : string :=
  match c with NA => "nan" | Cell s => s end.

(** [row.iloc[i]]: positional access, IndexError out of bounds. *)
Definition iloc (row : list cell) (i : nat) : res cell :=
  match row !! i with
  | Some c => Ok c
  | None => Raise IndexError
  end.

Record record : Type := mk_record {
  hanja : string;
  reading : string;
  meaning : string
}.

Definition truthy (s : string) : bool := negb (String.eqb s "").

(** The body of the [try] block for one row: the record to append, if the
    row passes the test. *)
Definition extract_row (row : list cell) : res (option record) :=
  res_bind (iloc row 1) (fun c1 =>
  let hanja := if notna c1 then str c1 else "" in
  res_bind (iloc row 2) (fun c2 =>
  let reading := if notna c2 then str c2 else "" in
  res_bind (iloc row 3) (fun c3 =>
  let meaning := if notna c3 then str c3 else "" in
  Ok (if truthy hanja && negb (String.eqb hanja "nan") && negb (String.eqb hanja "한자")
      then Some (mk_record hanja reading meaning)
      else None)))).

(** [parse_dataframe]: the rows of [df.iterrows()] in order; a row whose
    body raises is left out by [except: continue]. *)
Fixpoint parse_dataframe (df : list (list cell)) : list record :=
  match df with
  | [] => []
  | row :: rest =>
      match extract_row row with
      | Ok (Some r) => r :: parse_dataframe rest
      | Ok None => parse_dataframe rest
      | Raise _ => parse_dataframe rest
      end
  end.

(** The dict a record is in the program, as [json.dump] sees it. *)
Definition record_to_json (r : record) : json :=
  JObj [("hanja", JStr (hanja r));
        ("reading", JStr (reading r));
        ("meaning", JStr (meaning r))].

(** ** Google sheet URLs *)

Fixpoint strip_prefix (lit s : string) : option string :=
  match lit, s with
  | EmptyString, _ => Some s
  | String a lit', String b s' =>
      if Ascii.eqb a b then strip_prefix lit' s' else None
  | String _ _, EmptyString => None
  end.

(** The longest run of [[a-zA-Z0-9-_]] a string starts with. *)
Fixpoint take_id (s : string) : string :=
  match s with
  | String a s' => if is_id_char a then String a (take_id s') else ""
  | EmptyString => ""
  end.

(** [lit([a-zA-Z0-9-_]+)] matched at the start of [s]: group 1. *)
Definition match_here (lit s : string) : option string :=
  match strip_prefix lit s with
  | Some rest =>
      let g := take_id rest in
      if String.eqb g "" then None else Some g
  | None => None
  end.

(** [re.search]: the leftmost position where the pattern matches. *)
Fixpoint re_search (lit s : string) : option string :=
  match match_here lit s with
  | Some g => Some g
  | None =>
      match s with
      | String _ s' => re_search lit s'
      | EmptyString => None
      end
  end.

(** The literal parts of the two patterns, each followed by the group
    [([a-zA-Z0-9-_]+)]. *)
Definition patterns : list string := ["/spreadsheets/d/"; "id="].

Fixpoint first_match (pats : list string) (url : string) : option string :=
  match pats with
  | [] => None
  | pattern :: rest =>
      match re_search pattern url with
      | Some g => Some g
      | None => first_match rest url
      end
  end.

Definition extract_google_sheet_id (url : string) : option string :=
  first_match patterns url.

Definition get_google_sheet_csv_url (sheet_url gid : string) : option string :=
  match extract_google_sheet_id sheet_url with
  | Some sheet_id =>
      if truthy sheet_id then
        Some ("https://docs.google.com/spreadsheets/d/" +:+ sheet_id
              +:+ "/export?format=csv&gid=" +:+ gid)
      else None
  | None => None
  end.

(** ** Vocabulary of the statements *)

Definition has_digit (s : string) : bool :=
  existsb is_digit (list_ascii_of_string s).

(** The value [load_cache_index] returns, as a function of the disk. *)
Definition stored_index (home : string) (fs : disk) : json :=
  match fs !! CACHE_INDEX_FILE home with
  | Some (Json v) => v
  | _ => empty_index
  end.

(** An index entry the eviction loop can handle: a dict whose
    [cache_file] is a string. *)
Definition entry_ok (e : json) : bool :=
  match entry_file e with Some _ => true | None => false end.

(** An index entry whose [cache_file] is a plain file name, as the entries
    are that [add_to_cache] writes. *)
Definition entry_plain (e : json) : bool :=
  match entry_file e with Some c => plain_name c | None => false end.

(** A cache reference: a plain file name, as the entries hold it, or the
    path of one in an absolute cache directory, as [add_to_cache] returns
    it. *)
Definition cache_reference (home c : string) : Prop :=
  plain_name c = true \/
  (starts_with_slash home = true /\
   exists n, plain_name n = true /\ c = os_path_join (CACHE_DIR home) n).

(** The test of the comprehension that drops the entries of a source. *)
Definition keeps (source_path : string) (f : json) : bool :=
  ne_str (entry_source f) source_path.

(** [index["files"]] after the comprehension and [insert(0, entry)]. *)
Definition updated_files (entry : json) (source_path : string) (l : list json)
  : list json :=
  entry :: List.filter (keeps source_path) l.

(** [old_files = index["files"][20:]]: the entries the cap evicts. *)
Definition old_files (entry : json) (source_path : string) (l : list json)
  : list json :=
  drop 20 (updated_files entry source_path l).

(** Deleting files one after the other. *)
Fixpoint delete_all (ps : list string) (fs : disk) : disk :=
  match ps with
  | [] => fs
  | p :: rest => delete_all rest (delete p fs)
  end.



(** One call of [add_to_cache]: the clock reading and the arguments. *)
Record call : Type := mk_call {
  call_now : datetime;
  call_name : string;
  call_type : string;
  call_source : string;
  call_data : list json
}.

Definition run_call (home : string) (unicode_alnum : string -> bool)
    (c : call) : M string :=
  add_to_cache home unicode_alnum (call_now c) (call_name c) (call_type c)
    (call_source c) (call_data c).

(** The disk after a sequence of calls. *)
Definition run_calls (home : string) (unicode_alnum : string -> bool)
    (cs : list call) (fs : disk) : disk :=
  foldl (fun fs c => snd (run_call home unicode_alnum c fs)) fs cs.

(** The entry [add_to_cache] inserts for a call. *)
Definition call_entry (unicode_alnum : string -> bool) (c : call) : json :=
  new_entry (call_name c) (call_type c) (call_source c)
    (cache_filename_of unicode_alnum (call_now c) (call_name c))
    (strftime (call_now c)) (call_data c).

(** An entry backed by a cache file: its [cache_file] is a plain file
    name, and not that of the index itself. *)
Definition entry_backed (home : string) (e : json) : bool :=
  entry_plain e &&
  match entry_path home e with
  | Some p => negb (String.eqb p (CACHE_INDEX_FILE home))
  | None => false
  end.

(** The stored index is a list of at most 20 backed entries. *)
Definition index_within_cap (home : string) (fs : disk) : bool :=
  match stored_entries home fs with
  | Some l => forallb (entry_backed home) l && (length l <=? 20)
  | None => false
  end.

(** *** Crash points of [save_cache_index] *)

(** The statements of [save_cache_index], one effect each. *)
Definition save_cache_index_steps (home : string) (index : json) : list (M unit) :=
  [ensure_cache_dir;
   open_w (CACHE_INDEX_FILE home);
   json_dump index (CACHE_INDEX_FILE home)].

Fixpoint run_steps (steps : list (M unit)) : M unit :=
  match steps with
  | [] => ret tt
  | s :: rest => do s in run_steps rest
  end.

(** The disks a crash can leave: the one after each prefix of the steps.
    The file is unparsable from [open] until [json.dump] has completed. *)
Definition crash_states (steps : list (M unit)) (fs : disk) : list disk :=
  map (fun n => snd (run_steps (take n steps) fs)) (seq 0 (S (length steps))).

(** *** The selection rule of the specification *)

(** The rule in the words of the specification: a row is included when
    its character column is non-empty and differs from the header label. *)
Definition spec_includes (hanja : string) : bool :=
  negb (String.eqb hanja "") && negb (String.eqb hanja "한자").

(** The rule of the code. *)
Definition code_includes (hanja : string) : bool :=
  negb (String.eqb hanja "") && negb (String.eqb hanja "nan")
  && negb (String.eqb hanja "한자").

(** Columns 2, 3 and 4 of a row that has them, blank for missing cells. *)
Definition columns (row : list cell) : option record :=
  match row with
  | _ :: c1 :: c2 :: c3 :: _ =>
      Some (mk_record (if notna c1 then str c1 else "")
                      (if notna c2 then str c2 else "")
                      (if notna c3 then str c3 else ""))
  | _ => None
  end.

(** The rows a selection rule keeps. *)
Definition select_rows (includes : string -> bool) (rows : list (list cell))
  : list record :=
  List.filter (fun r => includes (hanja r)) (omap columns rows).

(** *** Pattern matches *)

(** A non-empty run of [[a-zA-Z0-9-_]]. *)
Definition id_string (s : string) : Prop :=
  s <> "" /\ forallb is_id_char (list_ascii_of_string s) = true.

(** [lit] followed by [id] occurs in [url]. *)
Definition occurs (lit id url : string) : Prop :=
  exists pre post, url = pre +:+ lit +:+ id +:+ post.

(** The pattern [lit([a-zA-Z0-9-_]+)] matches somewhere in [url]. *)
Definition pattern_matches (lit url : string) : Prop :=
  exists id, id_string id /\ occurs lit id url.

Definition export_url (sheet_id : string) : string :=
  "https://docs.google.com/spreadsheets/d/" +:+ sheet_id
  +:+ "/export?format=csv&gid=0".

(** ** Concrete inputs of the examples *)

Definition home0 : string := "/home/user".

(** The names of the examples are ASCII, so the table is never consulted. *)
Definition alnum0 (g : string) : bool := false.

Definition index0 : string := CACHE_INDEX_FILE home0.

Definition t0 : datetime := mk_datetime 2024 3 5 14 7 9.
Definition t1 : datetime := mk_datetime 2024 3 6 9 30 0.

Definition records0 : list record := [mk_record "漢" "han" "Chinese"].
Definition data0 : list json := map record_to_json records0.

(** The rows of the example in the specification. *)
Definition example_rows : list (list cell) :=
  [[Cell "1"; Cell "漢"; Cell "han"; Cell "Chinese"];
   [Cell "2"; Cell ""; Cell ""; Cell ""];
   [Cell "idx"; Cell "한자"; Cell ""; Cell ""]].

(** A row whose character cell is the text [nan]. *)
Definition nan_rows : list (list cell) :=
  [[Cell "1"; Cell "nan"; Cell "x"; Cell "y"]].

(** One dataset cached on an empty disk. *)
Definition call_a : call := mk_call t0 "a" "local" "/x/a.xlsx" data0.
Definition disk_a : disk := snd (run_call home0 alnum0 call_a ∅).
Definition entry_a : json := call_entry alnum0 call_a.
Definition path_a : string := os_path_join (CACHE_DIR home0) "a_20240305_140709.json".


(** The same source loaded again within the second, its content changed. *)
Definition records1 : list record :=
  [mk_record "漢" "han" "Chinese"; mk_record "字" "ja" "character"].
Definition data1 : list json := map record_to_json records1.
Definition call_a_again : call := mk_call t0 "a" "local" "/x/a.xlsx" data1.

(** Twenty datasets with names and sources of their own. *)
Definition numbered_call (i : nat) : call :=
  mk_call t0 ("set" +:+ pad2 i) "local" ("/x/set" +:+ pad2 i +:+ ".xlsx") data0.
Definition twenty_calls : list call := map numbered_call (seq 0 20).

(** Twenty-one datasets of the same name cached within one second, each
    from a source of its own. *)
Definition same_second_call (i : nat) : call :=
  mk_call t0 "a" "local" ("/x/" +:+ pad2 i +:+ "/a.xlsx") data0.
Definition same_second_calls : list call := map same_second_call (seq 0 20).
Definition disk_full : disk := run_calls home0 alnum0 same_second_calls ∅.

(** A home directory given as a relative path. *)
Definition home_rel : string := "user".

(** An index being replaced by the empty one. *)
Definition disk_indexed : disk := {[index0 := Json (JObj [("files", JArr [entry_a])])]}.

(** ** Vocabulary of the further properties *)

(** A string of bytes outside ASCII. *)
Definition high_bytes (s : string) : bool :=
  forallb (fun a => 128 <=? byte a) (list_ascii_of_string s).

(** A character as [utf8_chars] delivers it: one ASCII byte, or a lead
    byte and what follows it, all outside ASCII. *)
Definition group_ok (g : string) : bool :=
  match g with
  | String a r => if byte a <? 128 then String.eqb r "" else high_bytes r
  | EmptyString => false
  end.

(** The bytes a generated file name can hold: letters, digits, [_], [-],
    [.] and the bytes of characters outside ASCII. *)
Definition safe_byte (a : ascii) : bool :=
  (128 <=? byte a) || is_alnum a || Ascii.eqb a "_" || Ascii.eqb a "-"
  || Ascii.eqb a ".".

Definition all_safe (s : string) : bool :=
  forallb safe_byte (list_ascii_of_string s).

(** A string of ASCII characters only. *)
Definition is_ascii (s : string) : bool :=
  forallb (fun a => byte a <? 128) (list_ascii_of_string s).

(** A missing cell turned into an empty text cell. *)
Definition blank (c : cell) : cell :=
  match c with NA => Cell "" | Cell s => Cell s end.

(** ** The main window: session state and widget commands

    The fields [HanjaMemorizer.__init__] creates and the handlers
    assign are a record.  What a handler does to the widgets is the
    list of the calls it makes, in order; what it reads from them is an
    argument.  An exception leaves the assignments and the calls made so
    far in place. *)

Inductive label : Type :=
  | file_label | count_label | progress_label
  | hanja_label | reading_label | meaning_label.

Inductive button : Type :=
  | start_btn | shuffle_btn | prev_btn | next_btn.

(** The style sheet literals of the handlers: the character in white
    ([show_current_hanja]) or grey ([show_reading_meaning]), the start
    button in green ([stop_memorizing]) or red ([start_memorizing]). *)
Inductive style : Type :=
  | hanja_white | hanja_grey | start_green | start_red.

Inductive box : Type :=
  | information | warning | critical.

Inductive cmd : Type :=
  | setText (w : label) (text : string)
  | setStyleSheet (w : label) (st : style)
  | button_setText (b : button) (text : string)
  | button_setStyleSheet (b : button) (st : style)
  | setEnabled (b : button) (on : bool)
  | setMaximum (n : Z)
  | setValue (n : Z)
  | timer_start (ms : Z)
  | timer_stop
  | combo_clear
  | addItem (text : string) (data : option json)
  | QMessageBox (kind : box) (title text : string).

Record session : Type := mk_session {
  hanja_list : json;
  current_index : Z;
  showing_hanja : bool;
  is_running : bool;
  hanja_time : Z;
  meaning_time : Z
}.

(** The fields as [__init__] sets them. *)
Definition initial_session : session :=
  mk_session (JArr []) 0 true false 2000 2000.

(** Handlers: state, exceptions and the widget calls made. *)
Definition G (A : Type) : Type := session -> res A * session * list cmd.

Definition gret {A} (a : A) : G A := fun s => (Ok a, s, []).
Definition gbind {A B} (m : G A) (k : A -> G B) : G B :=
  fun s => match m s with
           | (Ok a, s', c) =>
               match k a s' with (r, s'', c') => (r, s'', c ++ c') end
           | (Raise e, s', c) => (Raise e, s', c)
           end.
Definition glift {A} (r : res A) : G A := fun s => (r, s, []).
Definition emit (c : cmd) : G unit := fun s => (Ok tt, s, [c]).
Definition self {A} (field : session -> A) : G A := fun s => (Ok (field s), s, []).

Notation "'let+' x ':=' m 'in' k" := (gbind m (fun x => k))
  (at level 10, x binder, m at level 200, k at level 200).
Notation "'do+' m 'in' k" := (gbind m (fun _ => k))
  (at level 10, m at level 200, k at level 200).

Definition set_hanja_list (v : json) : G unit :=
  fun s => (Ok tt, mk_session v (current_index s) (showing_hanja s)
                     (is_running s) (hanja_time s) (meaning_time s), []).
Definition set_current_index (i : Z) : G unit :=
  fun s => (Ok tt, mk_session (hanja_list s) i (showing_hanja s)
                     (is_running s) (hanja_time s) (meaning_time s), []).
Definition set_showing_hanja (b : bool) : G unit :=
  fun s => (Ok tt, mk_session (hanja_list s) (current_index s) b
                     (is_running s) (hanja_time s) (meaning_time s), []).
Definition set_is_running (b : bool) : G unit :=
  fun s => (Ok tt, mk_session (hanja_list s) (current_index s) (showing_hanja s)
                     b (hanja_time s) (meaning_time s), []).
Definition set_hanja_time (ms : Z) : G unit :=
  fun s => (Ok tt, mk_session (hanja_list s) (current_index s) (showing_hanja s)
                     (is_running s) ms (meaning_time s), []).
Definition set_meaning_time (ms : Z) : G unit :=
  fun s => (Ok tt, mk_session (hanja_list s) (current_index s) (showing_hanja s)
                     (is_running s) (hanja_time s) ms, []).

(** *** Python operations on loaded values *)

(** Truth value: [None], [False], zero and the empty containers are false. *)
Definition py_truthy (v : json) : bool :=
  match v with
  | JNull => false
  | JBool b => b
  | JNum n => negb (n =? 0)%Z
  | JStr s => negb (String.eqb s "")
  | JArr l => match l with [] => false | _ => true end
  | JObj kvs => match kvs with [] => false | _ => true end
  end.

(** [len(v)]. *)
Definition py_len (v : json) : res Z :=
  match v with
  | JArr l => Ok (Z.of_nat (length l))
  | JStr s => Ok (Z.of_nat (length (utf8_chars s)))
  | JObj kvs => Ok (Z.of_nat (length kvs))
  | _ => Raise TypeError
  end.

(** [l[i]] on a list: a negative index counts from the end. *)
Definition list_item {A} (l : list A) (i : Z) : res A :=
  let n := Z.of_nat (length l) in
  let j := (if i <? 0 then n + i else i)%Z in
  if (j <? 0)%Z then Raise IndexError
  else match l !! Z.to_nat j with
       | Some x => Ok x
       | None => Raise IndexError
       end.

(** [v[i]] for an integer [i]: the dicts of a JSON document have string
    keys only, so an integer is never one of them. *)
Definition py_item (v : json) (i : Z) : res json :=
  match v with
  | JArr l => list_item l i
  | JStr s => res_bind (list_item (utf8_chars s) i) (fun c => Ok (JStr c))
  | JObj _ => Raise KeyError
  | _ => Raise TypeError
  end.

(** [random.shuffle(v)], with the permutation drawn given as [rng].  The
    swap loop runs for sequences of two elements or more: it swaps in
    place in a list, fails to read an integer key of a dict and fails to
    assign into a string. *)
Definition py_shuffle (rng : list json -> list json) (v : json) : res json :=
  match v with
  | JArr l => Ok (JArr (rng l))
  | JObj kvs => if (length kvs <=? 1)%nat then Ok v else Raise KeyError
  | JStr s => if (length (utf8_chars s) <=? 1)%nat then Ok v else Raise TypeError
  | _ => Raise TypeError
  end.

(** [w.setText(v)]: the argument has to be a [str]. *)
Definition setText_of (w : label) (v : json) : G unit :=
  match v with
  | JStr s => emit (setText w s)
  | _ => glift (Raise TypeError)
  end.

(** *** The handlers *)

Definition show_current_hanja : G unit :=
  let+ l := self hanja_list in
  if negb (py_truthy l) then gret tt
  else
    let+ i := self current_index in
    let+ current := glift (py_item l i) in
    let+ h := glift (getitem current "hanja") in
    do+ setText_of hanja_label h in
    do+ emit (setText reading_label "") in
    do+ emit (setText meaning_label "") in
    emit (setStyleSheet hanja_label hanja_white).

Definition show_reading_meaning : G unit :=
  let+ l := self hanja_list in
  if negb (py_truthy l) then gret tt
  else
    let+ i := self current_index in
    let+ current := glift (py_item l i) in
    let+ r := glift (getitem current "reading") in
    do+ setText_of reading_label r in
    let+ m := glift (getitem current "meaning") in
    do+ setText_of meaning_label m in
    emit (setStyleSheet hanja_label hanja_grey).

Definition update_progress : G unit :=
  let+ i := self current_index in
  let+ l := self hanja_list in
  let+ n := glift (py_len l) in
  do+ emit (setText progress_label
              ("진행: " +:+ pretty (i + 1)%Z +:+ " / " +:+ pretty n)) in
  let+ i := self current_index in
  emit (setValue (i + 1)).

Definition update_hanja_time (value : Z) : G unit :=
  set_hanja_time (value * 1000).

Definition update_meaning_time (value : Z) : G unit :=
  set_meaning_time (value * 1000).

Definition start_memorizing : G unit :=
  let+ l := self hanja_list in
  if negb (py_truthy l) then gret tt
  else
    do+ set_is_running true in
    do+ emit (button_setText start_btn "⏹ 정지") in
    do+ emit (button_setStyleSheet start_btn start_red) in
    do+ set_showing_hanja true in
    do+ show_current_hanja in
    let+ ms := self hanja_time in
    emit (timer_start ms).

Definition stop_memorizing : G unit :=
  do+ set_is_running false in
  do+ emit timer_stop in
  do+ emit (button_setText start_btn "▶ 시작") in
  emit (button_setStyleSheet start_btn start_green).

Definition toggle_start : G unit :=
  let+ running := self is_running in
  if running then stop_memorizing else start_memorizing.

(** [(a) % len(self.hanja_list)]: the divisor is the length of a
    container the guard has found non-empty. *)
Definition step_index (delta : Z) : G unit :=
  let+ i := self current_index in
  let+ l := self hanja_list in
  let+ n := glift (py_len l) in
  set_current_index ((i + delta) mod n).

Definition toggle_display : G unit :=
  let+ l := self hanja_list in
  if negb (py_truthy l) then gret tt
  else
    let+ showing := self showing_hanja in
    if showing then
      do+ set_showing_hanja false in
      do+ show_reading_meaning in
      let+ ms := self meaning_time in
      emit (timer_start ms)
    else
      do+ set_showing_hanja true in
      do+ step_index 1 in
      do+ update_progress in
      do+ show_current_hanja in
      let+ ms := self hanja_time in
      emit (timer_start ms).

(** The common body of [prev_hanja] ([delta] is -1) and [next_hanja]. *)
Definition move_hanja (delta : Z) : G unit :=
  let+ l := self hanja_list in
  if negb (py_truthy l) then gret tt
  else
    do+ step_index delta in
    do+ set_showing_hanja true in
    do+ update_progress in
    do+ show_current_hanja in
    let+ running := self is_running in
    if running then
      do+ emit timer_stop in
      let+ ms := self hanja_time in
      emit (timer_start ms)
    else gret tt.

Definition prev_hanja : G unit := move_hanja (-1).
Definition next_hanja : G unit := move_hanja 1.

Definition shuffle_hanja (rng : list json -> list json) : G unit :=
  let+ l := self hanja_list in
  if py_truthy l then
    let+ l' := glift (py_shuffle rng l) in
    do+ set_hanja_list l' in
    do+ set_current_index 0 in
    do+ update_progress in
    do+ show_current_hanja in
    emit (QMessageBox information "섞기 완료" "한자 순서를 랜덤으로 섞었습니다.")
  else gret tt.

Inductive key : Type :=
  | Key_Space | Key_Left | Key_Right | Key_R | Key_other.

Definition keyPressEvent (rng : list json -> list json) (k : key) : G unit :=
  match k with
  | Key_Space => toggle_start
  | Key_Left => prev_hanja
  | Key_Right => next_hanja
  | Key_R => shuffle_hanja rng
  | Key_other => gret tt
  end.

(** [on_data_loaded(name)], the name already a [str]. *)
Definition on_data_loaded (name : string) : G unit :=
  do+ emit (setText file_label ("파일: " +:+ name)) in
  let+ l := self hanja_list in
  let+ n := glift (py_len l) in
  do+ emit (setText count_label ("총 " +:+ pretty n +:+ "개 한자")) in
  let+ l := self hanja_list in
  let+ n := glift (py_len l) in
  do+ emit (setMaximum n) in
  do+ emit (setValue 0) in
  do+ emit (setEnabled start_btn true) in
  do+ emit (setEnabled shuffle_btn true) in
  do+ emit (setEnabled prev_btn true) in
  do+ emit (setEnabled next_btn true) in
  do+ set_current_index 0 in
  do+ update_progress in
  show_current_hanja.

(** *** Events *)

(** What reaches the handlers: the timer firing, a key, the buttons and
    the two spin boxes. *)
Inductive event : Type :=
  | timeout
  | key_pressed (k : key)
  | start_clicked
  | shuffle_clicked
  | prev_clicked
  | next_clicked
  | hanja_time_changed (value : Z)
  | meaning_time_changed (value : Z).

Definition handle (rng : list json -> list json) (e : event) : G unit :=
  match e with
  | timeout => toggle_display
  | key_pressed k => keyPressEvent rng k
  | start_clicked => toggle_start
  | shuffle_clicked => shuffle_hanja rng
  | prev_clicked => prev_hanja
  | next_clicked => next_hanja
  | hanja_time_changed v => update_hanja_time v
  | meaning_time_changed v => update_meaning_time v
  end.

(** Events handled one after the other, up to the first exception. *)
Fixpoint handle_all (rng : list json -> list json) (es : list event) : G unit :=
  match es with
  | [] => gret tt
  | e :: rest => do+ handle rng e in handle_all rng rest
  end.

(** A card the labels can show: a dict whose three fields are strings. *)
Definition is_card (v : json) : bool :=
  match getitem v "hanja", getitem v "reading", getitem v "meaning" with
  | Ok (JStr _), Ok (JStr _), Ok (JStr _) => true
  | _, _, _ => false
  end.

(** A session with cards loaded and the index on one of them. *)
Definition session_ok (s : session) : Prop :=
  exists l, hanja_list s = JArr l /\ l <> [] /\
    forallb is_card l = true /\
    (0 <= current_index s < Z.of_nat (length l))%Z.

(** The text of field [k] of card [i]. *)
Definition card_field (l : list json) (i : Z) (k : string) : string :=
  match list_item l i with
  | Ok v => match getitem v k with Ok (JStr t) => t | _ => "" end
  | Raise _ => ""
  end.

(** ** The main window: the dropdown and the loaders

    These handlers touch the disk as well as the session.  What the
    dialogs, the clock, the random generator and pandas deliver is an
    argument. *)

Definition W (A : Type) : Type :=
  disk -> session -> res A * disk * session * list cmd.

Definition wret {A} (a : A) : W A := fun fs s => (Ok a, fs, s, []).
Definition wbind {A B} (m : W A) (k : A -> W B) : W B :=
  fun fs s => match m fs s with
              | (Ok a, fs', s', c) =>
                  match k a fs' s' with
                  | (r, fs'', s'', c') => (r, fs'', s'', c ++ c')
                  end
              | (Raise e, fs', s', c) => (Raise e, fs', s', c)
              end.
Definition wlift {A} (r : res A) : W A := fun fs s => (r, fs, s, []).
Definition on_disk {A} (m : M A) : W A :=
  fun fs s => match m fs with (r, fs') => (r, fs', s, []) end.
Definition on_session {A} (g : G A) : W A :=
  fun fs s => match g s with (r, s', c) => (r, fs, s', c) end.

(** [try: m  except Exception as e: h e]. *)
Definition wtry (m : W unit) (h : exn -> W unit) : W unit :=
  fun fs s => match m fs s with
              | (Ok a, fs', s', c) => (Ok a, fs', s', c)
              | (Raise e, fs', s', c) =>
                  match h e fs' s' with
                  | (r, fs'', s'', c') => (r, fs'', s'', c ++ c')
                  end
              end.

Notation "'let!' x ':=' m 'in' k" := (wbind m (fun x => k))
  (at level 10, x binder, m at level 200, k at level 200).
Notation "'do!' m 'in' k" := (wbind m (fun _ => k))
  (at level 10, m at level 200, k at level 200).

Definition message (kind : box) (title text : string) : W unit :=
  on_session (emit (QMessageBox kind title text)).

(** The line feed of the message texts. *)
Definition newline : string := String (ascii_of_nat 10) "".

(** [d.get(k, default)]. *)
Definition get_default (d : json) (k : string) (default : json) : res json :=
  match d with
  | JObj kvs => Ok (match assoc k kvs with Some v => v | None => default end)
  | _ => Raise AttributeError
  end.

(** [os.path.basename]: what follows the last [/]. *)
Fixpoint after_last_slash (p : string) : option string :=
  match p with
  | EmptyString => None
  | String a r =>
      match after_last_slash r with
      | Some t => Some t
      | None => if Ascii.eqb a "/" then Some r else None
      end
  end.

Definition os_path_basename (p : string) : string :=
  match after_last_slash p with Some t => t | None => p end.

(** [os.path.splitext(p)[0]] for a [p] without [/]: [p] up to its last
    dot, if a character other than a dot comes before that dot. *)
Fixpoint split_last_dot (p : string) : option (string * string) :=
  match p with
  | EmptyString => None
  | String a r =>
      match split_last_dot r with
      | Some (root, ext) => Some (String a root, ext)
      | None => if Ascii.eqb a "." then Some (EmptyString, p) else None
      end
  end.

Definition all_dots (s : string) : bool :=
  forallb (fun a => Ascii.eqb a ".") (list_ascii_of_string s).

Definition splitext_root (p : string) : string :=
  match split_last_dot p with
  | Some (root, _) => if all_dots root then p else root
  | None => p
  end.

(** What [pd.read_excel] or [pd.read_csv] delivers: a frame, or an
    exception with its text. *)
Inductive fetched : Type :=
  | read_frame (df : list (list cell))
  | read_failed (text : string).

Section MainWindow.

Variable home : string.
Variable unicode_alnum : string -> bool.

(** [str] of a list or a dict (the [repr] of the interpreter). *)
Variable py_repr : json -> string.

(** [str(e)] of an exception raised by the code modelled here. *)
Variable str_exn : exn -> string.

(** [str(v)], as an f-string formats a loaded value. *)
Definition py_str (v : json) : string :=
  match v with
  | JStr s => s
  | JNum n => pretty n
  | JBool true => "True"
  | JBool false => "False"
  | JNull => "None"
  | _ => py_repr v
  end.

(** The loop of [load_cache_dropdown]. *)
Fixpoint add_items (files : list json) : G unit :=
  match files with
  | [] => gret tt
  | file_info :: rest =>
      let+ name := glift (getitem file_info "name") in
      let+ count := glift (getitem file_info "count") in
      let display_name := py_str name +:+ " (" +:+ py_str count +:+ "개)" in
      let+ source_type := glift (getitem file_info "source_type") in
      let display_name :=
        if negb (ne_str source_type "google") then "☁️ " +:+ display_name
        else "💻 " +:+ display_name in
      do+ emit (addItem display_name (Some file_info)) in
      add_items rest
  end.

Definition load_cache_dropdown : W unit :=
  do! on_session (emit combo_clear) in
  do! on_session (emit (addItem "-- 저장된 파일 선택 --" None)) in
  let! index := on_disk (load_cache_index home) in
  let! files := wlift (get_default index "files" (JArr [])) in
  let! elems := wlift (py_iter files) in
  on_session (add_items elems).

(** [load_from_cache(c)] for a loaded value [c]: [os.path.join] wants a
    string. *)
Definition load_from_cache_of (c : json) : W (option json) :=
  match c with
  | JStr s => on_disk (load_from_cache home s)
  | _ => wlift (Raise TypeError)
  end.

(** [self.hanja_list = data; random.shuffle(self.hanja_list)]. *)
Definition set_and_shuffle (rng : list json -> list json) (data : json) : W unit :=
  do! on_session (set_hanja_list data) in
  let! l := on_session (self hanja_list) in
  let! l' := wlift (py_shuffle rng l) in
  on_session (set_hanja_list l').

(** [load_from_cache_selected], given [self.cache_combo.currentData()]. *)
Definition load_from_cache_selected (rng : list json -> list json)
    (currentData : option json) : W unit :=
  match currentData with
  | Some file_info =>
      if py_truthy file_info then
        let! c := wlift (getitem file_info "cache_file") in
        let! data := load_from_cache_of c in
        match data with
        | Some v =>
            if py_truthy v then
              do! set_and_shuffle rng v in
              let! name := wlift (getitem file_info "name") in
              on_session (on_data_loaded (py_str name))
            else message critical "오류" "캐시 파일을 찾을 수 없습니다."
        | None => message critical "오류" "캐시 파일을 찾을 수 없습니다."
        end
      else message warning "알림" "파일을 선택해주세요."
  | None => message warning "알림" "파일을 선택해주세요."
  end.

(** The statements both loaders run once they have records. *)
Definition cache_and_show (rng : list json -> list json) (now : datetime)
    (name source_type source_path : string) (data : list record) : W unit :=
  do! on_disk (add_to_cache home unicode_alnum now name source_type source_path
                 (map record_to_json data)) in
  do! set_and_shuffle rng (JArr (map record_to_json data)) in
  do! on_session (on_data_loaded name) in
  load_cache_dropdown.

Definition loaded_count : W Z :=
  let! l := on_session (self hanja_list) in
  wlift (py_len l).

(** [load_local_excel], given the path the file dialog returns, the
    clock and what [pd.read_excel] delivers. *)
Definition load_local_excel (rng : list json -> list json) (now : datetime)
    (file_path : string) (read : fetched) : W unit :=
  if truthy file_path then
    wtry
      match read with
      | read_failed _ => wlift (Raise ValueError)
      | read_frame df =>
          let data := parse_dataframe df in
          match data with
          | [] => wret tt
          | _ :: _ =>
              let filename := os_path_basename file_path in
              let name := splitext_root filename in
              do! cache_and_show rng now name "local" file_path data in
              let! n := loaded_count in
              message information "로드 완료"
                (pretty n +:+ "개의 한자를 로드했습니다.")
          end
      end
      (fun e =>
         let text := match read with
                     | read_failed t => t
                     | read_frame _ => str_exn e
                     end in
         message critical "오류" ("파일 읽기 오류:" +:+ newline +:+ text))
  else wret tt.

(** [load_google_sheet], given whether the dialog was accepted, what its
    [get_url] and [get_name] return, the clock and what [pd.read_csv]
    delivers. *)
Definition load_google_sheet (rng : list json -> list json) (now : datetime)
    (accepted : bool) (url name : string) (read : fetched) : W unit :=
  if accepted then
    if negb (truthy url) then message warning "알림" "URL을 입력해주세요."
    else
      match get_google_sheet_csv_url url "0" with
      | None => message critical "오류" "올바른 구글 시트 URL이 아닙니다."
      | Some csv_url =>
          if negb (truthy csv_url)
          then message critical "오류" "올바른 구글 시트 URL이 아닙니다."
          else
          wtry
            match read with
            | read_failed _ => wlift (Raise ValueError)
            | read_frame df =>
                let data := parse_dataframe df in
                match data with
                | [] => message warning "알림" "데이터를 찾을 수 없습니다."
                | _ :: _ =>
                    do! cache_and_show rng now name "google" url data in
                    let! n := loaded_count in
                    message information "로드 완료"
                      ("구글 시트에서 " +:+ pretty n +:+ "개의 한자를 로드했습니다.")
                end
            end
            (fun e =>
               let text := match read with
                           | read_failed t => t
                           | read_frame _ => str_exn e
                           end in
               message critical "오류"
                 ("구글 시트 로드 실패:" +:+ newline +:+ text +:+ newline +:+ newline
                  +:+ "시트가 '링크가 있는 모든 사용자에게 공개'로 설정되어 있는지 확인해주세요."))
      end
  else wret tt.

End MainWindow.

(** An index entry the dropdown can list: a dict with the three fields the
    f-string and the test read. *)
Definition entry_listed (e : json) : bool :=
  match getitem e "name", getitem e "count", getitem e "source_type" with
  | Ok _, Ok _, Ok _ => true
  | _, _, _ => false
  end.

(** The dropdown item of a listed entry. *)
Definition item_of (py_repr : json -> string) (e : json) : cmd :=
  match getitem e "name", getitem e "count", getitem e "source_type" with
  | Ok name, Ok count, Ok source_type =>
      addItem
        ((if negb (ne_str source_type "google") then "☁️ " else "💻 ")
         +:+ py_str py_repr name +:+ " (" +:+ py_str py_repr count +:+ "개)")
        (Some e)
  | _, _, _ => combo_clear
  end.

(** The first item of the dropdown. *)
Definition placeholder : cmd := addItem "-- 저장된 파일 선택 --" None.

(** The message [load_from_cache_selected] shows when it has no data. *)
Definition not_found : cmd :=
  QMessageBox critical "오류" "캐시 파일을 찾을 수 없습니다.".

(** A value the progress bar of a list of [n] cards can take. *)
Definition value_in_range (n : Z) (c : cmd) : bool :=
  match c with
  | setValue v => ((1 <=? v) && (v <=? n))%Z
  | _ => true
  end.

(** The session a handler leaves, and the widget calls it makes. *)
Definition after {A} (m : G A) (s : session) : session := snd (fst (m s)).
Definition calls {A} (m : G A) (s : session) : list cmd := snd (m s).

(** ** Concrete inputs of the further examples *)

(** The names and counts of the examples are strings and numbers, so the
    [repr] of a container is never asked for. *)
Definition repr0 (v : json) : string := "".

(** [str(KeyError('files'))], the text of the one exception the examples
    raise. *)
Definition str_exn0 (e : exn) : string := "'files'".

(** A shuffle that happens to reverse the list. *)
Definition rng0 (l : list json) : list json := reverse l.

(** Two cards loaded, the first one showing its character. *)
Definition session0 : session := mk_session (JArr data1) 0 true false 2000 2000.

Definition events0 : list event :=
  [next_clicked; timeout; key_pressed Key_R; start_clicked; timeout; timeout;
   prev_clicked; hanja_time_changed 3; key_pressed Key_Space].

(** A shareable sheet URL. *)
Definition sheet_url0 : string :=
  "https://docs.google.com/spreadsheets/d/ABC123/edit".

(** An index file holding a dict without [files]. *)
Definition disk_no_files : disk := {[index0 := Json (JObj [])]}.

(** An index whose second entry has a [name] only. *)
Definition bad_entry : json := JObj [("name", JStr "b")].
Definition disk_bad_entry : disk :=
  {[index0 := Json (JObj [("files", JArr [entry_a; bad_entry; entry_a])])]}.

(** Two frames that differ in their first column and in a fifth one. *)
Definition frame_a : list (list cell) :=
  [[Cell "1"; Cell "漢"; Cell "han"; Cell "Chinese"]].
Definition frame_b : list (list cell) :=
  [[NA; Cell "漢"; Cell "han"; Cell "Chinese"; Cell "note"]].

(** * Properties *)

(** ** Strings, dates and paths *)

Lemma has_digit_app s t : has_digit (s +:+ t) = has_digit s || has_digit t.
Proof.
  unfold has_digit. induction s as [|a s IH]; [reflexivity|].
  change (String a s +:+ t) with (String a (s +:+ t)).
  cbn [list_ascii_of_string existsb]. rewrite IH. apply orb_assoc.
Qed.

Lemma is_digit_digit n : is_digit (digit n) = true.
Proof.
  unfold digit. pose proof (Nat.mod_upper_bound n 10 ltac:(lia)) as H.
  destruct (n mod 10) as [|[|[|[|[|[|[|[|[|[|k]]]]]]]]]]; try reflexivity; lia.
Qed.

Lemma has_digit_strftime t : has_digit (strftime t) = true.
Proof.
  unfold strftime, pad4. change (String ?a ?s +:+ ?t) with (String a (s +:+ t)).
  unfold has_digit. cbn [list_ascii_of_string existsb].
  by rewrite is_digit_digit.
Qed.

Lemma starts_with_slash_app s t :
  starts_with_slash (s +:+ t) =
  if String.eqb s "" then starts_with_slash t else starts_with_slash s.
Proof. by destruct s. Qed.

Lemma os_path_join_relative a b1 b2 :
  starts_with_slash b1 = false -> starts_with_slash b2 = false ->
  os_path_join a b1 = os_path_join a b2 -> b1 = b2.
Proof.
  unfold os_path_join. intros -> ->.
  destruct (String.eqb a "" || ends_with_slash a); intros H.
  - by apply (inj (String.app a)) in H.
  - apply (inj (String.app a)) in H. by apply (inj (String.app "/")) in H.
Qed.

Lemma os_path_join_absolute a b :
  starts_with_slash b = true -> os_path_join a b = b.
Proof. unfold os_path_join. by intros ->. Qed.

Lemma starts_with_slash_join a b :
  starts_with_slash a = true -> starts_with_slash (os_path_join a b) = true.
Proof.
  intros Ha. unfold os_path_join.
  destruct (starts_with_slash b) eqn:Hb; [done|].
  assert (String.eqb a "" = false) as Hne by (by destruct a).
  destruct (String.eqb a "" || ends_with_slash a);
    by rewrite starts_with_slash_app, Hne.
Qed.

(** ** The characters of a string, and what the file name is made of *)

Lemma list_ascii_app s t :
  list_ascii_of_string (s +:+ t) = list_ascii_of_string s ++ list_ascii_of_string t.
Proof.
  induction s as [|a s IH]; [done|].
  change (String a s +:+ t) with (String a (s +:+ t)). cbn. by rewrite IH.
Qed.

Lemma str_app_assoc s t u : (s +:+ t) +:+ u = s +:+ t +:+ u.
Proof.
  induction s as [|a s IH]; [done|].
  change (String a s +:+ t) with (String a (s +:+ t)).
  change (String a (s +:+ t) +:+ u) with (String a ((s +:+ t) +:+ u)).
  by rewrite IH.
Qed.

Lemma all_safe_app s t : all_safe (s +:+ t) = all_safe s && all_safe t.
Proof. unfold all_safe. by rewrite list_ascii_app, forallb_app. Qed.

Lemma high_bytes_safe s : high_bytes s = true -> all_safe s = true.
Proof.
  unfold high_bytes, all_safe. rewrite !forallb_forall.
  intros H a Ha. unfold safe_byte. by rewrite (H a Ha).
Qed.

Lemma split_cp_groups s :
  high_bytes (fst (split_cp s)) = true /\
  Forall (fun g => group_ok g = true) (snd (split_cp s)).
Proof.
  induction s as [|a s [IHc IHg]]; [by split|].
  cbn [split_cp]. destruct (split_cp s) as [c gs]. cbn [fst snd] in *.
  destruct (is_cont a) eqn:Hcont.
  - cbn [fst snd]. split; [|done].
    unfold high_bytes. cbn [list_ascii_of_string forallb].
    unfold is_cont in Hcont. apply andb_prop in Hcont as [-> _]. exact IHc.
  - destruct (byte a <? 128) eqn:Hlow; cbn [fst snd]; (split; [done|]).
    + apply Forall_cons. split; [cbn [group_ok]; by rewrite Hlow|].
      destruct (String.eqb_spec c "") as [->|Hne]; [done|].
      apply Forall_cons. split; [|done].
      destruct c as [|b r]; [done|]. unfold high_bytes in IHc.
      cbn [list_ascii_of_string forallb] in IHc.
      apply andb_prop in IHc as [Hb Hr]. cbn [group_ok].
      apply Nat.leb_le in Hb. by rewrite (proj2 (Nat.ltb_ge _ _) Hb).
    + apply Forall_cons. split; [|done]. cbn [group_ok]. by rewrite Hlow.
Qed.

Lemma utf8_chars_groups s : Forall (fun g => group_ok g = true) (utf8_chars s).
Proof.
  unfold utf8_chars. pose proof (split_cp_groups s) as [Hc Hg].
  destruct (split_cp s) as [c gs]. cbn [fst snd] in *.
  destruct (String.eqb_spec c "") as [->|Hne]; [done|].
  apply Forall_cons. split; [|done].
  destruct c as [|b r]; [done|]. unfold high_bytes in Hc.
  cbn [list_ascii_of_string forallb] in Hc.
  apply andb_prop in Hc as [Hb Hr]. cbn [group_ok].
  apply Nat.leb_le in Hb. by rewrite (proj2 (Nat.ltb_ge _ _) Hb).
Qed.

Lemma is_digit_safe a : is_digit a = true -> safe_byte a = true.
Proof.
  intros H. unfold safe_byte, is_alnum. rewrite H.
  by rewrite !orb_true_r.
Qed.

Lemma all_safe_strftime t : all_safe (strftime t) = true.
Proof.
  unfold strftime, pad4, pad2.
  change (String ?a ?s +:+ ?t) with (String a (s +:+ t)).
  repeat (change ("" +:+ ?t) with t;
          change (String ?a ?s +:+ ?t) with (String a (s +:+ t))).
  unfold all_safe. cbn [list_ascii_of_string forallb].
  rewrite !(is_digit_safe _ (is_digit_digit _)). reflexivity.
Qed.

Section CacheStoreFacts.

Variable home : string.
Variable unicode_alnum : string -> bool.

Local Abbreviation DIR := (CACHE_DIR home).
Local Abbreviation INDEX := (CACHE_INDEX_FILE home).
Local Abbreviation filename_of := (cache_filename_of unicode_alnum).

Lemma keep_char_no_slash g :
  keep_char unicode_alnum g = true -> starts_with_slash g = false.
Proof.
  destruct g as [|a r]; [done|]. cbn [keep_char starts_with_slash].
  destruct (Ascii.eqb_spec a "/") as [->|]; [|done].
  by vm_compute.
Qed.

Lemma concat_str_no_slash gs :
  Forall (fun g => starts_with_slash g = false) gs ->
  starts_with_slash (concat_str gs) = false.
Proof.
  induction 1 as [|g gs Hg _ IH]; [done|].
  cbn [concat_str]. rewrite starts_with_slash_app. by destruct (String.eqb g "").
Qed.

Lemma safe_name_no_slash name :
  starts_with_slash (safe_name_of unicode_alnum name) = false.
Proof.
  apply concat_str_no_slash, Forall_take, Forall_map, Forall_forall.
  intros g _. cbn. destruct (keep_char unicode_alnum g) eqn:Hk; [|done].
  by apply keep_char_no_slash.
Qed.

Lemma cache_filename_relative now name :
  starts_with_slash (filename_of now name) = false.
Proof.
  unfold cache_filename_of. rewrite starts_with_slash_app.
  destruct (String.eqb _ ""); [done|]. apply safe_name_no_slash.
Qed.

Lemma cache_filename_has_digit now name :
  has_digit (filename_of now name) = true.
Proof.
  unfold cache_filename_of. rewrite !has_digit_app, has_digit_strftime.
  by rewrite !orb_true_r.
Qed.

Lemma sanitized_safe g :
  group_ok g = true ->
  all_safe (if keep_char unicode_alnum g then g else "_") = true.
Proof.
  intros Hok. destruct (keep_char unicode_alnum g) eqn:Hk; [|done].
  destruct g as [|a r]; [done|]. cbn [group_ok] in Hok. cbn [keep_char] in Hk.
  destruct (byte a <? 128) eqn:Hlow.
  - apply String.eqb_eq in Hok as ->. unfold all_safe, safe_byte.
    cbn [list_ascii_of_string forallb].
    apply orb_prop in Hk as [[->| ->]%orb_prop| ->]; by rewrite ?orb_true_r.
  - unfold all_safe. cbn [list_ascii_of_string forallb].
    apply andb_true_intro. split.
    + unfold safe_byte. apply Nat.ltb_ge in Hlow.
      by rewrite (proj2 (Nat.leb_le _ _) Hlow).
    + by apply high_bytes_safe.
Qed.

Lemma all_safe_concat gs :
  Forall (fun g => all_safe g = true) gs -> all_safe (concat_str gs) = true.
Proof.
  induction 1 as [|g gs Hg _ IH]; [done|].
  cbn [concat_str]. by rewrite all_safe_app, Hg, IH.
Qed.

Lemma all_safe_safe_name name : all_safe (safe_name_of unicode_alnum name) = true.
Proof.
  apply all_safe_concat, Forall_take, Forall_map.
  eapply Forall_impl; [apply utf8_chars_groups|].
  intros g Hg. by apply sanitized_safe.
Qed.

(** A generated file name is a plain one. *)
Lemma cache_filename_all_safe now name : all_safe (filename_of now name) = true.
Proof.
  unfold cache_filename_of.
  by rewrite !all_safe_app, all_safe_safe_name, all_safe_strftime.
Qed.

Lemma cache_filename_plain now name : plain_name (filename_of now name) = true.
Proof.
  pose proof (cache_filename_has_digit now name) as Hd.
  unfold plain_name. repeat (apply andb_true_intro; split).
  - destruct (String.eqb_spec (filename_of now name) "") as [E|]; [|done].
    by rewrite E in Hd.
  - destruct (String.eqb_spec (filename_of now name) ".") as [E|]; [|done].
    by rewrite E in Hd.
  - destruct (String.eqb_spec (filename_of now name) "..") as [E|]; [|done].
    by rewrite E in Hd.
  - pose proof (cache_filename_all_safe now name) as Hs.
    unfold all_safe in Hs. rewrite forallb_forall in Hs.
    apply forallb_forall. intros a Ha. specialize (Hs a Ha).
    destruct (Ascii.eqb_spec a "/") as [->|]; [discriminate Hs|done].
Qed.

(** A generated cache file is never the index file. *)
Lemma cache_filepath_ne_index now name :
  os_path_join DIR (filename_of now name) <> INDEX.
Proof.
  intros H. apply os_path_join_relative in H;
    [|apply cache_filename_relative|done].
  pose proof (cache_filename_has_digit now name) as Hd.
  rewrite H in Hd. discriminate Hd.
Qed.


Lemma load_cache_index_run fs :
  load_cache_index home fs = (Ok (stored_index home fs), fs).
Proof.
  unfold load_cache_index, stored_index, bind, ensure_cache_dir, ret,
    os_path_exists, try_except, read_json.
  destruct (fs !! INDEX) as [[|v]|] eqn:E; case_bool_decide as Hex;
    try rewrite E; try done.
  all: first [by destruct Hex | exfalso; apply Hex; eauto].
Qed.

Lemma assoc_dict_set k v kvs : assoc k (dict_set k v kvs) = Some v.
Proof.
  induction kvs as [|[k' v'] kvs IH]; cbn.
  - by rewrite String.eqb_refl.
  - destruct (String.eqb k' k) eqn:E; cbn; [by rewrite String.eqb_refl|].
    by rewrite E.
Qed.

Lemma dict_set_dict_set k v w kvs :
  dict_set k w (dict_set k v kvs) = dict_set k w kvs.
Proof.
  induction kvs as [|[k' v'] kvs IH]; cbn.
  - by rewrite String.eqb_refl.
  - destruct (String.eqb k' k) eqn:E; cbn.
    + by rewrite String.eqb_refl.
    + by rewrite E, IH.
Qed.

Lemma entry_ok_obj e : entry_ok e = true -> exists kvs, e = JObj kvs.
Proof. destruct e; try discriminate. eauto. Qed.

Lemma dedup_ok sp l :
  forallb entry_ok l = true -> dedup sp l = Ok (List.filter (keeps sp) l).
Proof.
  induction l as [|f l IH]; [done|]. cbn [forallb]. intros [Hf Hl]%andb_prop.
  cbn [dedup List.filter]. rewrite (IH Hl).
  destruct (entry_ok_obj _ Hf) as [kvs ->]. done.
Qed.

Lemma remove_old_files_run olds fs :
  forallb entry_ok olds = true ->
  remove_old_files home olds fs =
    (Ok tt, delete_all (omap (entry_path home) olds) fs).
Proof.
  revert fs. induction olds as [|old olds IH]; intros fs; [done|].
  cbn [forallb]. intros [Ho Hl]%andb_prop.
  destruct old as [| | | | |kvs]; try discriminate.
  unfold entry_ok in Ho. cbn in Ho.
  destruct (assoc "cache_file" kvs) as [[| | |c| |]|] eqn:Hc; try discriminate.
  assert (entry_path home (JObj kvs) = Some (os_path_join DIR c)) as Hp
    by (unfold entry_path, entry_file; by rewrite Hc).
  change (omap (entry_path home) (JObj kvs :: olds))
    with (match entry_path home (JObj kvs) with
          | Some p => p :: omap (entry_path home) olds
          | None => omap (entry_path home) olds
          end).
  rewrite Hp. cbn [remove_old_files delete_all].
  unfold bind, lift, os_path_exists, os_remove, ret. cbn [getitem].
  rewrite Hc. cbn [cache_path].
  case_bool_decide as Hex.
  - destruct Hex as [x Hx]. rewrite Hx. by rewrite IH.
  - rewrite IH by done. f_equal. f_equal. symmetry. apply delete_id.
    by apply eq_None_not_Some.
Qed.

Lemma lookup_delete_all ps (fs : disk) q :
  delete_all ps fs !! q = if decide (q ∈ ps) then None else fs !! q.
Proof.
  revert fs. induction ps as [|p ps IH]; intros fs; cbn [delete_all].
  - rewrite decide_False; [done|]. apply not_elem_of_nil.
  - rewrite IH. destruct (decide (q ∈ ps)) as [Hin|Hnin].
    + rewrite decide_True; [done|]. by apply elem_of_cons; right.
    + destruct (decide (q = p)) as [->|Hne].
      * rewrite decide_True; [|by apply elem_of_cons; left]. apply lookup_delete_eq.
      * rewrite decide_False; [by apply lookup_delete_ne|].
        intros [?|?]%elem_of_cons; done.
Qed.


Lemma stored_entries_inv fs l :
  stored_entries home fs = Some l ->
  exists kvs, stored_index home fs = JObj kvs /\ assoc "files" kvs = Some (JArr l).
Proof.
  unfold stored_entries. rewrite load_cache_index_run.
  destruct (stored_index home fs) as [| | | | |kvs]; try discriminate.
  destruct (assoc "files" kvs) as [[| | | |l'|]|] eqn:E; try discriminate.
  intros [= ->]. eauto.
Qed.

Lemma forallb_entry_ok_filter P l :
  forallb entry_ok l = true -> forallb entry_ok (List.filter P l) = true.
Proof.
  rewrite !forallb_forall. intros H x [Hx _]%filter_In. by apply H.
Qed.

Lemma forallb_entry_ok_drop n l :
  forallb entry_ok l = true -> forallb entry_ok (drop n l) = true.
Proof.
  rewrite !forallb_forall. intros H x Hx. apply H.
  apply list_elem_of_In. apply list_elem_of_In in Hx.
  eapply subseteq_drop, Hx.
Qed.

(** What one call does to the disk, when the stored index is a list of
    well-formed entries. *)
Lemma add_to_cache_run now name st sp data fs l :
  stored_entries home fs = Some l ->
  forallb entry_ok l = true ->
  let fname := filename_of now name in
  let path := os_path_join DIR fname in
  let entry := new_entry name st sp fname (strftime now) data in
  let files := updated_files entry sp l in
  exists kvs,
    add_to_cache home unicode_alnum now name st sp data fs =
      (Ok path,
       <[INDEX := Json (JObj (dict_set "files" (JArr (take 20 files)) kvs))]>
         (delete_all (omap (entry_path home) (drop 20 files))
            (<[path := Json (JArr data)]> fs))).
Proof.
  intros Hl Hok fname path entry files.
  destruct (stored_entries_inv _ _ Hl) as (kvs & Hidx & Hfiles).
  exists kvs. unfold add_to_cache.
  fold fname. fold path. fold entry.
  unfold bind at 1. unfold ensure_cache_dir at 1, ret at 1.
  unfold bind at 1, open_w at 1.
  unfold bind at 1, json_dump at 1.
  rewrite insert_insert_eq.
  unfold bind at 1. rewrite load_cache_index_run.
  assert (stored_index home (<[path := Json (JArr data)]> fs) = JObj kvs) as ->.
  { unfold stored_index. rewrite lookup_insert_ne; [exact Hidx|].
    apply cache_filepath_ne_index. }
  unfold bind at 1, lift at 1. cbn [getitem]. rewrite Hfiles.
  unfold bind at 1, lift at 1. cbn [py_iter].
  unfold bind at 1, lift at 1. rewrite (dedup_ok _ _ Hok).
  unfold bind at 1, lift at 1. cbn [setitem].
  unfold bind at 1, lift at 1. cbn [setitem].
  fold (updated_files entry sp l). fold files.
  rewrite dict_set_dict_set.
  unfold bind at 1.
  destruct (20 <? length files) eqn:Hlen.
  - unfold bind at 1, lift at 1. cbn [setitem]. rewrite dict_set_dict_set.
    unfold bind at 1. rewrite remove_old_files_run.
    2:{ apply forallb_entry_ok_drop. unfold files, updated_files.
        cbn [forallb]. apply andb_true_intro. split; [done|].
        by apply forallb_entry_ok_filter. }
    unfold ret at 1. unfold bind at 1, save_cache_index.
    unfold bind at 1, ensure_cache_dir, ret at 1.
    unfold bind at 1, open_w. unfold json_dump, ret.
    by rewrite insert_insert_eq, ?dict_set_dict_set.
  - apply Nat.ltb_ge in Hlen.
    unfold ret at 1. unfold bind at 1, save_cache_index.
    unfold bind at 1, ensure_cache_dir, ret at 1.
    unfold bind at 1, open_w. unfold json_dump, ret.
    rewrite insert_insert_eq.
    rewrite (drop_ge files 20) by done. rewrite (take_ge files 20) by done.
    by rewrite ?dict_set_dict_set.
Qed.


Lemma add_to_cache_spec now name st sp data fs l :
  stored_entries home fs = Some l ->
  forallb entry_ok l = true ->
  let fname := filename_of now name in
  let path := os_path_join DIR fname in
  let entry := new_entry name st sp fname (strftime now) data in
  let files := updated_files entry sp l in
  exists fs',
    add_to_cache home unicode_alnum now name st sp data fs = (Ok path, fs') /\
    stored_entries home fs' = Some (take 20 files) /\
    (forall q, q <> INDEX ->
       fs' !! q =
         if decide (q ∈ omap (entry_path home) (drop 20 files)) then None
         else if decide (q = path) then Some (Json (JArr data))
         else fs !! q).
Proof.
  intros Hl Hok fname path entry files.
  destruct (add_to_cache_run now name st sp data fs l Hl Hok) as [kvs Hrun].
  eexists. split; [exact Hrun|]. split.
  - unfold stored_entries. rewrite load_cache_index_run.
    unfold stored_index. rewrite lookup_insert_eq.
    by rewrite assoc_dict_set.
  - intros q Hq. rewrite lookup_insert_ne by done.
    rewrite lookup_delete_all. destruct (decide _); [done|].
    destruct (decide (q = path)) as [->|Hne].
    + apply lookup_insert_eq.
    + by apply lookup_insert_ne.
Qed.

(** ** The stored index is read without failure *)

(** Claim C7.  [load_cache_index] never raises: on every disk it returns
    an index and leaves the disk as it was; when the index file is absent
    or holds text that [json.load] rejects, what it returns is the empty
    index [{"files": []}]. *)
Theorem load_cache_index_never_fails (fs : disk) :
  (exists index, load_cache_index home fs = (Ok index, fs)) /\
  (fs !! INDEX = None \/ fs !! INDEX = Some Corrupt ->
   load_cache_index home fs = (Ok empty_index, fs)).
Proof.
  rewrite load_cache_index_run. split; [eauto|].
  unfold stored_index. by intros [-> | ->].
Qed.

(** Claim C8.  Take a cache reference: the plain file name an index entry
    holds, or the path [add_to_cache] returns for one.  When its backing
    file does not exist, [load_from_cache] returns [None]; it raises
    nothing and changes nothing. *)
Theorem load_from_cache_missing (fs : disk) (cache_filename : string) :
  cache_reference home cache_filename ->
  fs !! os_path_join DIR cache_filename = None ->
  load_from_cache home cache_filename fs = (Ok None, fs).
Proof.
  intros _ H. unfold load_from_cache, bind, os_path_exists, ret.
  rewrite H. case_bool_decide as Hex; [by destruct Hex|done].
Qed.


(** ** Replacing the entry of a source *)

Lemma has_source_keeps sp e : has_source sp e = negb (keeps sp e).
Proof. reflexivity. Qed.


Lemma In_take {A} n (l : list A) x : In x (take n l) -> In x l.
Proof.
  intros H%list_elem_of_In. apply list_elem_of_In.
  apply elem_of_take in H as (i & Hi & _). by eapply list_elem_of_lookup_2.
Qed.








(** ** Entries with plain file names *)

Lemma entry_plain_ok e : entry_plain e = true -> entry_ok e = true.
Proof. unfold entry_plain, entry_ok. by destruct (entry_file e). Qed.

Lemma forallb_plain_ok l :
  forallb entry_plain l = true -> forallb entry_ok l = true.
Proof.
  rewrite !forallb_forall. intros H x Hx. by apply entry_plain_ok, H.
Qed.

Lemma entry_plain_new_entry name st sp fname ts data :
  entry_plain (new_entry name st sp fname ts data) = plain_name fname.
Proof. reflexivity. Qed.

(** ** The cap of 20 entries *)

Lemma entry_backed_plain e : entry_backed home e = true -> entry_plain e = true.
Proof. unfold entry_backed. by intros [H _]%andb_prop. Qed.

Lemma entry_backed_ok e : entry_backed home e = true -> entry_ok e = true.
Proof. intros H. by apply entry_plain_ok, entry_backed_plain. Qed.

Lemma entry_backed_ne_index e q :
  entry_backed home e = true -> entry_path home e = Some q -> q <> INDEX.
Proof.
  unfold entry_backed. intros [_ H]%andb_prop Hq. rewrite Hq in H.
  by apply negb_true_iff, String.eqb_neq in H.
Qed.

Lemma forallb_backed_ok l :
  forallb (entry_backed home) l = true -> forallb entry_ok l = true.
Proof.
  rewrite !forallb_forall. intros H x Hx. by apply entry_backed_ok, H.
Qed.

Lemma entry_path_new_entry name st sp fname ts data :
  entry_path home (new_entry name st sp fname ts data)
  = Some (os_path_join DIR fname).
Proof. reflexivity. Qed.

Lemma call_entry_backed c : entry_backed home (call_entry unicode_alnum c) = true.
Proof.
  unfold entry_backed, call_entry.
  rewrite entry_plain_new_entry, entry_path_new_entry, cache_filename_plain.
  apply negb_true_iff, String.eqb_neq, cache_filepath_ne_index.
Qed.

Lemma updated_files_backed entry sp l :
  entry_backed home entry = true ->
  forallb (entry_backed home) l = true ->
  forallb (entry_backed home) (updated_files entry sp l) = true.
Proof.
  intros He Hl. unfold updated_files. cbn [forallb]. rewrite He. cbn.
  rewrite forallb_forall in Hl. apply forallb_forall.
  intros x [Hx _]%filter_In. by apply Hl.
Qed.

Lemma index_within_cap_inv fs :
  index_within_cap home fs = true ->
  exists l, stored_entries home fs = Some l /\
            forallb (entry_backed home) l = true /\ length l <= 20.
Proof.
  unfold index_within_cap. destruct (stored_entries home fs) as [l|]; [|done].
  intros [H1 H2%Nat.leb_le]%andb_prop. eauto.
Qed.

Lemma index_within_cap_step c fs :
  index_within_cap home fs = true ->
  index_within_cap home (snd (run_call home unicode_alnum c fs)) = true.
Proof.
  intros (l & Hl & Hb & _)%index_within_cap_inv.
  destruct (add_to_cache_spec (call_now c) (call_name c) (call_type c)
              (call_source c) (call_data c) fs l Hl (forallb_backed_ok _ Hb))
    as (fs' & Hrun & Hstored & _).
  unfold run_call. rewrite Hrun. cbn [snd].
  unfold index_within_cap. rewrite Hstored.
  apply andb_true_intro. split.
  - pose proof (updated_files_backed _ (call_source c) l (call_entry_backed c) Hb)
      as Hall.
    rewrite forallb_forall in Hall. apply forallb_forall.
    intros x Hx%In_take. by apply Hall.
  - apply Nat.leb_le. rewrite length_take. lia.
Qed.

Lemma index_within_cap_run cs fs :
  index_within_cap home fs = true ->
  index_within_cap home (run_calls home unicode_alnum cs fs) = true.
Proof.
  revert fs. induction cs as [|c cs IH]; intros fs H; [done|].
  cbn [run_calls foldl]. apply IH. by apply index_within_cap_step.
Qed.

(** Claim C2.  Start from a stored index of at most 20 entries, each backed
    by a cache file (a dict whose [cache_file] is a plain file name, and
    not that of the index), and make any sequence of calls.  The stored
    index then still has at most 20 entries, and one more call succeeds,
    stores an index of at most 20 entries, and leaves no file on disk for
    any entry it evicted ([old_files], the entries past position 20). *)
Theorem add_to_cache_keeps_cap (fs : disk) (cs : list call) (c : call) :
  index_within_cap home fs = true ->
  let fs1 := run_calls home unicode_alnum cs fs in
  exists l1 path fs2 l2,
    stored_entries home fs1 = Some l1 /\ length l1 <= 20 /\
    run_call home unicode_alnum c fs1 = (Ok path, fs2) /\
    stored_entries home fs2 = Some l2 /\ length l2 <= 20 /\
    forall old,
      old ∈ old_files (call_entry unicode_alnum c) (call_source c) l1 ->
      exists p, entry_path home old = Some p /\ fs2 !! p = None.
Proof.
  intros H0 fs1.
  pose proof (index_within_cap_run cs fs H0) as H1. fold fs1 in H1.
  destruct (index_within_cap_inv _ H1) as (l1 & Hl1 & Hb & Hlen).
  destruct (add_to_cache_spec (call_now c) (call_name c) (call_type c)
              (call_source c) (call_data c) fs1 l1 Hl1 (forallb_backed_ok _ Hb))
    as (fs2 & Hrun & Hstored & Hlook).
  eexists l1, _, fs2, _. repeat split; [done|done|exact Hrun|exact Hstored|..].
  - rewrite length_take. lia.
  - intros old Hold. unfold old_files in Hold.
    pose proof (updated_files_backed _ (call_source c) l1 (call_entry_backed c) Hb)
      as Hall.
    rewrite forallb_forall in Hall.
    assert (entry_backed home old = true) as Hbo.
    { apply Hall, list_elem_of_In. eapply subseteq_drop, Hold. }
    unfold entry_backed in Hbo. apply andb_prop in Hbo as [_ Hbo].
    destruct (entry_path home old) as [p|] eqn:Hp; [|done].
    exists p. split; [done|].
    apply negb_true_iff, String.eqb_neq in Hbo. rewrite (Hlook p Hbo).
    rewrite decide_True; [done|].
    apply list_elem_of_omap. eauto.
Qed.


(** ** Reading back what was cached *)

Lemma cache_dir_absolute :
  starts_with_slash home = true -> starts_with_slash DIR = true.
Proof. apply starts_with_slash_join. Qed.

Lemma load_from_cache_present (fs : disk) p v :
  starts_with_slash p = true ->
  fs !! p = Some (Json v) ->
  load_from_cache home p fs = (Ok (Some v), fs).
Proof.
  intros Hp Hv. unfold load_from_cache. rewrite (os_path_join_absolute _ _ Hp).
  unfold bind, os_path_exists, read_json, ret. rewrite Hv.
  case_bool_decide as Hex; [by rewrite Hv|]. destruct Hex. eauto.
Qed.

(** Claim C3, as amended.  Let the cache directory be an absolute path and
    the stored index a list of dicts whose [cache_file] is a plain file
    name.  If the file name generated for the call is not the cache file
    of an entry the call evicts, then [load_from_cache], given the path
    [add_to_cache] returned, returns the records that were added, in the
    same order. *)
Theorem load_from_cache_add_to_cache now name st sp (records : list record)
    (fs : disk) l :
  starts_with_slash home = true ->
  stored_entries home fs = Some l ->
  forallb entry_plain l = true ->
  let data := map record_to_json records in
  let fname := filename_of now name in
  let path := os_path_join DIR fname in
  let entry := new_entry name st sp fname (strftime now) data in
  path ∉ omap (entry_path home) (old_files entry sp l) ->
  exists fs',
    add_to_cache home unicode_alnum now name st sp data fs = (Ok path, fs') /\
    load_from_cache home path fs' = (Ok (Some (JArr data)), fs').
Proof.
  intros Habs Hl Hplain data fname path entry Hfree.
  destruct (add_to_cache_spec now name st sp data fs l Hl (forallb_plain_ok _ Hplain))
    as (fs' & Hrun & _ & Hlook).
  exists fs'. split; [exact Hrun|].
  apply load_from_cache_present.
  - by apply starts_with_slash_join, cache_dir_absolute.
  - rewrite Hlook by apply cache_filepath_ne_index.
    rewrite decide_False by exact Hfree.
    by rewrite decide_True.
Qed.

(** ** What a call deletes *)

Lemma add_to_cache_index_exists now name st sp data (fs : disk) l path fs' :
  stored_entries home fs = Some l ->
  forallb entry_ok l = true ->
  add_to_cache home unicode_alnum now name st sp data fs = (Ok path, fs') ->
  is_Some (fs' !! INDEX).
Proof.
  intros Hl Hok Hrun.
  destruct (add_to_cache_run now name st sp data fs l Hl Hok) as [kvs Hrun'].
  rewrite Hrun' in Hrun. injection Hrun as _ <-.
  rewrite lookup_insert_eq. eauto.
Qed.

Lemma filter_keeps_shorter sp l :
  existsb (has_source sp) l = true ->
  length (List.filter (keeps sp) l) < length l.
Proof.
  induction l as [|x l IH]; [done|]. cbn [existsb List.filter length].
  pose proof (List.filter_length_le (keeps sp) l) as Hle.
  rewrite has_source_keeps.
  destruct (keeps sp x); cbn [negb orb length]; [|intros _; lia].
  intros H. specialize (IH H). lia.
Qed.

Lemma old_files_nil_of_duplicate entry sp l :
  length l <= 20 ->
  existsb (has_source sp) l = true ->
  old_files entry sp l = [].
Proof.
  intros Hlen Hdup. unfold old_files, updated_files.
  apply drop_ge. cbn [length].
  pose proof (filter_keeps_shorter sp l Hdup). lia.
Qed.

(** Claim C9, as amended.  Let the stored index be a list of dicts whose
    [cache_file] is a plain file name, and not that of the index.  A call
    of [add_to_cache] then succeeds and deletes nothing but the backing
    files of the entries it evicts: every other file that existed still
    exists, and every other file keeps its content, except the two files
    the call writes, the index file and the cache file of the generated
    name; the latter holds the new records, unless the call evicts an
    entry of that very file.  In particular, when the call replaces an
    entry of the same source in an index within the cap, the backing file
    of the replaced entry is not deleted; it is unchanged unless it has
    the generated name, and then it holds the new records. *)
Theorem add_to_cache_deletes_only_evicted now name st sp data (fs : disk) l :
  stored_entries home fs = Some l ->
  forallb (entry_backed home) l = true ->
  let fname := filename_of now name in
  let path := os_path_join DIR fname in
  let entry := new_entry name st sp fname (strftime now) data in
  let evicted := omap (entry_path home) (old_files entry sp l) in
  exists fs',
    add_to_cache home unicode_alnum now name st sp data fs = (Ok path, fs') /\
    (forall q, q ∉ evicted -> is_Some (fs !! q) -> is_Some (fs' !! q)) /\
    (forall q, q ∉ evicted -> q <> path -> q <> INDEX -> fs' !! q = fs !! q) /\
    (path ∉ evicted -> fs' !! path = Some (Json (JArr data))) /\
    (forall e q,
       e ∈ l -> has_source sp e = true -> length l <= 20 ->
       entry_path home e = Some q ->
       (is_Some (fs !! q) -> is_Some (fs' !! q)) /\
       (q <> path -> fs' !! q = fs !! q) /\
       (q = path -> fs' !! q = Some (Json (JArr data)))).
Proof.
  intros Hl Hb fname path entry evicted.
  pose proof (forallb_backed_ok _ Hb) as Hok.
  destruct (add_to_cache_spec now name st sp data fs l Hl Hok)
    as (fs' & Hrun & _ & Hlook).
  pose proof (add_to_cache_index_exists _ _ _ _ _ _ _ _ _ Hl Hok Hrun) as Hidx.
  assert (forall q, q ∉ evicted -> is_Some (fs !! q) -> is_Some (fs' !! q))
    as Hkeep.
  { intros q Hq Hex. destruct (decide (q = INDEX)) as [->|Hne]; [done|].
    rewrite (Hlook q Hne). rewrite decide_False by exact Hq.
    case_decide; [eauto|done]. }
  assert (forall q, q ∉ evicted -> q <> path -> q <> INDEX -> fs' !! q = fs !! q)
    as Hsame.
  { intros q Hq Hp Hi. rewrite (Hlook q Hi).
    rewrite decide_False by exact Hq. by rewrite decide_False. }
  assert (path ∉ evicted -> fs' !! path = Some (Json (JArr data))) as Hnew.
  { intros Hfree. rewrite Hlook by apply cache_filepath_ne_index.
    rewrite decide_False by exact Hfree. by rewrite decide_True. }
  exists fs'. split; [exact Hrun|]. split; [exact Hkeep|].
  split; [exact Hsame|]. split; [exact Hnew|].
  intros e q He Hsrc Hlen Hq.
  assert (evicted = []) as Hnone.
  { unfold evicted. rewrite old_files_nil_of_duplicate; [done|done|].
    apply existsb_exists. exists e. split; [by apply list_elem_of_In|done]. }
  assert (q <> INDEX) as Hqi.
  { apply (entry_backed_ne_index e); [|done].
    rewrite forallb_forall in Hb. by apply Hb, list_elem_of_In. }
  split; [|split].
  - apply Hkeep. rewrite Hnone. apply not_elem_of_nil.
  - intros Hp. apply Hsame; [|done|done]. rewrite Hnone. apply not_elem_of_nil.
  - intros ->. apply Hnew. rewrite Hnone. apply not_elem_of_nil.
Qed.


(** ** Saving the index *)

Lemma save_cache_index_run index (fs : disk) :
  save_cache_index home index fs = (Ok tt, <[INDEX := Json index]> fs).
Proof.
  unfold save_cache_index, bind, ensure_cache_dir, ret, open_w, json_dump.
  by rewrite insert_insert_eq.
Qed.

Lemma crash_states_save index (fs : disk) :
  crash_states (save_cache_index_steps home index) fs =
    [fs; fs; <[INDEX := Corrupt]> fs;
     <[INDEX := Json index]> (<[INDEX := Corrupt]> fs)].
Proof. reflexivity. Qed.

(** Claim C6, as amended.  [save_cache_index] overwrites the index file in
    place: its effects are those of opening the file for writing, which
    truncates it, and of dumping the document into it.  A completed call
    leaves the new index in the file.  No other path is written at any
    point, so there is no temporary file and no rename; at every point
    where a crash can stop the call the index file holds its prior
    content, unparsable text, or the new index; and the truncated state
    is one of these points: there the prior index is gone and
    [load_cache_index] returns the empty index. *)
Theorem save_cache_index_in_place index (fs : disk) :
  save_cache_index home index fs
    = run_steps (save_cache_index_steps home index) fs /\
  save_cache_index home index fs = (Ok tt, <[INDEX := Json index]> fs) /\
  (forall fs_c : disk,
     fs_c ∈ crash_states (save_cache_index_steps home index) fs ->
     (forall q, q <> INDEX -> fs_c !! q = fs !! q) /\
     (fs_c !! INDEX = fs !! INDEX \/ fs_c !! INDEX = Some Corrupt \/
      fs_c !! INDEX = Some (Json index))) /\
  (exists fs_c : disk,
     fs_c ∈ crash_states (save_cache_index_steps home index) fs /\
     fs_c !! INDEX = Some Corrupt /\
     load_cache_index home fs_c = (Ok empty_index, fs_c)).
Proof.
  split; [reflexivity|]. split; [apply save_cache_index_run|].
  rewrite crash_states_save. split.
  - intros fs_c Hc. repeat apply elem_of_cons in Hc as [->|Hc].
    + split; [done|by left].
    + split; [done|by left].
    + split; [intros q Hq; by rewrite lookup_insert_ne|].
      right; left. apply lookup_insert_eq.
    + split; [intros q Hq; by rewrite !lookup_insert_ne|].
      right; right. apply lookup_insert_eq.
    + by apply elem_of_nil in Hc.
  - exists (<[INDEX := Corrupt]> fs). split; [|split].
    + do 2 apply elem_of_cons, or_intror. apply elem_of_cons. by left.
    + apply lookup_insert_eq.
    + rewrite load_cache_index_run. unfold stored_index.
      by rewrite lookup_insert_eq.
Qed.

End CacheStoreFacts.

(** ** Parsing the rows of a data frame *)

Lemma extract_row_columns row :
  extract_row row =
    match columns row with
    | Some r => Ok (if code_includes (hanja r) then Some r else None)
    | None => Raise IndexError
    end.
Proof.
  destruct row as [|c0 [|c1 [|c2 [|c3 rest]]]]; reflexivity.
Qed.

Lemma parse_dataframe_select rows :
  parse_dataframe rows = select_rows code_includes rows.
Proof.
  unfold select_rows. induction rows as [|row rows IH]; [done|].
  cbn [parse_dataframe]. rewrite extract_row_columns.
  change (omap columns (row :: rows))
    with (match columns row with
          | Some r => r :: omap columns rows
          | None => omap columns rows
          end).
  destruct (columns row) as [r|]; [|exact IH].
  cbn [List.filter]. destruct (code_includes (hanja r)); by rewrite IH.
Qed.

(** Claim C4, as amended.  [parse_dataframe] reads the cells at positions
    2, 3 and 4 of each row, with a missing cell read as the empty string;
    it leaves out the rows that lack one of these positions (the error is
    caught), and of the others it keeps exactly those whose character is
    not empty, is not the text [nan] and is not the header label.  On the
    example rows it returns the single record of the first row. *)
Theorem parse_dataframe_selects (rows : list (list cell)) :
  parse_dataframe rows = select_rows code_includes rows /\
  (forall r, r ∈ parse_dataframe rows <->
     exists row, row ∈ rows /\ columns row = Some r /\
                 hanja r <> "" /\ hanja r <> "nan" /\ hanja r <> "한자") /\
  parse_dataframe example_rows = [mk_record "漢" "han" "Chinese"].
Proof.
  split; [apply parse_dataframe_select|]. split; [|reflexivity].
  intros r. rewrite parse_dataframe_select. unfold select_rows.
  rewrite list_elem_of_In, filter_In, <- list_elem_of_In, list_elem_of_omap.
  unfold code_includes. rewrite !andb_true_iff, !negb_true_iff, !String.eqb_neq.
  split.
  - intros [(row & Hrow & Hcol) [[H1 H2] H3]]. eauto 8.
  - intros (row & Hrow & Hcol & H1 & H2 & H3). eauto 8.
Qed.

(** Claim C10.  No record [parse_dataframe] returns has the text [nan] as
    its character, nor the empty string or the header label; a row whose
    character cell is the text [nan] adds nothing to the result. *)
Theorem parse_dataframe_no_nan (rows : list (list cell)) :
  (forall r, r ∈ parse_dataframe rows ->
     hanja r <> "nan" /\ hanja r <> "" /\ hanja r <> "한자") /\
  (forall c0 rest,
     parse_dataframe ((c0 :: Cell "nan" :: rest) :: rows) = parse_dataframe rows).
Proof.
  split.
  - intros r. rewrite parse_dataframe_select. unfold select_rows.
    rewrite list_elem_of_In, filter_In. unfold code_includes.
    rewrite !andb_true_iff, !negb_true_iff, !String.eqb_neq.
    by intros [_ [[H1 H2] H3]].
  - intros c0 rest. cbn [parse_dataframe]. rewrite extract_row_columns.
    destruct rest as [|c2 [|c3 rest]]; reflexivity.
Qed.

(** ** Resolving a sheet URL *)

Lemma strip_prefix_Some lit s rest :
  strip_prefix lit s = Some rest <-> s = lit +:+ rest.
Proof.
  revert s. induction lit as [|a lit IH]; intros s; cbn.
  - change ("" +:+ rest) with rest. split; congruence.
  - destruct s as [|b s]; [split; discriminate|].
    change (String a lit +:+ rest) with (String a (lit +:+ rest)).
    destruct (Ascii.eqb_spec a b) as [->|Hne].
    + rewrite IH. split; [by intros ->|by intros [= ->]].
    + split; [discriminate|by intros [= ->]].
Qed.

Lemma take_id_split s :
  exists post, s = take_id s +:+ post /\
    forallb is_id_char (list_ascii_of_string (take_id s)) = true.
Proof.
  induction s as [|a s (post & Hs & Hall)]; [by exists ""|].
  cbn [take_id]. destruct (is_id_char a) eqn:Ha.
  - exists post. split.
    + change (String a (take_id s) +:+ post) with (String a (take_id s +:+ post)).
      by rewrite <- Hs.
    + cbn. by rewrite Ha.
  - by exists (String a s).
Qed.

Lemma take_id_app_nonempty id post : id_string id -> take_id (id +:+ post) <> "".
Proof.
  intros [Hne Hall]. destruct id as [|a id]; [done|].
  cbn in Hall. apply andb_prop in Hall as [Ha _].
  change (String a id +:+ post) with (String a (id +:+ post)).
  cbn [take_id]. by rewrite Ha.
Qed.

Lemma match_here_Some lit s g :
  match_here lit s = Some g ->
  id_string g /\ exists post, s = lit +:+ g +:+ post.
Proof.
  unfold match_here. destruct (strip_prefix lit s) as [rest|] eqn:Hp; [|done].
  apply strip_prefix_Some in Hp as ->.
  destruct (String.eqb_spec (take_id rest) "") as [|Hne]; [done|].
  intros [= <-]. destruct (take_id_split rest) as (post & Hrest & Hall).
  split; [done|]. exists post. by rewrite <- Hrest.
Qed.

Lemma match_here_matches lit id post :
  id_string id -> match_here lit (lit +:+ id +:+ post) <> None.
Proof.
  intros Hid. unfold match_here.
  destruct (strip_prefix lit (lit +:+ id +:+ post)) as [rest|] eqn:Hp.
  - apply strip_prefix_Some in Hp. apply (inj (String.app lit)) in Hp as <-.
    destruct (String.eqb_spec (take_id (id +:+ post)) "") as [Hnil|]; [|done].
    by apply take_id_app_nonempty in Hnil.
  - assert (strip_prefix lit (lit +:+ id +:+ post) = Some (id +:+ post)) as Hs
      by (by apply strip_prefix_Some).
    congruence.
Qed.

Lemma re_search_Some lit s g :
  re_search lit s = Some g -> id_string g /\ occurs lit g s.
Proof.
  induction s as [|a s IH]; cbn [re_search].
  - destruct (match_here lit "") as [g'|] eqn:Hm; [|done].
    intros [= ->]. apply match_here_Some in Hm as [Hid [post ->]].
    split; [done|]. by exists "", post.
  - destruct (match_here lit (String a s)) as [g'|] eqn:Hm.
    + intros [= ->]. apply match_here_Some in Hm as [Hid [post Hs]].
      split; [done|]. exists "", post. exact Hs.
    + intros [Hid (pre & post & ->)]%IH. split; [done|].
      by exists (String a pre), post.
Qed.

Lemma re_search_None lit s : re_search lit s = None -> ~ pattern_matches lit s.
Proof.
  intros Hnone (id & Hid & pre & post & ->). revert Hnone.
  induction pre as [|a pre IH].
  - change ("" +:+ ?x) with x.
    destruct (lit +:+ id +:+ post) as [|b t] eqn:E; cbn [re_search];
      rewrite <- E; pose proof (match_here_matches lit id post Hid);
      by destruct (match_here lit (lit +:+ id +:+ post)).
  - change (String a pre +:+ ?x) with (String a (pre +:+ x)).
    cbn [re_search]. by destruct (match_here lit _).
Qed.

Lemma extract_google_sheet_id_Some url g :
  extract_google_sheet_id url = Some g ->
  id_string g /\ (occurs "/spreadsheets/d/" g url \/ occurs "id=" g url).
Proof.
  unfold extract_google_sheet_id, patterns. cbn [first_match].
  destruct (re_search "/spreadsheets/d/" url) as [g1|] eqn:H1.
  - intros [= ->]. apply re_search_Some in H1 as [? ?]. eauto.
  - destruct (re_search "id=" url) as [g2|] eqn:H2; [|done].
    intros [= ->]. apply re_search_Some in H2 as [? ?]. eauto.
Qed.

Lemma extract_google_sheet_id_None url :
  extract_google_sheet_id url = None ->
  ~ pattern_matches "/spreadsheets/d/" url /\ ~ pattern_matches "id=" url.
Proof.
  unfold extract_google_sheet_id, patterns. cbn [first_match].
  destruct (re_search "/spreadsheets/d/" url) as [g1|] eqn:H1; [done|].
  destruct (re_search "id=" url) as [g2|] eqn:H2; [done|].
  intros _. split; by apply re_search_None.
Qed.

Lemma extract_google_sheet_id_path_first url g :
  extract_google_sheet_id url = Some g ->
  pattern_matches "/spreadsheets/d/" url -> occurs "/spreadsheets/d/" g url.
Proof.
  unfold extract_google_sheet_id, patterns. cbn [first_match].
  destruct (re_search "/spreadsheets/d/" url) as [g1|] eqn:H1.
  - intros [= ->] _. by apply re_search_Some in H1 as [_ ?].
  - intros _ Hm. by apply re_search_None in H1.
Qed.

Lemma get_google_sheet_csv_url_of_id url :
  get_google_sheet_csv_url url "0" =
    match extract_google_sheet_id url with
    | Some g => if truthy g then Some (export_url g) else None
    | None => None
    end.
Proof. reflexivity. Qed.

(** Claim C5.  When one of the two patterns matches in the URL,
    [get_google_sheet_csv_url] returns the export URL
    [https://docs.google.com/spreadsheets/d/<id>/export?format=csv&gid=0]
    of an identifier [<id>] that follows [/spreadsheets/d/] or [id=] in
    the URL, the path form taking precedence; when neither pattern
    matches it returns [None]; and every URL it returns is of that form.
    On the example URL the identifier is [ABC123]. *)
Theorem get_google_sheet_csv_url_spec (url : string) :
  (pattern_matches "/spreadsheets/d/" url \/ pattern_matches "id=" url ->
   exists id, id_string id /\
     (occurs "/spreadsheets/d/" id url \/ occurs "id=" id url) /\
     get_google_sheet_csv_url url "0" = Some (export_url id)) /\
  (pattern_matches "/spreadsheets/d/" url ->
   exists id, id_string id /\ occurs "/spreadsheets/d/" id url /\
     get_google_sheet_csv_url url "0" = Some (export_url id)) /\
  (~ pattern_matches "/spreadsheets/d/" url -> ~ pattern_matches "id=" url ->
   get_google_sheet_csv_url url "0" = None) /\
  (forall u, get_google_sheet_csv_url url "0" = Some u ->
   exists id, id_string id /\
     (occurs "/spreadsheets/d/" id url \/ occurs "id=" id url) /\
     u = export_url id) /\
  get_google_sheet_csv_url "https://docs.google.com/spreadsheets/d/ABC123/edit" "0"
    = Some "https://docs.google.com/spreadsheets/d/ABC123/export?format=csv&gid=0".
Proof.
  rewrite get_google_sheet_csv_url_of_id.
  destruct (extract_google_sheet_id url) as [g|] eqn:Hx.
  - pose proof (extract_google_sheet_id_path_first url g Hx) as Hfirst.
    apply extract_google_sheet_id_Some in Hx as [Hid Hocc].
    assert (truthy g = true) as ->.
    { destruct Hid as [Hne _]. by apply negb_true_iff, String.eqb_neq. }
    repeat split.
    + intros _. eauto.
    + intros Hm. specialize (Hfirst Hm). eauto.
    + intros H1 H2. destruct Hocc; [destruct H1|destruct H2]; by exists g.
    + intros u [= <-]. eauto.
  - apply extract_google_sheet_id_None in Hx as [H1 H2].
    repeat split; try done. intros [?|?]; done.
Qed.

(** * The theorems at concrete inputs *)

(** ** Instances *)

Lemma stored_entries_disk_a : stored_entries home0 disk_a = Some [entry_a].
Proof. vm_compute. reflexivity. Qed.


(** C2 at the empty disk: twenty calls, then one more. *)
Lemma add_to_cache_keeps_cap_witness :
  exists l1 path fs2 l2,
    stored_entries home0 (run_calls home0 alnum0 twenty_calls ∅) = Some l1 /\
    length l1 <= 20 /\
    run_call home0 alnum0 (numbered_call 20)
      (run_calls home0 alnum0 twenty_calls ∅) = (Ok path, fs2) /\
    stored_entries home0 fs2 = Some l2 /\ length l2 <= 20 /\
    forall old,
      old ∈ old_files (call_entry alnum0 (numbered_call 20))
              (call_source (numbered_call 20)) l1 ->
      exists p, entry_path home0 old = Some p /\ fs2 !! p = None.
Proof.
  apply (add_to_cache_keeps_cap home0 alnum0 ∅ twenty_calls (numbered_call 20)).
  vm_compute. reflexivity.
Defined.

(** C3 at the empty disk. *)
Lemma load_from_cache_add_to_cache_witness :
  exists fs',
    add_to_cache home0 alnum0 t0 "a" "local" "/x/a.xlsx" data0 ∅
      = (Ok path_a, fs') /\
    load_from_cache home0 path_a fs' = (Ok (Some (JArr data0)), fs').
Proof.
  apply (load_from_cache_add_to_cache home0 alnum0 t0 "a" "local" "/x/a.xlsx"
           records0 ∅ []).
  - reflexivity.
  - vm_compute. reflexivity.
  - reflexivity.
  - vm_compute. apply not_elem_of_nil.
Defined.

(** C6 at [disk_indexed]: the state between truncation and completion. *)
Lemma save_cache_index_in_place_witness :
  (forall q, q <> index0 -> (<[index0 := Corrupt]> disk_indexed : disk) !! q = disk_indexed !! q) /\
  ((<[index0 := Corrupt]> disk_indexed : disk) !! index0 = disk_indexed !! index0 \/
   (<[index0 := Corrupt]> disk_indexed : disk) !! index0 = Some Corrupt \/
   (<[index0 := Corrupt]> disk_indexed : disk) !! index0 = Some (Json empty_index)).
Proof.
  destruct (save_cache_index_in_place home0 empty_index disk_indexed)
    as (_ & _ & H & _).
  apply H. do 2 apply elem_of_cons, or_intror. apply elem_of_cons. left.
  reflexivity.
Defined.

(** C7 at the empty disk. *)
Lemma load_cache_index_never_fails_witness :
  load_cache_index home0 ∅ = (Ok empty_index, ∅).
Proof.
  apply (load_cache_index_never_fails home0 ∅). left. reflexivity.
Defined.

(** C8 at the empty disk. *)
Lemma load_from_cache_missing_witness :
  load_from_cache home0 "a_20240305_140709.json" ∅ = (Ok None, ∅).
Proof.
  apply (load_from_cache_missing home0 ∅ "a_20240305_140709.json").
  - left. reflexivity.
  - reflexivity.
Defined.

(** C9 at [disk_a]: the file of the replaced entry stays as it is. *)
Lemma add_to_cache_deletes_only_evicted_witness :
  exists fs',
    fst (add_to_cache home0 alnum0 t1 "a" "local" "/x/a.xlsx" data0 disk_a)
      = Ok (os_path_join (CACHE_DIR home0) (cache_filename_of alnum0 t1 "a")) /\
    snd (add_to_cache home0 alnum0 t1 "a" "local" "/x/a.xlsx" data0 disk_a) = fs' /\
    is_Some (fs' !! path_a) /\
    fs' !! path_a = disk_a !! path_a.
Proof.
  destruct (add_to_cache_deletes_only_evicted home0 alnum0 t1 "a" "local"
              "/x/a.xlsx" data0 disk_a [entry_a])
    as (fs' & Hrun & _ & _ & _ & H).
  - vm_compute. reflexivity.
  - vm_compute. reflexivity.
  - exists fs'. rewrite Hrun. split; [reflexivity|]. split; [reflexivity|].
    destruct (H entry_a path_a) as (Hex & Hsame & _).
    + apply elem_of_cons. left. reflexivity.
    + vm_compute. reflexivity.
    + cbn. lia.
    + vm_compute. reflexivity.
    + split.
      * apply Hex. vm_compute. eauto.
      * apply Hsame. vm_compute. discriminate.
Defined.

(** C4 and C10 at the rows of the example. *)
Lemma parse_dataframe_selects_witness :
  mk_record "漢" "han" "Chinese" ∈ parse_dataframe example_rows.
Proof.
  apply (parse_dataframe_selects example_rows).
  exists [Cell "1"; Cell "漢"; Cell "han"; Cell "Chinese"].
  split; [apply elem_of_cons; by left|].
  split; [reflexivity|]. repeat split; discriminate.
Defined.

Lemma parse_dataframe_no_nan_witness :
  hanja (mk_record "漢" "han" "Chinese") <> "nan" /\
  hanja (mk_record "漢" "han" "Chinese") <> "" /\
  hanja (mk_record "漢" "han" "Chinese") <> "한자".
Proof.
  apply (parse_dataframe_no_nan example_rows).
  vm_compute. apply elem_of_cons. left. reflexivity.
Defined.

(** C5 at the URL of the example. *)
Lemma get_google_sheet_csv_url_spec_witness :
  exists id, id_string id /\
    (occurs "/spreadsheets/d/" id "https://docs.google.com/spreadsheets/d/ABC123/edit" \/
     occurs "id=" id "https://docs.google.com/spreadsheets/d/ABC123/edit") /\
    get_google_sheet_csv_url "https://docs.google.com/spreadsheets/d/ABC123/edit" "0"
      = Some (export_url id).
Proof.
  apply (get_google_sheet_csv_url_spec
           "https://docs.google.com/spreadsheets/d/ABC123/edit").
  left. exists "ABC123". split.
  - split; [discriminate|reflexivity].
  - exists "https://docs.google.com", "/edit". reflexivity.
Defined.

(** ** Where the specification and the code part *)

(** C3 as stated fails.  Twenty datasets named [a] are cached within one
    second, each from its own source; all get the file name
    [a_20240305_140709.json].  A twenty-first call in that second writes
    the file again, evicts the oldest entry and deletes the file with it:
    [load_from_cache] on the returned path finds nothing. *)
Lemma load_from_cache_add_to_cache_collision :
  let r := run_call home0 alnum0 (same_second_call 20) disk_full in
  fst r = Ok path_a /\
  fst (load_from_cache home0 path_a (snd r)) = Ok None /\
  fst (load_from_cache home0 path_a (snd r)) <> Ok (Some (JArr data0)).
Proof.
  assert (fst (load_from_cache home0 path_a
                 (snd (run_call home0 alnum0 (same_second_call 20) disk_full)))
          = Ok None) as H by (vm_compute; reflexivity).
  cbv zeta. rewrite H. split; [vm_compute; reflexivity|]. split; [reflexivity|].
  discriminate.
Qed.

(** What the amended C3 asks of the cache directory.  Under a relative
    home directory the path [add_to_cache] returns is relative too;
    [load_from_cache] joins it to the cache directory once more and finds
    nothing there. *)
Lemma load_from_cache_add_to_cache_relative_home :
  let r := add_to_cache home_rel alnum0 t0 "a" "local" "/x/a.xlsx" data0 ∅ in
  fst r = Ok "user/.hanja_memorizer/a_20240305_140709.json" /\
  snd r !! "user/.hanja_memorizer/a_20240305_140709.json"
    = Some (Json (JArr data0)) /\
  fst (load_from_cache home_rel "user/.hanja_memorizer/a_20240305_140709.json"
         (snd r)) = Ok None.
Proof.
  cbv zeta. split; [vm_compute; reflexivity|].
  split; vm_compute; reflexivity.
Qed.

(** C9 as stated fails.  The source of [entry_a] is loaded again under
    the same name within the same second, with one more record.  The
    generated file name is that of the entry being replaced, so its
    backing file is overwritten: it is not deleted, but it is not left
    unchanged either. *)
Lemma add_to_cache_overwrites_replaced_file :
  let r := run_call home0 alnum0 call_a_again disk_a in
  stored_entries home0 disk_a = Some [entry_a] /\
  has_source (call_source call_a_again) entry_a = true /\
  entry_path home0 entry_a = Some path_a /\
  fst r = Ok path_a /\
  disk_a !! path_a = Some (Json (JArr data0)) /\
  snd r !! path_a = Some (Json (JArr data1)) /\
  snd r !! path_a <> disk_a !! path_a.
Proof.
  assert (disk_a !! path_a = Some (Json (JArr data0))) as Hold
    by (vm_compute; reflexivity).
  assert (snd (run_call home0 alnum0 call_a_again disk_a) !! path_a
          = Some (Json (JArr data1))) as Hnew by (vm_compute; reflexivity).
  cbv zeta. rewrite Hold, Hnew.
  split; [vm_compute; reflexivity|]. split; [reflexivity|].
  split; [reflexivity|]. split; [vm_compute; reflexivity|].
  split; [reflexivity|]. split; [reflexivity|]. discriminate.
Qed.

(** C4 as stated fails.  A row whose character is the text [nan] has a
    non-empty character that is not the header label, so the rule of the
    specification keeps it; [parse_dataframe] leaves it out. *)
Lemma parse_dataframe_drops_nan_row :
  parse_dataframe nan_rows = [] /\
  select_rows spec_includes nan_rows = [mk_record "nan" "x" "y"] /\
  parse_dataframe nan_rows <> select_rows spec_includes nan_rows.
Proof.
  split; [reflexivity|]. split; [reflexivity|]. discriminate.
Qed.

(** C6 as stated fails.  The index file of [disk_indexed] holds one entry.
    Saving another index passes through a state where the file is
    truncated: no temporary file exists, the index file holds neither the
    prior nor the new document, and the prior entry is lost to a crash
    there. *)
Lemma save_cache_index_crash_loses_index :
  let fs_c : disk := <[index0 := Corrupt]> disk_indexed in
  fs_c ∈ crash_states (save_cache_index_steps home0 empty_index) disk_indexed /\
  fs_c !! index0 <> disk_indexed !! index0 /\
  fs_c !! index0 <> Some (Json empty_index) /\
  dom fs_c = dom disk_indexed /\
  stored_entries home0 disk_indexed = Some [entry_a] /\
  stored_entries home0 fs_c = Some [].
Proof.
  cbv zeta. split.
  { do 2 apply elem_of_cons, or_intror. apply elem_of_cons. left. reflexivity. }
  split; [vm_compute; discriminate|].
  split; [vm_compute; discriminate|].
  split; [|split; vm_compute; reflexivity].
  unfold disk_indexed. rewrite insert_singleton_eq. by rewrite !dom_singleton_L.
Qed.

(** * Further properties of the cache store *)


(** ** The characters of an ASCII name *)

Lemma split_cp_ascii s :
  is_ascii s = true ->
  split_cp s = ("", map (fun a => String a "") (list_ascii_of_string s)).
Proof.
  unfold is_ascii. induction s as [|a s IH]; [done|].
  cbn [list_ascii_of_string forallb]. intros [Ha Hs]%andb_prop.
  cbn [split_cp]. rewrite (IH Hs). unfold is_cont.
  apply Nat.ltb_lt in Ha as Hlt.
  rewrite (proj2 (Nat.leb_gt _ _) Hlt), Ha. reflexivity.
Qed.

Lemma concat_str_singletons l :
  concat_str (map (fun a => String a "") l) = string_of_list_ascii l.
Proof. induction l as [|a l IH]; [done|]. cbn. by rewrite <- IH. Qed.

Lemma length_string_of_list_ascii l :
  String.length (string_of_list_ascii l) = length l.
Proof. induction l as [|a l IH]; [done|]. cbn. by rewrite IH. Qed.

Lemma length_list_ascii_of_string s :
  length (list_ascii_of_string s) = String.length s.
Proof. induction s as [|a s IH]; [done|]. cbn. by rewrite IH. Qed.

Section CacheStoreMore.

Variable home : string.
Variable unicode_alnum : string -> bool.

Local Abbreviation DIR := (CACHE_DIR home).
Local Abbreviation INDEX := (CACHE_INDEX_FILE home).
Local Abbreviation filename_of := (cache_filename_of unicode_alnum).

Lemma load_from_cache_run cache_filename (fs : disk) :
  load_from_cache home cache_filename fs =
    match fs !! os_path_join DIR cache_filename with
    | None => (Ok None, fs)
    | Some Corrupt => (Raise ValueError, fs)
    | Some (Json v) => (Ok (Some v), fs)
    end.
Proof.
  unfold load_from_cache, bind, os_path_exists, read_json, ret.
  destruct (fs !! os_path_join DIR cache_filename) as [[|v]|] eqn:E;
    case_bool_decide as Hex; rewrite ?E; try done.
  all: first [by destruct Hex | exfalso; apply Hex; eauto].
Qed.

(** X1.  After [add_to_cache] on a disk whose index lists dicts with a
    plain file name as [cache_file], the stored index is the new entry
    followed by the old entries of the other sources, in their order, cut
    to twenty.  When the source is new
    and fewer than twenty entries were stored, nothing is dropped: the
    index is the new entry followed by all the old ones. *)
Theorem add_to_cache_stored_index now name st sp data (fs : disk) l :
  stored_entries home fs = Some l ->
  forallb entry_plain l = true ->
  let entry := new_entry name st sp (filename_of now name) (strftime now) data in
  stored_entries home (snd (add_to_cache home unicode_alnum now name st sp data fs))
    = Some (take 20 (entry :: List.filter (keeps sp) l)) /\
  (existsb (has_source sp) l = false -> length l < 20 ->
   stored_entries home (snd (add_to_cache home unicode_alnum now name st sp data fs))
     = Some (entry :: l)).
Proof.
  intros Hl Hplain entry.
  pose proof (forallb_plain_ok _ Hplain) as Hok.
  destruct (add_to_cache_spec home unicode_alnum now name st sp data fs l Hl Hok)
    as (fs' & Hrun & Hstored & _).
  rewrite Hrun. cbn [snd]. split; [exact Hstored|].
  intros Hfresh Hlen. rewrite Hstored. unfold updated_files.
  assert (List.filter (keeps sp) l = l) as ->.
  { clear -Hfresh. induction l as [|x l IH]; [done|].
    cbn [existsb] in Hfresh. apply orb_false_elim in Hfresh as [Hx Hl].
    cbn [List.filter]. rewrite has_source_keeps in Hx.
    apply negb_false_iff in Hx. rewrite Hx. by rewrite IH. }
  apply f_equal, take_ge. cbn [length]. lia.
Qed.

(** X2.  Let the stored index list dicts with a plain file name as
    [cache_file].  After [add_to_cache] the new entry heads the index, its
    [cache_file] is the generated file name, its [count] the number of
    records, and [load_from_cache] of that [cache_file] returns the records
    cached, provided no entry that was dropped names the same file. *)
Theorem load_from_cache_of_entry now name st sp data (fs : disk) l :
  stored_entries home fs = Some l ->
  forallb entry_plain l = true ->
  let fname := filename_of now name in
  let entry := new_entry name st sp fname (strftime now) data in
  os_path_join DIR fname ∉ omap (entry_path home) (old_files entry sp l) ->
  exists fs' rest,
    snd (add_to_cache home unicode_alnum now name st sp data fs) = fs' /\
    stored_entries home fs' = Some (entry :: rest) /\
    getitem entry "cache_file" = Ok (JStr fname) /\
    getitem entry "count" = Ok (JNum (Z.of_nat (length data))) /\
    load_from_cache home fname fs' = (Ok (Some (JArr data)), fs').
Proof.
  intros Hl Hplain fname entry Hfree.
  pose proof (forallb_plain_ok _ Hplain) as Hok.
  destruct (add_to_cache_spec home unicode_alnum now name st sp data fs l Hl Hok)
    as (fs' & Hrun & Hstored & Hlook).
  rewrite Hrun. cbn [snd]. eexists fs', _. split; [done|].
  split; [exact Hstored|]. split; [done|]. split; [done|].
  rewrite load_from_cache_run.
  rewrite Hlook by apply cache_filepath_ne_index.
  rewrite decide_False by exact Hfree. by rewrite decide_True.
Qed.


(** X3.  [save_cache_index] succeeds on any index, [load_cache_index]
    then returns the index saved rather than the empty one, and no file
    other than the index file has changed. *)
Theorem load_cache_index_save_cache_index index (fs : disk) :
  exists fs', save_cache_index home index fs = (Ok tt, fs') /\
    load_cache_index home fs' = (Ok index, fs') /\
    (forall q, q <> INDEX -> fs' !! q = fs !! q).
Proof.
  exists (<[INDEX := Json index]> fs). split; [apply save_cache_index_run|].
  split.
  - rewrite load_cache_index_run. unfold stored_index.
    by rewrite lookup_insert_eq.
  - intros q Hq. by rewrite lookup_insert_ne.
Qed.

Lemma add_to_cache_unusable_run now name st sp data (fs : disk) e :
  res_bind (getitem (stored_index home fs) "files") (fun files =>
    res_bind (py_iter files) (dedup sp)) = Raise e ->
  add_to_cache home unicode_alnum now name st sp data fs =
    (Raise e, <[os_path_join DIR (filename_of now name) := Json (JArr data)]> fs).
Proof.
  intros Hbad. set (path := os_path_join DIR (filename_of now name)).
  unfold add_to_cache. fold path.
  unfold bind at 1. unfold ensure_cache_dir at 1, ret at 1.
  unfold bind at 1, open_w at 1.
  unfold bind at 1, json_dump at 1.
  rewrite insert_insert_eq.
  unfold bind at 1. rewrite load_cache_index_run.
  assert (stored_index home (<[path := Json (JArr data)]> fs)
          = stored_index home fs) as ->.
  { unfold stored_index. rewrite lookup_insert_ne; [done|].
    apply cache_filepath_ne_index. }
  unfold bind at 1, lift at 1.
  destruct (getitem (stored_index home fs) "files") as [files|e1];
    cbn [res_bind] in Hbad; [|by injection Hbad as ->].
  unfold bind at 1, lift at 1.
  destruct (py_iter files) as [elems|e2];
    cbn [res_bind] in Hbad; [|by injection Hbad as ->].
  unfold bind at 1, lift at 1. by rewrite Hbad.
Qed.

(** X4.  When the stored index has no usable [files] list, so that the
    lookup or the comprehension over it raises, [add_to_cache] raises that
    exception after the dataset has been written: the index file is as it
    was, and the new cache file stays on disk with no entry naming it. *)
Theorem add_to_cache_unusable_index now name st sp data (fs : disk) e :
  res_bind (getitem (stored_index home fs) "files") (fun files =>
    res_bind (py_iter files) (dedup sp)) = Raise e ->
  let path := os_path_join DIR (filename_of now name) in
  exists fs',
    add_to_cache home unicode_alnum now name st sp data fs = (Raise e, fs') /\
    fs' !! INDEX = fs !! INDEX /\
    fs' !! path = Some (Json (JArr data)) /\
    (forall q, q <> path -> fs' !! q = fs !! q).
Proof.
  intros Hbad path. exists (<[path := Json (JArr data)]> fs).
  split; [|split; [|split]].
  - by apply add_to_cache_unusable_run.
  - rewrite lookup_insert_ne; [done|]. apply cache_filepath_ne_index.
  - apply lookup_insert_eq.
  - intros q Hq. by rewrite lookup_insert_ne.
Qed.


(** X5.  Whatever the display name, the generated cache file name holds
    letters, digits, [_], [-], [.] and bytes of characters outside ASCII
    only.  It has no slash, no backslash and no space, does not start with
    a slash, so that [os.path.join] keeps it below the cache directory, and
    it ends in [.json]. *)
Theorem cache_filename_safe now name :
  all_safe (filename_of now name) = true /\
  (forall a, In a (list_ascii_of_string (filename_of now name)) ->
     a <> "/"%char /\ a <> "\"%char /\ a <> " "%char) /\
  starts_with_slash (filename_of now name) = false /\
  exists stem, filename_of now name = stem +:+ ".json".
Proof.
  assert (all_safe (filename_of now name) = true) as Hsafe.
  { unfold cache_filename_of.
    by rewrite !all_safe_app, all_safe_safe_name, all_safe_strftime. }
  split; [done|]. split; [|split].
  - intros a Ha. unfold all_safe in Hsafe. rewrite forallb_forall in Hsafe.
    specialize (Hsafe a Ha). repeat split; intros ->; discriminate Hsafe.
  - apply cache_filename_relative.
  - exists (safe_name_of unicode_alnum name +:+ "_" +:+ strftime now).
    unfold cache_filename_of.
    by rewrite !str_app_assoc.
Qed.


(** X6.  For an ASCII display name the sanitised name is the name with
    every character other than a letter, a digit, [_] and [-] replaced by
    [_], cut to fifty characters; its length is the smaller of fifty and
    the length of the name. *)
Theorem safe_name_of_ascii name :
  is_ascii name = true ->
  safe_name_of unicode_alnum name =
    string_of_list_ascii
      (take 50 (map (fun a => if is_id_char a then a else "_"%char)
                  (list_ascii_of_string name))) /\
  String.length (safe_name_of unicode_alnum name) = min 50 (String.length name).
Proof.
  intros Hascii.
  assert (safe_name_of unicode_alnum name =
    string_of_list_ascii
      (take 50 (map (fun a => if is_id_char a then a else "_"%char)
                  (list_ascii_of_string name)))) as Heq.
  { unfold safe_name_of, utf8_chars. rewrite (split_cp_ascii _ Hascii).
    cbn [String.eqb].
    assert (map (fun g => if keep_char unicode_alnum g then g else "_")
              (map (fun a => String a "") (list_ascii_of_string name))
            = map (fun a => String a "")
                (map (fun a => if is_id_char a then a else "_"%char)
                   (list_ascii_of_string name))) as ->.
    { rewrite !map_map. apply map_ext_in.
      intros a Ha. unfold is_ascii in Hascii. rewrite forallb_forall in Hascii.
      cbn [keep_char]. rewrite (Hascii a Ha). unfold is_id_char.
      rewrite <- orb_assoc, (orb_comm (Ascii.eqb a "_")), orb_assoc.
      by destruct (is_alnum a || Ascii.eqb a "-" || Ascii.eqb a "_"). }
    rewrite firstn_map. apply concat_str_singletons. }
  split; [exact Heq|].
  rewrite Heq, length_string_of_list_ascii, length_take, length_map.
  by rewrite length_list_ascii_of_string.
Qed.




End CacheStoreMore.

(** * Further properties of the loader *)

(** ** Sheet identifiers *)

Lemma take_id_split_max s :
  exists post, s = take_id s +:+ post /\ take_id post = "" /\
    forallb is_id_char (list_ascii_of_string (take_id s)) = true.
Proof.
  induction s as [|a s (post & Hs & Hmax & Hall)]; [by exists ""|].
  cbn [take_id]. destruct (is_id_char a) eqn:Ha.
  - exists post. split; [|split; [done|]].
    + change (String a (take_id s) +:+ post) with (String a (take_id s +:+ post)).
      by rewrite <- Hs.
    + cbn. by rewrite Ha.
  - exists (String a s). split; [done|]. split; [|done]. cbn. by rewrite Ha.
Qed.

Lemma take_id_exact id post :
  forallb is_id_char (list_ascii_of_string id) = true ->
  take_id post = "" -> take_id (id +:+ post) = id.
Proof.
  intros Hall Hpost. induction id as [|a id IH]; [exact Hpost|].
  cbn in Hall. apply andb_prop in Hall as [Ha Hall].
  change (String a id +:+ post) with (String a (id +:+ post)).
  cbn [take_id]. by rewrite Ha, (IH Hall).
Qed.

Lemma re_search_step lit a s :
  match_here lit (String a s) = None ->
  re_search lit (String a s) = re_search lit s.
Proof. intros H. cbn [re_search]. by rewrite H. Qed.

Lemma re_search_leftmost lit s g :
  re_search lit s = Some g ->
  exists pre post,
    s = pre +:+ lit +:+ g +:+ post /\
    take_id post = "" /\
    forall pre1 pre2, pre = pre1 +:+ pre2 -> pre2 <> "" ->
      match_here lit (pre2 +:+ lit +:+ g +:+ post) = None.
Proof.
  assert (forall t g', match_here lit t = Some g' ->
            exists post, t = lit +:+ g' +:+ post /\ take_id post = "") as Hhere.
  { intros t g'. unfold match_here.
    destruct (strip_prefix lit t) as [rest|] eqn:Hp; [|done].
    apply strip_prefix_Some in Hp as ->.
    destruct (String.eqb_spec (take_id rest) "") as [|Hne]; [done|].
    intros [= <-]. destruct (take_id_split_max rest) as (post & Hrest & Hmax & _).
    exists post. by rewrite <- Hrest. }
  induction s as [|a s IH]; cbn [re_search].
  - destruct (match_here lit "") as [g'|] eqn:Hm; [|done].
    intros [= ->]. destruct (Hhere _ _ Hm) as (post & Hs & Hmax).
    exists "", post. split; [done|]. split; [done|].
    intros [|b pre1] pre2 Hpre Hne; [by destruct Hne|discriminate].
  - destruct (match_here lit (String a s)) as [g'|] eqn:Hm.
    + intros [= ->]. destruct (Hhere _ _ Hm) as (post & Hs & Hmax).
      exists "", post. split; [done|]. split; [done|].
      intros [|b pre1] pre2 Hpre Hne; [by destruct Hne|discriminate].
    + intros (pre & post & -> & Hmax & Hleft)%IH.
      exists (String a pre), post. split; [done|]. split; [done|].
      intros [|b pre1] pre2 Hpre Hne.
      * change ("" +:+ pre2) with pre2 in Hpre. by subst pre2.
      * change (String b pre1 +:+ pre2) with (String b (pre1 +:+ pre2)) in Hpre.
        injection Hpre as _ Hpre. by apply (Hleft pre1).
Qed.

(** X8.  The identifier [extract_google_sheet_id] returns stands in the
    URL right behind one of the two markers, is a non-empty run of letters,
    digits, [-] and [_] that the character after it does not extend, and
    is the leftmost such match of its marker: the marker followed by an
    identifier character occurs nowhere further left. *)
Theorem extract_google_sheet_id_maximal url g :
  extract_google_sheet_id url = Some g ->
  exists lit pre post,
    lit ∈ patterns /\
    url = pre +:+ lit +:+ g +:+ post /\
    id_string g /\
    take_id post = "" /\
    forall pre1 pre2, pre = pre1 +:+ pre2 -> pre2 <> "" ->
      match_here lit (pre2 +:+ lit +:+ g +:+ post) = None.
Proof.
  intros Hx. pose proof (extract_google_sheet_id_Some url g Hx) as [Hid _].
  revert Hx. unfold extract_google_sheet_id, patterns. cbn [first_match].
  destruct (re_search "/spreadsheets/d/" url) as [g1|] eqn:H1.
  - intros [= ->]. apply re_search_leftmost in H1 as (pre & post & ? & ? & ?).
    exists "/spreadsheets/d/", pre, post.
    split; [apply elem_of_cons; by left|]. eauto.
  - destruct (re_search "id=" url) as [g2|] eqn:H2; [|done].
    intros [= ->]. apply re_search_leftmost in H2 as (pre & post & ? & ? & ?).
    exists "id=", pre, post.
    split; [apply elem_of_cons; right; apply elem_of_cons; by left|].
    eauto.
Qed.

(** X9.  The export URL built for an identifier is a recognised URL
    itself: [extract_google_sheet_id] finds the identifier in it again and
    [get_google_sheet_csv_url] maps it to itself. *)
Theorem get_google_sheet_csv_url_export_url id :
  id_string id ->
  extract_google_sheet_id (export_url id) = Some id /\
  get_google_sheet_csv_url (export_url id) "0" = Some (export_url id).
Proof.
  intros [Hne Hall].
  assert (extract_google_sheet_id (export_url id) = Some id) as Hx.
  { unfold extract_google_sheet_id, patterns, export_url. cbn [first_match].
    repeat (change (String ?a ?s +:+ ?t) with (String a (s +:+ t));
            change ("" +:+ ?t) with t).
    repeat (rewrite re_search_step by reflexivity).
    cbn [re_search match_here strip_prefix Ascii.eqb Bool.eqb].
    rewrite (take_id_exact id _ Hall) by reflexivity.
    apply String.eqb_neq in Hne. by rewrite Hne. }
  split; [exact Hx|].
  rewrite get_google_sheet_csv_url_of_id, Hx.
  unfold truthy. apply String.eqb_neq in Hne. by rewrite Hne.
Qed.

(** ** Rows *)

(** X10.  [parse_dataframe] handles each row on its own: the records of
    two frames stacked are the records of the first followed by those of
    the second, and a frame never gives more records than it has rows. *)
Theorem parse_dataframe_app (rows1 rows2 : list (list cell)) :
  parse_dataframe (rows1 ++ rows2) = parse_dataframe rows1 ++ parse_dataframe rows2 /\
  length (parse_dataframe rows1) <= length rows1.
Proof.
  split.
  - induction rows1 as [|row rows1 IH]; [done|].
    cbn [app parse_dataframe]. rewrite IH.
    by destruct (extract_row row) as [[r|]|].
  - induction rows1 as [|row rows1 IH]; [done|].
    cbn [parse_dataframe length].
    destruct (extract_row row) as [[r|]|]; cbn [length]; lia.
Qed.

Lemma extract_row_frame (row row' : list cell) :
  row !! 1 = row' !! 1 -> row !! 2 = row' !! 2 -> row !! 3 = row' !! 3 ->
  extract_row row = extract_row row'.
Proof. intros H1 H2 H3. unfold extract_row, iloc. by rewrite H1, H2, H3. Qed.

(** X11.  Only the second, third and fourth cell of a row are read: two
    frames whose rows agree on these cells, and on their absence, give the
    same records. *)
Theorem parse_dataframe_frame (rows rows' : list (list cell)) :
  Forall2 (fun row row' : list cell =>
             row !! 1 = row' !! 1 /\ row !! 2 = row' !! 2 /\ row !! 3 = row' !! 3)
    rows rows' ->
  parse_dataframe rows = parse_dataframe rows'.
Proof.
  induction 1 as [|row row' rows rows' (H1 & H2 & H3) _ IH]; [done|].
  cbn [parse_dataframe]. rewrite (extract_row_frame row row' H1 H2 H3).
  by rewrite IH.
Qed.

Lemma columns_blank (row : list cell) :
  columns (map blank row) = columns row.
Proof.
  destruct row as [|c0 [|c1 [|c2 [|c3 rest]]]]; try reflexivity.
  cbn. by destruct c1, c2, c3.
Qed.

(** X12.  A missing cell and an empty text cell are the same to
    [parse_dataframe]: replacing every missing cell of a frame by the empty
    text changes no record. *)
Theorem parse_dataframe_blank (rows : list (list cell)) :
  parse_dataframe (map (map blank) rows) = parse_dataframe rows.
Proof.
  induction rows as [|row rows IH]; [done|].
  cbn [map parse_dataframe]. rewrite !extract_row_columns, columns_blank.
  by rewrite IH.
Qed.

(** * The session of the main window *)

Lemma list_item_in_range {A} (l : list A) (i : Z) :
  (0 <= i < Z.of_nat (length l))%Z ->
  exists x, list_item l i = Ok x /\ l !! Z.to_nat i = Some x.
Proof.
  intros Hi. unfold list_item.
  destruct (i <? 0)%Z eqn:Hneg; [apply Z.ltb_lt in Hneg; lia|].
  rewrite Hneg.
  destruct (l !! Z.to_nat i) as [x|] eqn:Hx; [eauto|].
  apply lookup_ge_None in Hx. lia.
Qed.

Lemma is_card_fields v :
  is_card v = true ->
  exists h r m, getitem v "hanja" = Ok (JStr h) /\
    getitem v "reading" = Ok (JStr r) /\ getitem v "meaning" = Ok (JStr m).
Proof.
  unfold is_card.
  destruct (getitem v "hanja") as [[| | |h| |]|]; try done.
  destruct (getitem v "reading") as [[| | |r| |]|]; try done.
  destruct (getitem v "meaning") as [[| | |m| |]|]; try done.
  eauto 6.
Qed.

Lemma card_in_range l i :
  forallb is_card l = true ->
  (0 <= i < Z.of_nat (length l))%Z ->
  exists v, list_item l i = Ok v /\
    getitem v "hanja" = Ok (JStr (card_field l i "hanja")) /\
    getitem v "reading" = Ok (JStr (card_field l i "reading")) /\
    getitem v "meaning" = Ok (JStr (card_field l i "meaning")).
Proof.
  intros Hcards Hi. destruct (list_item_in_range l i Hi) as (v & Hv & Hlook).
  exists v. split; [done|]. unfold card_field. rewrite Hv.
  rewrite forallb_forall in Hcards.
  destruct (is_card_fields v) as (h & r & m & -> & -> & ->); [|done].
  apply Hcards, list_elem_of_In. by eapply list_elem_of_lookup_2.
Qed.

Lemma py_truthy_cards l : l <> [] -> py_truthy (JArr l) = true.
Proof. by destruct l. Qed.

Section Handlers.

Variables (l : list json) (ht mt : Z).
Hypothesis Hne : l <> [].
Hypothesis Hcards : forallb is_card l = true.

Local Abbreviation n := (Z.of_nat (length l)).
Local Abbreviation at_index i sh run := (mk_session (JArr l) i sh run ht mt).

Lemma show_current_hanja_run i sh' run' :
  (0 <= i < n)%Z ->
  show_current_hanja (at_index i sh' run') =
    (Ok tt, at_index i sh' run',
     [setText hanja_label (card_field l i "hanja");
      setText reading_label ""; setText meaning_label "";
      setStyleSheet hanja_label hanja_white]).
Proof.
  intros Hi. destruct (card_in_range l i Hcards Hi) as (v & Hv & Hh & _).
  unfold show_current_hanja, gbind, self, glift, emit, gret.
  cbn -[py_truthy list_item getitem]. rewrite (py_truthy_cards l Hne).
  cbn -[list_item getitem]. rewrite Hv, Hh. reflexivity.
Qed.

Lemma show_reading_meaning_run i sh' run' :
  (0 <= i < n)%Z ->
  show_reading_meaning (at_index i sh' run') =
    (Ok tt, at_index i sh' run',
     [setText reading_label (card_field l i "reading");
      setText meaning_label (card_field l i "meaning");
      setStyleSheet hanja_label hanja_grey]).
Proof.
  intros Hi. destruct (card_in_range l i Hcards Hi) as (v & Hv & _ & Hr & Hm).
  unfold show_reading_meaning, gbind, self, glift, emit, gret.
  cbn -[py_truthy list_item getitem]. rewrite (py_truthy_cards l Hne).
  cbn -[list_item getitem]. rewrite Hv, Hr. cbn -[list_item getitem].
  rewrite Hm. reflexivity.
Qed.

Lemma update_progress_run i sh' run' :
  update_progress (at_index i sh' run') =
    (Ok tt, at_index i sh' run',
     [setText progress_label
        ("진행: " +:+ pretty (i + 1)%Z +:+ " / " +:+ pretty n);
      setValue (i + 1)]).
Proof. reflexivity. Qed.

Lemma gbind_run {A B} (m : G A) (k : A -> G B) s a s' c :
  m s = (Ok a, s', c) ->
  gbind m k s = (let '(r, s'', c') := k a s' in (r, s'', c ++ c')).
Proof. intros H. unfold gbind. by rewrite H. Qed.

Lemma move_hanja_run delta i sh' run' :
  (0 <= i < n)%Z ->
  let j := ((i + delta) mod n)%Z in
  move_hanja delta (at_index i sh' run') =
    (Ok tt, at_index j true run',
     [setText progress_label
        ("진행: " +:+ pretty (j + 1)%Z +:+ " / " +:+ pretty n);
      setValue (j + 1);
      setText hanja_label (card_field l j "hanja");
      setText reading_label ""; setText meaning_label "";
      setStyleSheet hanja_label hanja_white]
     ++ (if run' then [timer_stop; timer_start ht] else [])).
Proof.
  intros Hi j.
  assert (0 <= j < n)%Z as Hj by (apply Z.mod_pos_bound; lia).
  unfold move_hanja.
  rewrite (gbind_run _ _ _ (JArr l) (at_index i sh' run') []) by reflexivity.
  rewrite (py_truthy_cards l Hne). cbn [negb].
  rewrite (gbind_run _ _ _ tt (at_index j sh' run') []) by reflexivity.
  rewrite (gbind_run _ _ _ tt (at_index j true run') []) by reflexivity.
  rewrite (gbind_run _ _ _ _ _ _ (update_progress_run j true run')).
  rewrite (gbind_run _ _ _ _ _ _ (show_current_hanja_run j true run' Hj)).
  rewrite (gbind_run _ _ _ run' (at_index j true run') []) by reflexivity.
  destruct run'; reflexivity.
Qed.

Lemma toggle_display_run i sh' run' :
  (0 <= i < n)%Z ->
  toggle_display (at_index i sh' run') =
    if sh' then
      (Ok tt, at_index i false run',
       [setText reading_label (card_field l i "reading");
        setText meaning_label (card_field l i "meaning");
        setStyleSheet hanja_label hanja_grey;
        timer_start mt])
    else
      let j := ((i + 1) mod n)%Z in
      (Ok tt, at_index j true run',
       [setText progress_label
          ("진행: " +:+ pretty (j + 1)%Z +:+ " / " +:+ pretty n);
        setValue (j + 1);
        setText hanja_label (card_field l j "hanja");
        setText reading_label ""; setText meaning_label "";
        setStyleSheet hanja_label hanja_white;
        timer_start ht]).
Proof.
  intros Hi. unfold toggle_display.
  rewrite (gbind_run _ _ _ (JArr l) (at_index i sh' run') []) by reflexivity.
  rewrite (py_truthy_cards l Hne). cbn [negb].
  rewrite (gbind_run _ _ _ sh' (at_index i sh' run') []) by reflexivity.
  destruct sh'.
  - rewrite (gbind_run _ _ _ tt (at_index i false run') []) by reflexivity.
    rewrite (gbind_run _ _ _ _ _ _ (show_reading_meaning_run i false run' Hi)).
    reflexivity.
  - cbv zeta. set (j := ((i + 1) mod n)%Z).
    assert (0 <= j < n)%Z as Hj by (apply Z.mod_pos_bound; lia).
    rewrite (gbind_run _ _ _ tt (at_index i true run') []) by reflexivity.
    rewrite (gbind_run _ _ _ tt (at_index j true run') []) by reflexivity.
    rewrite (gbind_run _ _ _ _ _ _ (update_progress_run j true run')).
    rewrite (gbind_run _ _ _ _ _ _ (show_current_hanja_run j true run' Hj)).
    reflexivity.
Qed.

Lemma start_memorizing_run i sh' run' :
  (0 <= i < n)%Z ->
  start_memorizing (at_index i sh' run') =
    (Ok tt, at_index i true true,
     [button_setText start_btn "⏹ 정지";
      button_setStyleSheet start_btn start_red;
      setText hanja_label (card_field l i "hanja");
      setText reading_label ""; setText meaning_label "";
      setStyleSheet hanja_label hanja_white;
      timer_start ht]).
Proof.
  intros Hi. unfold start_memorizing.
  rewrite (gbind_run _ _ _ (JArr l) (at_index i sh' run') []) by reflexivity.
  rewrite (py_truthy_cards l Hne). cbn [negb].
  rewrite (gbind_run _ _ _ tt (at_index i sh' true) []) by reflexivity.
  rewrite (gbind_run _ _ _ tt (at_index i sh' true)
             [button_setText start_btn "⏹ 정지"]) by reflexivity.
  rewrite (gbind_run _ _ _ tt (at_index i sh' true)
             [button_setStyleSheet start_btn start_red]) by reflexivity.
  rewrite (gbind_run _ _ _ tt (at_index i true true) []) by reflexivity.
  rewrite (gbind_run _ _ _ _ _ _ (show_current_hanja_run i true true Hi)).
  reflexivity.
Qed.

Lemma on_data_loaded_run name i sh' run' :
  on_data_loaded name (at_index i sh' run') =
    (Ok tt, at_index 0 sh' run',
     [setText file_label ("파일: " +:+ name);
      setText count_label ("총 " +:+ pretty n +:+ "개 한자");
      setMaximum n; setValue 0;
      setEnabled start_btn true; setEnabled shuffle_btn true;
      setEnabled prev_btn true; setEnabled next_btn true;
      setText progress_label
        ("진행: " +:+ pretty 1%Z +:+ " / " +:+ pretty n);
      setValue 1;
      setText hanja_label (card_field l 0 "hanja");
      setText reading_label ""; setText meaning_label "";
      setStyleSheet hanja_label hanja_white]).
Proof.
  assert (0 <= 0 < n)%Z as H0 by (destruct l; [done|cbn; lia]).
  unfold on_data_loaded.
  rewrite (gbind_run _ _ _ tt (at_index i sh' run')
             [setText file_label ("파일: " +:+ name)]) by reflexivity.
  rewrite (gbind_run _ _ _ (JArr l) (at_index i sh' run') []) by reflexivity.
  rewrite (gbind_run _ _ _ n (at_index i sh' run') []) by reflexivity.
  rewrite (gbind_run _ _ _ tt (at_index i sh' run')
             [setText count_label ("총 " +:+ pretty n +:+ "개 한자")])
    by reflexivity.
  rewrite (gbind_run _ _ _ (JArr l) (at_index i sh' run') []) by reflexivity.
  rewrite (gbind_run _ _ _ n (at_index i sh' run') []) by reflexivity.
  rewrite (gbind_run _ _ _ tt (at_index i sh' run') [setMaximum n])
    by reflexivity.
  rewrite (gbind_run _ _ _ tt (at_index i sh' run') [setValue 0])
    by reflexivity.
  rewrite (gbind_run _ _ _ tt (at_index i sh' run') [setEnabled start_btn true])
    by reflexivity.
  rewrite (gbind_run _ _ _ tt (at_index i sh' run') [setEnabled shuffle_btn true])
    by reflexivity.
  rewrite (gbind_run _ _ _ tt (at_index i sh' run') [setEnabled prev_btn true])
    by reflexivity.
  rewrite (gbind_run _ _ _ tt (at_index i sh' run') [setEnabled next_btn true])
    by reflexivity.
  rewrite (gbind_run _ _ _ tt (at_index 0 sh' run') []) by reflexivity.
  rewrite (gbind_run _ _ _ _ _ _ (update_progress_run 0 sh' run')).
  rewrite (show_current_hanja_run 0 sh' run' H0).
  reflexivity.
Qed.

End Handlers.

Lemma stop_memorizing_run s :
  stop_memorizing s =
    (Ok tt,
     mk_session (hanja_list s) (current_index s) (showing_hanja s) false
       (hanja_time s) (meaning_time s),
     [timer_stop; button_setText start_btn "▶ 시작";
      button_setStyleSheet start_btn start_green]).
Proof. reflexivity. Qed.

Lemma cards_permutation (l l' : list json) :
  l' ≡ₚ l -> l <> [] -> forallb is_card l = true ->
  l' <> [] /\ forallb is_card l' = true /\ length l' = length l.
Proof.
  intros Hp Hne Hcards. split; [|split].
  - intros ->. by apply Permutation_nil_l in Hp.
  - rewrite forallb_forall in Hcards. apply forallb_forall.
    intros x Hx. apply Hcards. apply list_elem_of_In.
    rewrite <- Hp. by apply list_elem_of_In.
  - by apply Permutation_length.
Qed.

Lemma shuffle_hanja_run rng l i sh run ht mt :
  l <> [] -> rng l <> [] -> forallb is_card (rng l) = true ->
  shuffle_hanja rng (mk_session (JArr l) i sh run ht mt) =
    (Ok tt, mk_session (JArr (rng l)) 0 sh run ht mt,
     [setText progress_label
        ("진행: " +:+ pretty 1%Z +:+ " / " +:+ pretty (Z.of_nat (length (rng l))));
      setValue 1;
      setText hanja_label (card_field (rng l) 0 "hanja");
      setText reading_label ""; setText meaning_label "";
      setStyleSheet hanja_label hanja_white;
      QMessageBox information "섞기 완료" "한자 순서를 랜덤으로 섞었습니다."]).
Proof.
  intros Hne Hne' Hcards'.
  assert (0 <= 0 < Z.of_nat (length (rng l)))%Z as H0
    by (destruct (rng l); [done|cbn; lia]).
  unfold shuffle_hanja.
  rewrite (gbind_run _ _ _ (JArr l) (mk_session (JArr l) i sh run ht mt) [])
    by reflexivity.
  rewrite (py_truthy_cards l Hne).
  rewrite (gbind_run _ _ _ (JArr (rng l)) (mk_session (JArr l) i sh run ht mt) [])
    by reflexivity.
  rewrite (gbind_run _ _ _ tt (mk_session (JArr (rng l)) i sh run ht mt) [])
    by reflexivity.
  rewrite (gbind_run _ _ _ tt (mk_session (JArr (rng l)) 0 sh run ht mt) [])
    by reflexivity.
  rewrite (gbind_run _ _ _ _ _ _ (update_progress_run (rng l) ht mt 0 sh run)).
  rewrite (gbind_run _ _ _ _ _ _
             (show_current_hanja_run (rng l) ht mt Hne' Hcards' 0 sh run H0)).
  reflexivity.
Qed.

(** ** Events on a loaded session *)

Lemma toggle_start_run l ht mt i sh run :
  l <> [] -> forallb is_card l = true ->
  (0 <= i < Z.of_nat (length l))%Z ->
  toggle_start (mk_session (JArr l) i sh run ht mt) =
    if run then stop_memorizing (mk_session (JArr l) i sh run ht mt)
    else start_memorizing (mk_session (JArr l) i sh run ht mt).
Proof.
  intros Hne Hcards Hi. unfold toggle_start.
  rewrite (gbind_run _ _ _ run (mk_session (JArr l) i sh run ht mt) [])
    by reflexivity.
  destruct run.
  - rewrite stop_memorizing_run. reflexivity.
  - rewrite (start_memorizing_run l ht mt Hne Hcards i sh false Hi). reflexivity.
Qed.

Lemma handle_ok rng e l i sh run ht mt :
  (forall l0, rng l0 ≡ₚ l0) ->
  l <> [] -> forallb is_card l = true ->
  (0 <= i < Z.of_nat (length l))%Z ->
  exists l' i' sh' run' ht' mt' cmds,
    handle rng e (mk_session (JArr l) i sh run ht mt)
      = (Ok tt, mk_session (JArr l') i' sh' run' ht' mt', cmds) /\
    l' ≡ₚ l /\ (0 <= i' < Z.of_nat (length l))%Z /\
    forallb (value_in_range (Z.of_nat (length l))) cmds = true.
Proof.
  intros Hrng Hne Hcards Hi.
  assert (forall d, 0 <= (i + d) mod Z.of_nat (length l) < Z.of_nat (length l))%Z
    as Hmod by (intros d; apply Z.mod_pos_bound; lia).
  assert (forall j, (0 <= j < Z.of_nat (length l))%Z ->
            value_in_range (Z.of_nat (length l)) (setValue (j + 1)) = true) as Hval.
  { intros j Hj. cbn [value_in_range]. apply andb_true_intro.
    split; apply Z.leb_le; lia. }
  assert (exists l' i' sh' run' ht' mt' cmds,
    toggle_start (mk_session (JArr l) i sh run ht mt)
      = (Ok tt, mk_session (JArr l') i' sh' run' ht' mt', cmds) /\
    l' ≡ₚ l /\ (0 <= i' < Z.of_nat (length l))%Z /\
    forallb (value_in_range (Z.of_nat (length l))) cmds = true) as Hstart.
  { rewrite (toggle_start_run l ht mt i sh run Hne Hcards Hi). destruct run.
    - rewrite stop_memorizing_run. by do 7 eexists.
    - rewrite (start_memorizing_run l ht mt Hne Hcards i sh false Hi).
      by do 7 eexists. }
  assert (forall d, exists l' i' sh' run' ht' mt' cmds,
    move_hanja d (mk_session (JArr l) i sh run ht mt)
      = (Ok tt, mk_session (JArr l') i' sh' run' ht' mt', cmds) /\
    l' ≡ₚ l /\ (0 <= i' < Z.of_nat (length l))%Z /\
    forallb (value_in_range (Z.of_nat (length l))) cmds = true) as Hmove.
  { intros d. rewrite (move_hanja_run l ht mt Hne Hcards d i sh run Hi).
    do 7 eexists. split; [reflexivity|]. split; [done|]. split; [apply Hmod|].
    cbn [forallb app]. rewrite (Hval _ (Hmod d)). by destruct run. }
  assert (exists l' i' sh' run' ht' mt' cmds,
    shuffle_hanja rng (mk_session (JArr l) i sh run ht mt)
      = (Ok tt, mk_session (JArr l') i' sh' run' ht' mt', cmds) /\
    l' ≡ₚ l /\ (0 <= i' < Z.of_nat (length l))%Z /\
    forallb (value_in_range (Z.of_nat (length l))) cmds = true) as Hshuffle.
  { destruct (cards_permutation l (rng l) (Hrng l) Hne Hcards)
      as (Hne' & Hcards' & Hlen).
    rewrite (shuffle_hanja_run rng l i sh run ht mt Hne Hne' Hcards').
    do 7 eexists. split; [reflexivity|]. split; [apply Hrng|]. split; [lia|].
    cbn [forallb]. change (setValue 1) with (setValue (0 + 1)).
    by rewrite (Hval 0%Z) by lia. }
  destruct e as [|k| | | | |v|v]; cbn [handle].
  - rewrite (toggle_display_run l ht mt Hne Hcards i sh run Hi). destruct sh.
    + by do 7 eexists.
    + cbv zeta. do 7 eexists. split; [reflexivity|]. split; [done|].
      split; [apply Hmod|]. cbn [forallb]. by rewrite (Hval _ (Hmod 1%Z)).
  - destruct k; cbn [keyPressEvent].
    + exact Hstart.
    + apply Hmove.
    + apply Hmove.
    + exact Hshuffle.
    + by do 7 eexists.
  - exact Hstart.
  - exact Hshuffle.
  - apply Hmove.
  - apply Hmove.
  - by do 7 eexists.
  - by do 7 eexists.
Qed.

Lemma handle_all_ok rng es l i sh run ht mt :
  (forall l0, rng l0 ≡ₚ l0) ->
  l <> [] -> forallb is_card l = true ->
  (0 <= i < Z.of_nat (length l))%Z ->
  exists l' i' sh' run' ht' mt' cmds,
    handle_all rng es (mk_session (JArr l) i sh run ht mt)
      = (Ok tt, mk_session (JArr l') i' sh' run' ht' mt', cmds) /\
    l' ≡ₚ l /\ (0 <= i' < Z.of_nat (length l))%Z /\
    forallb (value_in_range (Z.of_nat (length l))) cmds = true.
Proof.
  intros Hrng. revert l i sh run ht mt.
  induction es as [|e es IH]; intros l i sh run ht mt Hne Hcards Hi.
  - by do 7 eexists.
  - destruct (handle_ok rng e l i sh run ht mt Hrng Hne Hcards Hi)
      as (l1 & i1 & sh1 & run1 & ht1 & mt1 & c1 & Hrun1 & Hp1 & Hi1 & Hc1).
    destruct (cards_permutation l l1 Hp1 Hne Hcards) as (Hne1 & Hcards1 & Hlen1).
    rewrite <- Hlen1 in Hi1.
    destruct (IH l1 i1 sh1 run1 ht1 mt1 Hne1 Hcards1 Hi1)
      as (l2 & i2 & sh2 & run2 & ht2 & mt2 & c2 & Hrun2 & Hp2 & Hi2 & Hc2).
    cbn [handle_all]. rewrite (gbind_run _ _ _ _ _ _ Hrun1), Hrun2.
    rewrite Hlen1 in Hi2, Hc2.
    do 7 eexists. split; [reflexivity|]. split; [by rewrite Hp2|].
    split; [done|]. by rewrite forallb_app, Hc1, Hc2.
Qed.

(** X13.  From a session with cards loaded and the index on one of them,
    no sequence of timer ticks, keys, button clicks and spin box changes
    raises; the session it ends in is again such a session, and its cards
    are a permutation of the cards it started with. *)
Theorem handle_all_keeps_session rng (es : list event) (s : session) :
  (forall l, rng l ≡ₚ l) ->
  session_ok s ->
  exists s' cmds,
    handle_all rng es s = (Ok tt, s', cmds) /\
    session_ok s' /\
    exists l l', hanja_list s = JArr l /\ hanja_list s' = JArr l' /\ l' ≡ₚ l.
Proof.
  intros Hrng (l & Hl & Hne & Hcards & Hi). destruct s as [hl i sh run ht mt].
  cbn in Hl, Hi. subst hl.
  destruct (handle_all_ok rng es l i sh run ht mt Hrng Hne Hcards Hi)
    as (l' & i' & sh' & run' & ht' & mt' & cmds & Hrun & Hp & Hi' & _).
  destruct (cards_permutation l l' Hp Hne Hcards) as (Hne' & Hcards' & Hlen).
  do 2 eexists. split; [exact Hrun|]. split.
  - exists l'. cbn. rewrite Hlen. eauto.
  - exists l, l'. eauto.
Qed.

(** X14.  Along any such sequence of events every value set on the
    progress bar lies between 1 and the number of cards. *)
Theorem handle_all_progress_in_range rng (es : list event) (s : session) l :
  (forall l0, rng l0 ≡ₚ l0) ->
  session_ok s ->
  hanja_list s = JArr l ->
  forall v, setValue v ∈ snd (handle_all rng es s) ->
    (1 <= v <= Z.of_nat (length l))%Z.
Proof.
  intros Hrng (l0 & Hl & Hne & Hcards & Hi) Hl' v Hv.
  destruct s as [hl i sh run ht mt]. cbn in Hl, Hi, Hl'. subst hl.
  injection Hl' as ->.
  destruct (handle_all_ok rng es l i sh run ht mt Hrng Hne Hcards Hi)
    as (l' & i' & sh' & run' & ht' & mt' & cmds & Hrun & _ & _ & Hc).
  rewrite Hrun in Hv. cbn [snd] in Hv.
  rewrite forallb_forall in Hc. apply list_elem_of_In, Hc in Hv.
  cbn [value_in_range] in Hv. apply andb_prop in Hv as [H1 H2].
  apply Z.leb_le in H1, H2. lia.
Qed.

(** ** Navigation *)

Lemma move_back (i n : Z) :
  (0 <= i < n)%Z ->
  (((i + 1) mod n + -1) mod n = i /\ ((i + -1) mod n + 1) mod n = i)%Z.
Proof.
  intros Hi. split.
  - rewrite Zplus_mod_idemp_l. replace (i + 1 + -1)%Z with i by lia.
    by apply Z.mod_small.
  - rewrite Zplus_mod_idemp_l. replace (i + -1 + 1)%Z with i by lia.
    by apply Z.mod_small.
Qed.

(** X15.  [next_hanja] followed by [prev_hanja], and [prev_hanja]
    followed by [next_hanja], end on the card they started from and leave
    the list as it was. *)
Theorem next_prev_hanja (s : session) :
  session_ok s ->
  current_index (after prev_hanja (after next_hanja s)) = current_index s /\
  current_index (after next_hanja (after prev_hanja s)) = current_index s /\
  hanja_list (after prev_hanja (after next_hanja s)) = hanja_list s /\
  hanja_list (after next_hanja (after prev_hanja s)) = hanja_list s.
Proof.
  intros (l & Hl & Hne & Hcards & Hi). destruct s as [hl i sh run ht mt].
  cbn in Hl, Hi. subst hl. unfold after, next_hanja, prev_hanja.
  assert (forall d, 0 <= (i + d) mod Z.of_nat (length l) < Z.of_nat (length l))%Z
    as Hmod by (intros d; apply Z.mod_pos_bound; lia).
  rewrite (move_hanja_run l ht mt Hne Hcards 1 i sh run Hi).
  rewrite (move_hanja_run l ht mt Hne Hcards (-1) i sh run Hi).
  cbv zeta. cbn [fst snd].
  rewrite (move_hanja_run l ht mt Hne Hcards (-1) _ true run (Hmod 1%Z)).
  rewrite (move_hanja_run l ht mt Hne Hcards 1 _ true run (Hmod (-1)%Z)).
  cbv zeta. cbn [fst snd current_index hanja_list].
  destruct (move_back i (Z.of_nat (length l)) Hi) as [-> ->]. done.
Qed.

(** X16.  Navigation wraps around: [prev_hanja] on the first card goes to
    the last card and [next_hanja] on the last card to the first, the
    character label showing that card and the progress bar its position. *)
Theorem prev_next_hanja_wrap (s : session) l :
  session_ok s ->
  hanja_list s = JArr l ->
  let last := (Z.of_nat (length l) - 1)%Z in
  (current_index s = 0%Z ->
   current_index (after prev_hanja s) = last /\
   setText hanja_label (card_field l last "hanja") ∈ calls prev_hanja s /\
   setValue (Z.of_nat (length l)) ∈ calls prev_hanja s) /\
  (current_index s = last ->
   current_index (after next_hanja s) = 0%Z /\
   setText hanja_label (card_field l 0 "hanja") ∈ calls next_hanja s /\
   setValue 1 ∈ calls next_hanja s).
Proof.
  intros (l0 & Hl & Hne & Hcards & Hi) Hl' last.
  destruct s as [hl i sh run ht mt]. cbn in Hl, Hi, Hl'. subst hl.
  injection Hl' as ->. unfold after, calls, next_hanja, prev_hanja.
  rewrite (move_hanja_run l ht mt Hne Hcards 1 i sh run Hi).
  rewrite (move_hanja_run l ht mt Hne Hcards (-1) i sh run Hi).
  cbv zeta. cbn [fst snd current_index].
  split; intros ->.
  - assert ((0 + -1) mod Z.of_nat (length l) = last)%Z as ->.
    { unfold last.
      replace (0 + -1)%Z
        with (Z.of_nat (length l) - 1 + -1 * Z.of_nat (length l))%Z by lia.
      rewrite Z_mod_plus_full. apply Z.mod_small. lia. }
    split; [done|]. split.
    + apply elem_of_app. left. do 2 (apply elem_of_cons; right).
      apply elem_of_cons. by left.
    + apply elem_of_app. left. apply elem_of_cons. right.
      apply elem_of_cons. left. f_equal. unfold last. lia.
  - assert ((last + 1) mod Z.of_nat (length l) = 0)%Z as ->.
    { unfold last. replace (Z.of_nat (length l) - 1 + 1)%Z
        with (Z.of_nat (length l)) by lia. apply Z_mod_same_full. }
    split; [done|]. split.
    + apply elem_of_app. left. do 2 (apply elem_of_cons; right).
      apply elem_of_cons. by left.
    + apply elem_of_app. left. apply elem_of_cons. right.
      apply elem_of_cons. by left.
Qed.

(** ** The timer *)

Lemma two_ticks_run l ht mt i run :
  l <> [] -> forallb is_card l = true ->
  (0 <= i < Z.of_nat (length l))%Z ->
  after toggle_display (after toggle_display (mk_session (JArr l) i true run ht mt))
    = mk_session (JArr l) ((i + 1) mod Z.of_nat (length l)) true run ht mt.
Proof.
  intros Hne Hcards Hi. unfold after.
  rewrite (toggle_display_run l ht mt Hne Hcards i true run Hi). cbn [fst snd].
  by rewrite (toggle_display_run l ht mt Hne Hcards i false run Hi).
Qed.

Lemma iter_two_ticks l ht mt i run k :
  l <> [] -> forallb is_card l = true ->
  (0 <= i < Z.of_nat (length l))%Z ->
  Nat.iter k (fun s => after toggle_display (after toggle_display s))
    (mk_session (JArr l) i true run ht mt)
    = mk_session (JArr l) ((i + Z.of_nat k) mod Z.of_nat (length l)) true run ht mt.
Proof.
  intros Hne Hcards Hi. induction k as [|k IH].
  - change (Nat.iter 0 ?f ?x) with x. change (Z.of_nat 0) with 0%Z.
    rewrite Z.add_0_r. by rewrite Z.mod_small.
  - rewrite Nat.iter_succ, IH.
    rewrite two_ticks_run; [|done|done|apply Z.mod_pos_bound; lia].
    f_equal. rewrite Zplus_mod_idemp_l. f_equal. lia.
Qed.

(** X17.  While the character side is showing, two timer ticks advance by
    one card modulo the number of cards and show the character side again;
    after as many pairs of ticks as there are cards the session is the one
    it started from. *)
Theorem toggle_display_cycle (s : session) l k :
  session_ok s ->
  hanja_list s = JArr l ->
  showing_hanja s = true ->
  let two_ticks := fun s => after toggle_display (after toggle_display s) in
  current_index (Nat.iter k two_ticks s)
    = ((current_index s + Z.of_nat k) mod Z.of_nat (length l))%Z /\
  showing_hanja (Nat.iter k two_ticks s) = true /\
  Nat.iter (length l) two_ticks s = s.
Proof.
  intros (l0 & Hl & Hne & Hcards & Hi) Hl' Hsh two_ticks.
  destruct s as [hl i sh run ht mt]. cbn in Hl, Hi, Hl', Hsh. subst hl sh.
  injection Hl' as ->. unfold two_ticks.
  rewrite !(iter_two_ticks l ht mt i run) by done.
  cbn [current_index showing_hanja]. split; [done|]. split; [done|].
  f_equal.
  replace (i + Z.of_nat (length l))%Z with (i + 1 * Z.of_nat (length l))%Z by lia.
  rewrite Z_mod_plus_full. by apply Z.mod_small.
Qed.

(** X18.  [toggle_start] switches between running and stopped and does
    not move the index.  Starting shows the character side and arms the
    timer with the character time as its last call; stopping stops the
    timer and arms none. *)
Theorem toggle_start_flips (s : session) :
  session_ok s ->
  is_running (after toggle_start s) = negb (is_running s) /\
  current_index (after toggle_start s) = current_index s /\
  (is_running s = false ->
   showing_hanja (after toggle_start s) = true /\
   List.last (calls toggle_start s) timer_stop = timer_start (hanja_time s)) /\
  (is_running s = true -> timer_stop ∈ calls toggle_start s /\
     forall ms, timer_start ms ∉ calls toggle_start s).
Proof.
  intros (l & Hl & Hne & Hcards & Hi). destruct s as [hl i sh run ht mt].
  cbn in Hl, Hi. subst hl. unfold after, calls.
  rewrite (toggle_start_run l ht mt i sh run Hne Hcards Hi). destruct run.
  - rewrite stop_memorizing_run. cbn [fst snd is_running current_index].
    repeat split; try done.
    + apply elem_of_cons. by left.
    + intros ms Hin. repeat apply elem_of_cons in Hin as [Hin|Hin]; try done.
      by apply elem_of_nil in Hin.
  - rewrite (start_memorizing_run l ht mt Hne Hcards i sh false Hi).
    cbn [fst snd is_running current_index showing_hanja]. repeat split; done.
Qed.

(** ** A session without cards *)

Lemma handle_empty rng e v i sh ht mt :
  py_truthy v = false ->
  exists ht' mt',
    handle rng e (mk_session v i sh false ht mt)
      = (Ok tt, mk_session v i sh false ht' mt', []).
Proof.
  intros Hf.
  assert (forall d, move_hanja d (mk_session v i sh false ht mt)
            = (Ok tt, mk_session v i sh false ht mt, [])) as Hmove.
  { intros d. unfold move_hanja, gbind, self. cbn [hanja_list].
    by rewrite Hf. }
  assert (toggle_start (mk_session v i sh false ht mt)
            = (Ok tt, mk_session v i sh false ht mt, [])) as Hstart.
  { unfold toggle_start, start_memorizing, gbind, self.
    cbn [is_running hanja_list]. by rewrite Hf. }
  assert (shuffle_hanja rng (mk_session v i sh false ht mt)
            = (Ok tt, mk_session v i sh false ht mt, [])) as Hshuffle.
  { unfold shuffle_hanja, gbind, self. cbn [hanja_list]. by rewrite Hf. }
  destruct e as [|k| | | | |w|w]; cbn [handle].
  - exists ht, mt. unfold toggle_display, gbind, self. cbn [hanja_list].
    by rewrite Hf.
  - exists ht, mt. destruct k; cbn [keyPressEvent]; try done; apply Hmove.
  - by exists ht, mt.
  - by exists ht, mt.
  - exists ht, mt. apply Hmove.
  - exists ht, mt. apply Hmove.
  - by exists (w * 1000)%Z, mt.
  - by exists ht, (w * 1000)%Z.
Qed.

(** X19.  While no cards are loaded and nothing is running, no event
    raises, calls a widget or changes the session, the two display times
    apart. *)
Theorem handle_all_without_cards rng (es : list event) (s : session) :
  py_truthy (hanja_list s) = false ->
  is_running s = false ->
  exists ht' mt',
    handle_all rng es s
      = (Ok tt,
         mk_session (hanja_list s) (current_index s) (showing_hanja s) false ht' mt',
         []).
Proof.
  destruct s as [v i sh run ht mt]. cbn. intros Hf ->.
  revert ht mt. induction es as [|e es IH]; intros ht mt.
  - by exists ht, mt.
  - destruct (handle_empty rng e v i sh ht mt Hf) as (ht1 & mt1 & H1).
    destruct (IH ht1 mt1) as (ht2 & mt2 & H2).
    exists ht2, mt2. cbn [handle_all].
    by rewrite (gbind_run _ _ _ _ _ _ H1), H2.
Qed.

(** ** Loading cards *)

(** X20.  [on_data_loaded] on a non-empty list of cards does not raise.
    It puts the index on the first card and shows it, sets the maximum of
    the progress bar to the number of cards, keeps the list, the running
    flag and the side shown, and neither starts nor stops the timer. *)
Theorem on_data_loaded_resets name (s : session) l :
  hanja_list s = JArr l -> l <> [] -> forallb is_card l = true ->
  fst (fst (on_data_loaded name s)) = Ok tt /\
  session_ok (after (on_data_loaded name) s) /\
  current_index (after (on_data_loaded name) s) = 0%Z /\
  hanja_list (after (on_data_loaded name) s) = JArr l /\
  is_running (after (on_data_loaded name) s) = is_running s /\
  showing_hanja (after (on_data_loaded name) s) = showing_hanja s /\
  setMaximum (Z.of_nat (length l)) ∈ calls (on_data_loaded name) s /\
  setText hanja_label (card_field l 0 "hanja") ∈ calls (on_data_loaded name) s /\
  forall ms, (timer_start ms ∉ calls (on_data_loaded name) s) /\
             (timer_stop ∉ calls (on_data_loaded name) s).
Proof.
  intros Hl Hne Hcards. destruct s as [hl i sh run ht mt]. cbn in Hl. subst hl.
  unfold after, calls. rewrite (on_data_loaded_run l ht mt Hne Hcards name i sh run).
  cbn [fst snd current_index hanja_list is_running showing_hanja].
  split; [done|]. split.
  { exists l. cbn. repeat split; try done. destruct l; [done|cbn; lia]. }
  do 4 (split; [done|]). split.
  { do 2 (apply elem_of_cons; right). apply elem_of_cons. by left. }
  split.
  { do 10 (apply elem_of_cons; right). apply elem_of_cons. by left. }
  intros ms. split; intros Hin;
    repeat (apply elem_of_cons in Hin as [Hin|Hin]; [discriminate Hin|]);
    by apply elem_of_nil in Hin.
Qed.

(** * The dropdown and the loaders *)

Lemma wbind_run {A B} (m : W A) (k : A -> W B) fs s a fs' s' c :
  m fs s = (Ok a, fs', s', c) ->
  wbind m k fs s =
    (let '(r, fs'', s'', c') := k a fs' s' in (r, fs'', s'', c ++ c')).
Proof. intros H. unfold wbind. by rewrite H. Qed.

Lemma wbind_raise {A B} (m : W A) (k : A -> W B) fs s e fs' s' c :
  m fs s = (Raise e, fs', s', c) ->
  wbind m k fs s = (Raise e, fs', s', c).
Proof. intros H. unfold wbind. by rewrite H. Qed.

Lemma gbind_raise {A B} (m : G A) (k : A -> G B) s e s' c :
  m s = (Raise e, s', c) -> gbind m k s = (Raise e, s', c).
Proof. intros H. unfold gbind. by rewrite H. Qed.

Section MainWindowFacts.

Variable home : string.
Variable unicode_alnum : string -> bool.
Variable py_repr : json -> string.
Variable str_exn : exn -> string.

Local Abbreviation DIR := (CACHE_DIR home).
Local Abbreviation INDEX := (CACHE_INDEX_FILE home).
Local Abbreviation filename_of := (cache_filename_of unicode_alnum).
Local Abbreviation dropdown := (load_cache_dropdown home py_repr).
Local Abbreviation item := (item_of py_repr).

Lemma add_items_run l s :
  forallb entry_listed l = true ->
  add_items py_repr l s = (Ok tt, s, map item l).
Proof.
  induction l as [|e l IH]; [done|]. cbn [forallb]. intros [He Hl]%andb_prop.
  cbn [add_items map]. unfold item_of at 1. unfold entry_listed in He.
  destruct (getitem e "name") as [name|] eqn:H1; [|done].
  destruct (getitem e "count") as [count|] eqn:H2; [|done].
  destruct (getitem e "source_type") as [st|] eqn:H3; [|done].
  rewrite (gbind_run _ _ _ name s []) by reflexivity.
  rewrite (gbind_run _ _ _ count s []) by reflexivity.
  rewrite (gbind_run _ _ _ st s []) by reflexivity.
  cbv zeta.
  destruct (negb (ne_str st "google"));
    (erewrite gbind_run by reflexivity); by rewrite (IH Hl).
Qed.

Lemma add_items_stop pre bad post s e :
  forallb entry_listed pre = true ->
  res_bind (getitem bad "name") (fun _ =>
    res_bind (getitem bad "count") (fun _ => getitem bad "source_type"))
    = Raise e ->
  add_items py_repr (pre ++ bad :: post) s = (Raise e, s, map item pre).
Proof.
  intros Hpre Hbad. induction pre as [|x pre IH].
  - cbn [app add_items map].
    destruct (getitem bad "name") as [name|e1] eqn:H1; cbn [res_bind] in Hbad.
    2:{ injection Hbad as ->. by rewrite (gbind_raise _ _ _ e s []). }
    rewrite (gbind_run _ _ _ name s []) by reflexivity.
    destruct (getitem bad "count") as [count|e2] eqn:H2; cbn [res_bind] in Hbad.
    2:{ injection Hbad as ->. by rewrite (gbind_raise _ _ _ e s []). }
    rewrite (gbind_run _ _ _ count s []) by reflexivity.
    rewrite Hbad. by rewrite (gbind_raise _ _ _ e s []).
  - cbn [forallb] in Hpre. apply andb_prop in Hpre as [Hx Hpre].
    cbn [app add_items map]. unfold item_of at 1. unfold entry_listed in Hx.
    destruct (getitem x "name") as [name|] eqn:H1; [|done].
    destruct (getitem x "count") as [count|] eqn:H2; [|done].
    destruct (getitem x "source_type") as [st|] eqn:H3; [|done].
    rewrite (gbind_run _ _ _ name s []) by reflexivity.
    rewrite (gbind_run _ _ _ count s []) by reflexivity.
    rewrite (gbind_run _ _ _ st s []) by reflexivity.
    cbv zeta.
    destruct (negb (ne_str st "google"));
      (erewrite gbind_run by reflexivity); by rewrite (IH Hpre).
Qed.

Lemma load_cache_dropdown_start (fs : disk) s l :
  stored_entries home fs = Some l ->
  dropdown fs s =
    (let '(r, s', c) := add_items py_repr l s in
     (r, fs, s', [combo_clear; placeholder] ++ c)).
Proof.
  intros Hl. destruct (stored_entries_inv home fs l Hl) as (kvs & Hidx & Hfiles).
  unfold load_cache_dropdown.
  rewrite (wbind_run _ _ fs s tt fs s [combo_clear]) by reflexivity.
  rewrite (wbind_run _ _ fs s tt fs s [placeholder]) by reflexivity.
  rewrite (wbind_run _ _ fs s (JObj kvs) fs s []).
  2:{ unfold on_disk. by rewrite load_cache_index_run, Hidx. }
  rewrite (wbind_run _ _ fs s (JArr l) fs s []).
  2:{ unfold wlift. cbn [get_default]. by rewrite Hfiles. }
  rewrite (wbind_run _ _ fs s l fs s []) by reflexivity.
  unfold on_session. by destruct (add_items py_repr l s) as [[r s'] c].
Qed.

(** X21.  [load_cache_dropdown] fills the dropdown with the placeholder
    followed by one item for each entry of the stored index, in the order
    of the index and each carrying its entry; disk and session are as they
    were. *)
Theorem load_cache_dropdown_items (fs : disk) s l :
  stored_entries home fs = Some l ->
  forallb entry_listed l = true ->
  dropdown fs s = (Ok tt, fs, s, combo_clear :: placeholder :: map item l).
Proof.
  intros Hl Hlisted. rewrite (load_cache_dropdown_start fs s l Hl).
  by rewrite (add_items_run l s Hlisted).
Qed.

(** X22.  At the first entry of the index that lacks [name], [count] or
    [source_type], [load_cache_dropdown] raises the lookup error; the
    placeholder and the items of the entries before it are in the dropdown
    by then, those of the entries after it are not. *)
Theorem load_cache_dropdown_stops (fs : disk) s pre bad post e :
  stored_entries home fs = Some (pre ++ bad :: post) ->
  forallb entry_listed pre = true ->
  res_bind (getitem bad "name") (fun _ =>
    res_bind (getitem bad "count") (fun _ => getitem bad "source_type"))
    = Raise e ->
  dropdown fs s = (Raise e, fs, s, combo_clear :: placeholder :: map item pre).
Proof.
  intros Hl Hpre Hbad. rewrite (load_cache_dropdown_start fs s _ Hl).
  by rewrite (add_items_stop pre bad post s e Hpre Hbad).
Qed.


(** ** Loading a cached dataset from the dropdown *)

Lemma set_and_shuffle_run rng l (fs : disk) i sh run ht mt v :
  set_and_shuffle rng (JArr l) fs (mk_session v i sh run ht mt) =
    (Ok tt, fs, mk_session (JArr (rng l)) i sh run ht mt, []).
Proof. reflexivity. Qed.

Lemma on_session_run {A} (g : G A) (fs : disk) s r s' c :
  g s = (r, s', c) -> on_session g fs s = (r, fs, s', c).
Proof. intros H. unfold on_session. by rewrite H. Qed.

Lemma load_from_cache_selected_run rng file_info c name l (fs : disk)
    v i sh run ht mt :
  py_truthy file_info = true ->
  getitem file_info "cache_file" = Ok (JStr c) ->
  getitem file_info "name" = Ok name ->
  fs !! os_path_join DIR c = Some (Json (JArr l)) ->
  l <> [] -> rng l <> [] -> forallb is_card (rng l) = true ->
  load_from_cache_selected home py_repr rng (Some file_info) fs
      (mk_session v i sh run ht mt) =
    (Ok tt, fs, mk_session (JArr (rng l)) 0 sh run ht mt,
     snd (on_data_loaded (py_str py_repr name)
            (mk_session (JArr (rng l)) i sh run ht mt))).
Proof.
  intros Ht Hc Hname Hfile Hne Hne' Hcards'.
  set (s0 := mk_session v i sh run ht mt).
  unfold load_from_cache_selected. rewrite Ht.
  rewrite (wbind_run _ _ fs s0 (JStr c) fs s0 [])
    by (unfold wlift; by rewrite Hc).
  rewrite (wbind_run _ _ fs s0 (Some (JArr l)) fs s0 []).
  2:{ cbn [load_from_cache_of]. unfold on_disk.
      by rewrite load_from_cache_run, Hfile. }
  rewrite (py_truthy_cards l Hne).
  rewrite (wbind_run _ _ _ _ _ _ _ _ (set_and_shuffle_run rng l fs i sh run ht mt v)).
  rewrite (wbind_run _ _ fs (mk_session (JArr (rng l)) i sh run ht mt) name fs
             (mk_session (JArr (rng l)) i sh run ht mt) [])
    by (unfold wlift; by rewrite Hname).
  rewrite (on_session_run _ fs _ _ _ _
             (on_data_loaded_run (rng l) ht mt Hne' Hcards'
                (py_str py_repr name) i sh run)).
  by rewrite (on_data_loaded_run (rng l) ht mt Hne' Hcards').
Qed.

Lemma is_card_record r : is_card (record_to_json r) = true.
Proof. reflexivity. Qed.

Lemma cards_of_records (records : list record) :
  forallb is_card (map record_to_json records) = true.
Proof. apply forallb_forall. intros x (r & <- & _)%in_map_iff. apply is_card_record. Qed.

(** X23.  Let the stored index list dicts with a plain file name as
    [cache_file], and let [add_to_cache] evict no entry of the file it
    writes.  Selecting the entry it has just written then loads its
    records: the session holds a permutation of them with the index on the
    first card, the file label shows the name of the entry and the maximum
    of the progress bar is the number of records. *)
Theorem load_from_cache_selected_after_add rng now name st sp
    (records : list record) (fs : disk) l (s : session) :
  (forall l0, rng l0 ≡ₚ l0) ->
  stored_entries home fs = Some l ->
  forallb entry_plain l = true ->
  records <> [] ->
  let data := map record_to_json records in
  let fname := filename_of now name in
  let entry := new_entry name st sp fname (strftime now) data in
  os_path_join DIR fname ∉ omap (entry_path home) (old_files entry sp l) ->
  let fs' := snd (add_to_cache home unicode_alnum now name st sp data fs) in
  exists s' cmds,
    load_from_cache_selected home py_repr rng (Some entry) fs' s
      = (Ok tt, fs', s', cmds) /\
    hanja_list s' = JArr (rng data) /\ rng data ≡ₚ data /\
    current_index s' = 0%Z /\
    session_ok s' /\
    setText file_label ("파일: " +:+ name) ∈ cmds /\
    setMaximum (Z.of_nat (length records)) ∈ cmds.
Proof.
  intros Hrng Hl Hplain Hrec data fname entry Hfree fs'.
  pose proof (forallb_plain_ok _ Hplain) as Hok.
  destruct (add_to_cache_spec home unicode_alnum now name st sp data fs l Hl Hok)
    as (fs1 & Hrun & _ & Hlook).
  assert (fs' = fs1) as -> by (unfold fs'; by rewrite Hrun).
  assert (fs1 !! os_path_join DIR fname = Some (Json (JArr data))) as Hfile.
  { rewrite Hlook by apply cache_filepath_ne_index.
    rewrite decide_False by exact Hfree. by rewrite decide_True. }
  assert (data <> []) as Hne by (unfold data; by destruct records).
  destruct (cards_permutation data (rng data) (Hrng data) Hne
              (cards_of_records records)) as (Hne' & Hcards' & Hlen).
  destruct s as [v i sh run ht mt].
  rewrite (load_from_cache_selected_run rng entry fname (JStr name) data fs1
             v i sh run ht mt); try done.
  rewrite (on_data_loaded_run (rng data) ht mt Hne' Hcards').
  do 2 eexists. split; [reflexivity|]. cbn [hanja_list current_index snd].
  split; [done|]. split; [apply Hrng|]. split; [done|]. split.
  { exists (rng data). cbn. repeat split; try done.
    destruct (rng data); [done|cbn; lia]. }
  split.
  - apply elem_of_cons. by left.
  - do 2 (apply elem_of_cons; right). apply elem_of_cons. left.
    f_equal. rewrite Hlen. unfold data. by rewrite length_map.
Qed.

(** X24.  [load_from_cache_selected] with nothing selected shows a
    warning; with an entry whose [cache_file] is a plain file name and
    whose cache file is missing, or holds the empty list, it reports the
    file as not found; a cache file that is not JSON makes it raise.  Disk and session are unchanged in all four cases. *)
Theorem load_from_cache_selected_without_data rng file_info c (fs : disk)
    (s : session) :
  getitem file_info "cache_file" = Ok (JStr c) ->
  plain_name c = true ->
  (load_from_cache_selected home py_repr rng None fs s
     = (Ok tt, fs, s, [QMessageBox warning "알림" "파일을 선택해주세요."])) /\
  (fs !! os_path_join DIR c = None ->
   load_from_cache_selected home py_repr rng (Some file_info) fs s
     = (Ok tt, fs, s, [not_found])) /\
  (fs !! os_path_join DIR c = Some (Json (JArr [])) ->
   load_from_cache_selected home py_repr rng (Some file_info) fs s
     = (Ok tt, fs, s, [not_found])) /\
  (fs !! os_path_join DIR c = Some Corrupt ->
   load_from_cache_selected home py_repr rng (Some file_info) fs s
     = (Raise ValueError, fs, s, [])).
Proof.
  intros Hc _.
  assert (py_truthy file_info = true) as Ht.
  { destruct file_info as [| | | | |kvs]; try discriminate Hc.
    destruct kvs; [discriminate Hc|done]. }
  split; [reflexivity|].
  unfold load_from_cache_selected. rewrite Ht.
  rewrite (wbind_run _ _ fs s (JStr c) fs s []) by (unfold wlift; by rewrite Hc).
  cbn [load_from_cache_of].
  repeat split; intros Hfile.
  - rewrite (wbind_run _ _ fs s None fs s []); [done|].
    unfold on_disk. by rewrite load_from_cache_run, Hfile.
  - rewrite (wbind_run _ _ fs s (Some (JArr [])) fs s []); [done|].
    unfold on_disk. by rewrite load_from_cache_run, Hfile.
  - rewrite (wbind_raise _ _ fs s ValueError fs s []); [done|].
    unfold on_disk. by rewrite load_from_cache_run, Hfile.
Qed.

End MainWindowFacts.

(** ** Loading a file or a sheet *)

Section LoaderFacts.

Variable home : string.
Variable unicode_alnum : string -> bool.
Variable py_repr : json -> string.
Variable str_exn : exn -> string.

Local Abbreviation DIR := (CACHE_DIR home).
Local Abbreviation filename_of := (cache_filename_of unicode_alnum).
Local Abbreviation item := (item_of py_repr).
Local Abbreviation add := (add_to_cache home unicode_alnum).

Lemma entry_listed_new_entry name st sp fname ts data :
  entry_listed (new_entry name st sp fname ts data) = true.
Proof. reflexivity. Qed.

Lemma cache_and_show_run rng now name st sp (records : list record)
    (fs : disk) l v i sh run ht mt :
  (forall l0, rng l0 ≡ₚ l0) ->
  stored_entries home fs = Some l ->
  forallb entry_ok l = true ->
  forallb entry_listed l = true ->
  records <> [] ->
  let data := map record_to_json records in
  let entry := new_entry name st sp (filename_of now name) (strftime now) data in
  cache_and_show home unicode_alnum py_repr rng now name st sp records fs
      (mk_session v i sh run ht mt) =
    (Ok tt, snd (add now name st sp data fs),
     mk_session (JArr (rng data)) 0 sh run ht mt,
     snd (on_data_loaded name (mk_session (JArr (rng data)) i sh run ht mt))
     ++ combo_clear :: placeholder
          :: map item (take 20 (updated_files entry sp l))).
Proof.
  intros Hrng Hl Hok Hlisted Hrec. cbv zeta.
  set (data := map record_to_json records).
  set (entry := new_entry name st sp (filename_of now name) (strftime now) data).
  destruct (add_to_cache_spec home unicode_alnum now name st sp data fs l Hl Hok)
    as (fs1 & Hrun & Hstored & _).
  fold entry in Hstored.
  assert (snd (add now name st sp data fs) = fs1) as -> by (by rewrite Hrun).
  assert (data <> []) as Hne by (unfold data; by destruct records).
  destruct (cards_permutation data (rng data) (Hrng data) Hne
              (cards_of_records records)) as (Hne' & Hcards' & Hlen).
  pose proof (on_data_loaded_run (rng data) ht mt Hne' Hcards' name i sh run)
    as Hload.
  rewrite Hload. cbn [snd].
  set (s0 := mk_session v i sh run ht mt).
  set (s1 := mk_session (JArr (rng data)) i sh run ht mt) in *.
  set (s2 := mk_session (JArr (rng data)) 0 sh run ht mt) in *.
  unfold cache_and_show. fold data.
  rewrite (wbind_run _ _ fs s0 (os_path_join DIR (filename_of now name)) fs1 s0 [])
    by (unfold on_disk; by rewrite Hrun).
  rewrite (wbind_run _ _ fs1 s0 tt fs1 s1 []) by reflexivity.
  rewrite (wbind_run _ _ fs1 s1 tt fs1 s2 _ (on_session_run _ fs1 _ _ _ _ Hload)).
  rewrite (load_cache_dropdown_start home py_repr fs1 s2 _ Hstored).
  rewrite add_items_run.
  - reflexivity.
  - apply forallb_forall. intros x Hx%In_take.
    unfold updated_files in Hx. destruct Hx as [<-|Hx]; [done|].
    apply filter_In in Hx as [Hx _]. rewrite forallb_forall in Hlisted.
    by apply Hlisted.
Qed.

Lemma last_app_singleton {A} (l : list A) x d : List.last (l ++ [x]) d = x.
Proof. apply last_last. Qed.

(** X25.  Let the stored index list dicts with a plain file name as
    [cache_file] and with the fields the dropdown shows.  [load_local_excel]
    on a frame that has records then caches them as a local entry named
    after the file, its extension dropped; the session then holds a
    permutation of the records with the index on the first card, the
    dropdown lists the new entry, and the last call is the message giving
    the number of records. *)
Theorem load_local_excel_caches rng now file_path df (fs : disk) l (s : session) :
  (forall l0, rng l0 ≡ₚ l0) ->
  file_path <> "" ->
  parse_dataframe df <> [] ->
  stored_entries home fs = Some l ->
  forallb entry_plain l = true ->
  forallb entry_listed l = true ->
  let records := parse_dataframe df in
  let data := map record_to_json records in
  let name := splitext_root (os_path_basename file_path) in
  let entry :=
    new_entry name "local" file_path (filename_of now name) (strftime now) data in
  exists s' cmds,
    load_local_excel home unicode_alnum py_repr str_exn rng now file_path
        (read_frame df) fs s
      = (Ok tt, snd (add now name "local" file_path data fs), s', cmds) /\
    hanja_list s' = JArr (rng data) /\
    current_index s' = 0%Z /\
    session_ok s' /\
    item entry ∈ cmds /\
    List.last cmds combo_clear
      = QMessageBox information "로드 완료"
          (pretty (Z.of_nat (length records)) +:+ "개의 한자를 로드했습니다.").
Proof.
  intros Hrng Hpath Hrec Hl Hplain Hlisted. cbv zeta.
  pose proof (forallb_plain_ok _ Hplain) as Hok.
  unfold load_local_excel. cbv zeta.
  assert (truthy file_path = true) as ->
    by (by apply negb_true_iff, String.eqb_neq).
  destruct (parse_dataframe df) as [|r0 rest] eqn:Erec; [done|].
  set (records := r0 :: rest) in *.
  set (data := map record_to_json records).
  set (name := splitext_root (os_path_basename file_path)).
  set (entry :=
    new_entry name "local" file_path (filename_of now name) (strftime now) data).
  destruct s as [v i sh run ht mt].
  assert (data <> []) as Hne by done.
  destruct (cards_permutation data (rng data) (Hrng data) Hne
              (cards_of_records records)) as (Hne' & Hcards' & Hlen).
  pose proof (cache_and_show_run rng now name "local" file_path records fs l
                v i sh run ht mt Hrng Hl Hok Hlisted Hrec) as Hshow.
  cbv zeta in Hshow. fold data in Hshow. fold entry in Hshow.
  unfold wtry.
  rewrite (wbind_run _ _ _ _ _ _ _ _ Hshow).
  rewrite (wbind_run _ _ _ (mk_session (JArr (rng data)) 0 sh run ht mt)
             (Z.of_nat (length (rng data))) _
             (mk_session (JArr (rng data)) 0 sh run ht mt) []) by reflexivity.
  do 2 eexists. split; [reflexivity|]. cbn [hanja_list current_index].
  split; [done|]. split; [done|]. split.
  { exists (rng data). cbn [hanja_list current_index].
    split; [done|]. split; [done|]. split; [done|].
    destruct (rng data); [done|cbn [length]; lia]. }
  split.
  - apply elem_of_app. left. apply elem_of_app. right.
    do 2 (apply elem_of_cons; right). cbn [take updated_files map].
    apply elem_of_cons. by left.
  - change ([] ++ ?x) with x. rewrite last_app_singleton.
    f_equal. f_equal. f_equal.
    rewrite Hlen. unfold data. by rewrite length_map.
Qed.


Lemma csv_url_truthy url u :
  get_google_sheet_csv_url url "0" = Some u -> truthy u = true /\ url <> "".
Proof.
  intros H. split.
  - rewrite get_google_sheet_csv_url_of_id in H.
    destruct (extract_google_sheet_id url) as [g|]; [|done].
    destruct (truthy g); [|done]. by injection H as <-.
  - by intros ->.
Qed.

(** X26.  Let the stored index list dicts with a plain file name as
    [cache_file] and with the fields the dropdown shows.
    [load_google_sheet] with a recognised URL and a frame that has records
    then caches them as a google entry under the name of the dialog and
    with the URL as source; the session then holds a permutation of the
    records with the index on the first card, the dropdown lists the new
    entry, and the last call is the message giving the number of records. *)
Theorem load_google_sheet_caches rng now url name csv_url df (fs : disk) l
    (s : session) :
  (forall l0, rng l0 ≡ₚ l0) ->
  get_google_sheet_csv_url url "0" = Some csv_url ->
  parse_dataframe df <> [] ->
  stored_entries home fs = Some l ->
  forallb entry_plain l = true ->
  forallb entry_listed l = true ->
  let records := parse_dataframe df in
  let data := map record_to_json records in
  let entry :=
    new_entry name "google" url (filename_of now name) (strftime now) data in
  exists s' cmds,
    load_google_sheet home unicode_alnum py_repr str_exn rng now true url name
        (read_frame df) fs s
      = (Ok tt, snd (add now name "google" url data fs), s', cmds) /\
    hanja_list s' = JArr (rng data) /\
    current_index s' = 0%Z /\
    session_ok s' /\
    item entry ∈ cmds /\
    List.last cmds combo_clear
      = QMessageBox information "로드 완료"
          ("구글 시트에서 " +:+ pretty (Z.of_nat (length records))
           +:+ "개의 한자를 로드했습니다.").
Proof.
  intros Hrng Hurl Hrec Hl Hplain Hlisted. cbv zeta.
  pose proof (forallb_plain_ok _ Hplain) as Hok.
  destruct (csv_url_truthy url csv_url Hurl) as [Hcsv Hne_url].
  unfold load_google_sheet. cbv zeta. rewrite Hurl, Hcsv.
  assert (truthy url = true) as ->
    by (by apply negb_true_iff, String.eqb_neq).
  cbn [negb].
  destruct (parse_dataframe df) as [|r0 rest] eqn:Erec; [done|].
  set (records := r0 :: rest) in *.
  set (data := map record_to_json records).
  set (entry :=
    new_entry name "google" url (filename_of now name) (strftime now) data).
  destruct s as [v i sh run ht mt].
  assert (data <> []) as Hne by done.
  destruct (cards_permutation data (rng data) (Hrng data) Hne
              (cards_of_records records)) as (Hne' & Hcards' & Hlen).
  pose proof (cache_and_show_run rng now name "google" url records fs l
                v i sh run ht mt Hrng Hl Hok Hlisted Hrec) as Hshow.
  cbv zeta in Hshow. fold data in Hshow. fold entry in Hshow.
  unfold wtry.
  rewrite (wbind_run _ _ _ _ _ _ _ _ Hshow).
  rewrite (wbind_run _ _ _ (mk_session (JArr (rng data)) 0 sh run ht mt)
             (Z.of_nat (length (rng data))) _
             (mk_session (JArr (rng data)) 0 sh run ht mt) []) by reflexivity.
  do 2 eexists. split; [reflexivity|]. cbn [hanja_list current_index].
  split; [done|]. split; [done|]. split.
  { exists (rng data). cbn [hanja_list current_index].
    split; [done|]. split; [done|]. split; [done|].
    destruct (rng data); [done|cbn [length]; lia]. }
  split.
  - apply elem_of_app. left. apply elem_of_app. right.
    do 2 (apply elem_of_cons; right). cbn [take updated_files map].
    apply elem_of_cons. by left.
  - change ([] ++ ?x) with x. rewrite last_app_singleton.
    f_equal. f_equal. f_equal. f_equal.
    rewrite Hlen. unfold data. by rewrite length_map.
Qed.

(** X27.  A frame without records changes neither disk nor session.
    [load_local_excel] then makes no call at all, while [load_google_sheet]
    warns that no data was found. *)
Theorem load_without_records rng now file_path url name csv_url df (fs : disk)
    (s : session) :
  parse_dataframe df = [] ->
  load_local_excel home unicode_alnum py_repr str_exn rng now file_path
      (read_frame df) fs s = (Ok tt, fs, s, []) /\
  (get_google_sheet_csv_url url "0" = Some csv_url ->
   load_google_sheet home unicode_alnum py_repr str_exn rng now true url name
       (read_frame df) fs s
     = (Ok tt, fs, s, [QMessageBox warning "알림" "데이터를 찾을 수 없습니다."])).
Proof.
  intros Hempty. split.
  - unfold load_local_excel. rewrite Hempty. by destruct (truthy file_path).
  - intros Hurl. destruct (csv_url_truthy url csv_url Hurl) as [Hcsv Hne_url].
    unfold load_google_sheet. rewrite Hurl, Hcsv, Hempty.
    by assert (truthy url = true) as ->
      by (by apply negb_true_iff, String.eqb_neq).
Qed.

(** X28.  [load_google_sheet] changes neither disk nor session when the
    dialog is cancelled (no message), when the URL is empty (a warning) and
    when neither marker is followed by an identifier anywhere in the URL
    (an error message). *)
Theorem load_google_sheet_rejects rng now accepted url name read (fs : disk)
    (s : session) :
  (accepted = false ->
   load_google_sheet home unicode_alnum py_repr str_exn rng now accepted url
       name read fs s = (Ok tt, fs, s, [])) /\
  (accepted = true -> url = "" ->
   load_google_sheet home unicode_alnum py_repr str_exn rng now accepted url
       name read fs s
     = (Ok tt, fs, s, [QMessageBox warning "알림" "URL을 입력해주세요."])) /\
  (accepted = true -> url <> "" ->
   ~ pattern_matches "/spreadsheets/d/" url -> ~ pattern_matches "id=" url ->
   load_google_sheet home unicode_alnum py_repr str_exn rng now accepted url
       name read fs s
     = (Ok tt, fs, s,
        [QMessageBox critical "오류" "올바른 구글 시트 URL이 아닙니다."])).
Proof.
  split; [by intros ->|]. split; [by intros -> ->|].
  intros -> Hne H1 H2. unfold load_google_sheet.
  assert (truthy url = true) as ->
    by (by apply negb_true_iff, String.eqb_neq).
  cbn [negb]. rewrite get_google_sheet_csv_url_of_id.
  destruct (extract_google_sheet_id url) as [g|] eqn:Hx; [|done].
  apply extract_google_sheet_id_Some in Hx as [Hid [Hocc|Hocc]].
  - destruct H1. by exists g.
  - destruct H2. by exists g.
Qed.

Lemma wtry_caught (m : W unit) h (fs : disk) s e fs' s' c :
  m fs s = (Raise e, fs', s', c) ->
  wtry m h fs s = (let '(r, fs'', s'', c') := h e fs' s' in (r, fs'', s'', c ++ c')).
Proof. intros H. unfold wtry. by rewrite H. Qed.

(** X29.  [load_local_excel] reports failures instead of raising.  A
    read that fails is shown with its text and changes nothing.  When
    [add_to_cache] fails on an unusable index, the text of its exception is
    shown and the session is unchanged, but the cache file written before
    the failure stays on disk. *)
Theorem load_local_excel_reports rng now file_path df text e (fs : disk)
    (s : session) :
  file_path <> "" ->
  let name := splitext_root (os_path_basename file_path) in
  (load_local_excel home unicode_alnum py_repr str_exn rng now file_path
       (read_failed text) fs s
     = (Ok tt, fs, s,
        [QMessageBox critical "오류" ("파일 읽기 오류:" +:+ newline +:+ text)])) /\
  (parse_dataframe df <> [] ->
   res_bind (getitem (stored_index home fs) "files") (fun files =>
     res_bind (py_iter files) (dedup file_path)) = Raise e ->
   load_local_excel home unicode_alnum py_repr str_exn rng now file_path
       (read_frame df) fs s
     = (Ok tt,
        <[os_path_join DIR (filename_of now name)
            := Json (JArr (map record_to_json (parse_dataframe df)))]> fs,
        s,
        [QMessageBox critical "오류"
           ("파일 읽기 오류:" +:+ newline +:+ str_exn e)])).
Proof.
  intros Hpath name.
  assert (truthy file_path = true) as Ht
    by (by apply negb_true_iff, String.eqb_neq).
  split.
  - unfold load_local_excel. rewrite Ht. reflexivity.
  - intros Hrec Hbad. unfold load_local_excel. rewrite Ht. cbv zeta.
    destruct (parse_dataframe df) as [|r0 rest] eqn:Erec; [done|].
    fold name.
    rewrite (wtry_caught _ _ fs s e
               (<[os_path_join DIR (filename_of now name)
                   := Json (JArr (map record_to_json (r0 :: rest)))]> fs) s []);
      [reflexivity|].
    apply wbind_raise. unfold cache_and_show. apply wbind_raise.
    unfold on_disk.
    by rewrite (add_to_cache_unusable_run home unicode_alnum _ _ _ _ _ _ e Hbad).
Qed.

End LoaderFacts.

(** ** File names *)

Lemma after_last_slash_no_slash s :
  forallb (fun a => negb (Ascii.eqb a "/")) (list_ascii_of_string s) = true ->
  after_last_slash s = None.
Proof.
  induction s as [|a s IH]; [done|]. cbn [list_ascii_of_string forallb].
  intros [Ha Hs]%andb_prop. cbn [after_last_slash]. rewrite (IH Hs).
  apply negb_true_iff in Ha. by rewrite Ha.
Qed.

Lemma after_last_slash_app dir s :
  after_last_slash s = None ->
  after_last_slash (dir +:+ "/" +:+ s) = Some s.
Proof.
  intros Hs. induction dir as [|a dir IH].
  - change ("" +:+ "/" +:+ s) with (String "/" s). cbn [after_last_slash].
    by rewrite Hs.
  - change (String a dir +:+ "/" +:+ s) with (String a (dir +:+ "/" +:+ s)).
    cbn [after_last_slash]. by rewrite IH.
Qed.

Lemma split_last_dot_no_dot s :
  forallb (fun a => negb (Ascii.eqb a ".")) (list_ascii_of_string s) = true ->
  split_last_dot s = None.
Proof.
  induction s as [|a s IH]; [done|]. cbn [list_ascii_of_string forallb].
  intros [Ha Hs]%andb_prop. cbn [split_last_dot]. rewrite (IH Hs).
  apply negb_true_iff in Ha. by rewrite Ha.
Qed.

Lemma split_last_dot_app stem ext :
  split_last_dot ext = None ->
  split_last_dot (stem +:+ "." +:+ ext) = Some (stem, "." +:+ ext).
Proof.
  intros Hext. induction stem as [|a stem IH].
  - change ("" +:+ "." +:+ ext) with (String "." ext). cbn [split_last_dot].
    by rewrite Hext.
  - change (String a stem +:+ "." +:+ ext) with (String a (stem +:+ "." +:+ ext)).
    cbn [split_last_dot]. by rewrite IH.
Qed.

(** X30.  For a path [dir/stem.ext] whose stem has no slash and is not
    made of dots only and whose extension has neither slash nor dot, the
    file name is [stem.ext] and the name the dataset is cached under is
    [stem]. *)
Theorem splitext_basename dir stem ext :
  forallb (fun a => negb (Ascii.eqb a "/")) (list_ascii_of_string stem) = true ->
  forallb (fun a => negb (Ascii.eqb a "/") && negb (Ascii.eqb a "."))
    (list_ascii_of_string ext) = true ->
  all_dots stem = false ->
  os_path_basename (dir +:+ "/" +:+ stem +:+ "." +:+ ext) = stem +:+ "." +:+ ext /\
  splitext_root (os_path_basename (dir +:+ "/" +:+ stem +:+ "." +:+ ext)) = stem.
Proof.
  intros Hstem Hext Hdots.
  assert (forallb (fun a => negb (Ascii.eqb a "/")) (list_ascii_of_string ext) = true
          /\ forallb (fun a => negb (Ascii.eqb a ".")) (list_ascii_of_string ext) = true)
    as [Hext1 Hext2].
  { rewrite !forallb_forall in *. split; intros a Ha;
      by destruct (andb_prop _ _ (Hext a Ha)). }
  assert (os_path_basename (dir +:+ "/" +:+ stem +:+ "." +:+ ext)
          = stem +:+ "." +:+ ext) as Hbase.
  { unfold os_path_basename. rewrite after_last_slash_app; [done|].
    apply after_last_slash_no_slash.
    rewrite !list_ascii_app, !forallb_app, Hstem, Hext1. reflexivity. }
  split; [exact Hbase|]. rewrite Hbase. unfold splitext_root.
  rewrite split_last_dot_app by (by apply split_last_dot_no_dot).
  by rewrite Hdots.
Qed.

(** ** The further properties at concrete inputs *)

Lemma rng0_permutation (l : list json) : rng0 l ≡ₚ l.
Proof. apply reverse_Permutation. Qed.

Lemma session0_ok : session_ok session0.
Proof.
  exists data1. split; [reflexivity|]. split; [discriminate|].
  split; [reflexivity|]. cbn. lia.
Qed.

Lemma add_to_cache_stored_index_witness :
  stored_entries home0
    (snd (add_to_cache home0 alnum0 t1 "b" "local" "/x/b.xlsx" data1 disk_a))
  = Some [new_entry "b" "local" "/x/b.xlsx" (cache_filename_of alnum0 t1 "b")
            (strftime t1) data1; entry_a].
Proof.
  apply (add_to_cache_stored_index home0 alnum0 t1 "b" "local" "/x/b.xlsx"
           data1 disk_a [entry_a]).
  - vm_compute. reflexivity.
  - vm_compute. reflexivity.
  - vm_compute. reflexivity.
  - cbn. lia.
Defined.

Lemma load_from_cache_of_entry_witness :
  exists fs' rest,
    snd (add_to_cache home0 alnum0 t0 "a" "local" "/x/a.xlsx" data0 ∅) = fs' /\
    stored_entries home0 fs' = Some (entry_a :: rest) /\
    getitem entry_a "cache_file" = Ok (JStr "a_20240305_140709.json") /\
    getitem entry_a "count" = Ok (JNum 1) /\
    load_from_cache home0 "a_20240305_140709.json" fs'
      = (Ok (Some (JArr data0)), fs').
Proof.
  apply (load_from_cache_of_entry home0 alnum0 t0 "a" "local" "/x/a.xlsx"
           data0 ∅ []).
  - reflexivity.
  - reflexivity.
  - vm_compute. apply not_elem_of_nil.
Defined.

Lemma add_to_cache_unusable_index_witness :
  exists fs',
    add_to_cache home0 alnum0 t0 "a" "local" "/x/a.xlsx" data0 disk_no_files
      = (Raise KeyError, fs') /\
    fs' !! index0 = disk_no_files !! index0 /\
    fs' !! path_a = Some (Json (JArr data0)) /\
    (forall q, q <> path_a -> fs' !! q = disk_no_files !! q).
Proof.
  apply (add_to_cache_unusable_index home0 alnum0 t0 "a" "local" "/x/a.xlsx"
           data0 disk_no_files KeyError).
  vm_compute. reflexivity.
Defined.

Lemma safe_name_of_ascii_witness :
  safe_name_of alnum0 "my file (1)" = "my_file__1_" /\
  String.length (safe_name_of alnum0 "my file (1)") = 11.
Proof.
  apply (safe_name_of_ascii alnum0 "my file (1)"). reflexivity.
Defined.


Lemma extract_google_sheet_id_maximal_witness :
  exists lit pre post,
    lit ∈ patterns /\
    sheet_url0 = pre +:+ lit +:+ "ABC123" +:+ post /\
    id_string "ABC123" /\
    take_id post = "" /\
    forall pre1 pre2, pre = pre1 +:+ pre2 -> pre2 <> "" ->
      match_here lit (pre2 +:+ lit +:+ "ABC123" +:+ post) = None.
Proof.
  apply (extract_google_sheet_id_maximal sheet_url0 "ABC123").
  vm_compute. reflexivity.
Defined.

Lemma get_google_sheet_csv_url_export_url_witness :
  extract_google_sheet_id (export_url "ABC123") = Some "ABC123" /\
  get_google_sheet_csv_url (export_url "ABC123") "0" = Some (export_url "ABC123").
Proof.
  apply (get_google_sheet_csv_url_export_url "ABC123").
  split; [discriminate | reflexivity].
Defined.

Lemma parse_dataframe_frame_witness :
  parse_dataframe frame_a = parse_dataframe frame_b.
Proof.
  apply (parse_dataframe_frame frame_a frame_b).
  constructor; [|constructor]. split; [reflexivity|]. split; reflexivity.
Defined.

Lemma handle_all_keeps_session_witness :
  exists s' cmds,
    handle_all rng0 events0 session0 = (Ok tt, s', cmds) /\
    session_ok s' /\
    exists l l', hanja_list session0 = JArr l /\ hanja_list s' = JArr l' /\
                 l' ≡ₚ l.
Proof.
  apply (handle_all_keeps_session rng0 events0 session0).
  - exact rng0_permutation.
  - exact session0_ok.
Defined.

Lemma handle_all_progress_in_range_witness :
  setValue 2 ∈ snd (handle_all rng0 events0 session0) /\
  (1 <= 2 <= Z.of_nat (length data1))%Z.
Proof.
  assert (setValue 2 ∈ snd (handle_all rng0 events0 session0)) as Hset.
  { apply list_elem_of_In. vm_compute.
    repeat first [left; reflexivity | right]. }
  split; [exact Hset|].
  apply (handle_all_progress_in_range rng0 events0 session0 data1).
  - exact rng0_permutation.
  - exact session0_ok.
  - reflexivity.
  - exact Hset.
Defined.

Lemma next_prev_hanja_witness :
  current_index (after prev_hanja (after next_hanja session0))
    = current_index session0 /\
  current_index (after next_hanja (after prev_hanja session0))
    = current_index session0 /\
  hanja_list (after prev_hanja (after next_hanja session0))
    = hanja_list session0 /\
  hanja_list (after next_hanja (after prev_hanja session0))
    = hanja_list session0.
Proof. apply (next_prev_hanja session0). exact session0_ok. Defined.

Lemma prev_next_hanja_wrap_witness :
  current_index (after prev_hanja session0) = 1%Z /\
  setText hanja_label "字" ∈ calls prev_hanja session0 /\
  setValue 2 ∈ calls prev_hanja session0.
Proof.
  apply (prev_next_hanja_wrap session0 data1).
  - exact session0_ok.
  - reflexivity.
  - reflexivity.
Defined.

Lemma toggle_display_cycle_witness :
  current_index
    (Nat.iter 3 (fun s => after toggle_display (after toggle_display s)) session0)
    = ((current_index session0 + Z.of_nat 3) mod Z.of_nat (length data1))%Z /\
  showing_hanja
    (Nat.iter 3 (fun s => after toggle_display (after toggle_display s)) session0)
    = true /\
  Nat.iter (length data1)
    (fun s => after toggle_display (after toggle_display s)) session0 = session0.
Proof.
  apply (toggle_display_cycle session0 data1 3).
  - exact session0_ok.
  - reflexivity.
  - reflexivity.
Defined.

Lemma toggle_start_flips_witness :
  is_running (after toggle_start session0) = negb (is_running session0) /\
  current_index (after toggle_start session0) = current_index session0 /\
  (is_running session0 = false ->
   showing_hanja (after toggle_start session0) = true /\
   List.last (calls toggle_start session0) timer_stop
     = timer_start (hanja_time session0)) /\
  (is_running session0 = true -> timer_stop ∈ calls toggle_start session0 /\
     forall ms, timer_start ms ∉ calls toggle_start session0).
Proof. apply (toggle_start_flips session0). exact session0_ok. Defined.

Lemma handle_all_without_cards_witness :
  exists ht' mt',
    handle_all rng0 events0 initial_session
      = (Ok tt, mk_session (JArr []) 0 true false ht' mt', []).
Proof.
  apply (handle_all_without_cards rng0 events0 initial_session).
  - reflexivity.
  - reflexivity.
Defined.

Lemma on_data_loaded_resets_witness :
  fst (fst (on_data_loaded "a" session0)) = Ok tt /\
  session_ok (after (on_data_loaded "a") session0) /\
  current_index (after (on_data_loaded "a") session0) = 0%Z /\
  hanja_list (after (on_data_loaded "a") session0) = JArr data1 /\
  is_running (after (on_data_loaded "a") session0) = is_running session0 /\
  showing_hanja (after (on_data_loaded "a") session0) = showing_hanja session0 /\
  setMaximum 2 ∈ calls (on_data_loaded "a") session0 /\
  setText hanja_label "漢" ∈ calls (on_data_loaded "a") session0 /\
  forall ms, (timer_start ms ∉ calls (on_data_loaded "a") session0) /\
             (timer_stop ∉ calls (on_data_loaded "a") session0).
Proof.
  apply (on_data_loaded_resets "a" session0 data1).
  - reflexivity.
  - discriminate.
  - reflexivity.
Defined.

Lemma load_cache_dropdown_items_witness :
  load_cache_dropdown home0 repr0 disk_a session0
    = (Ok tt, disk_a, session0,
       [combo_clear; placeholder; addItem "💻 a (1개)" (Some entry_a)]).
Proof.
  apply (load_cache_dropdown_items home0 repr0 disk_a session0 [entry_a]).
  - vm_compute. reflexivity.
  - vm_compute. reflexivity.
Defined.

Lemma load_cache_dropdown_stops_witness :
  load_cache_dropdown home0 repr0 disk_bad_entry session0
    = (Raise KeyError, disk_bad_entry, session0,
       [combo_clear; placeholder; addItem "💻 a (1개)" (Some entry_a)]).
Proof.
  apply (load_cache_dropdown_stops home0 repr0 disk_bad_entry session0
           [entry_a] bad_entry [entry_a] KeyError).
  - vm_compute. reflexivity.
  - vm_compute. reflexivity.
  - vm_compute. reflexivity.
Defined.

Lemma load_from_cache_selected_after_add_witness :
  exists s' cmds,
    load_from_cache_selected home0 repr0 rng0
        (Some (call_entry alnum0 call_a_again))
        (snd (add_to_cache home0 alnum0 t0 "a" "local" "/x/a.xlsx" data1 ∅))
        initial_session
      = (Ok tt, snd (add_to_cache home0 alnum0 t0 "a" "local" "/x/a.xlsx" data1 ∅),
         s', cmds) /\
    hanja_list s' = JArr (rng0 data1) /\ rng0 data1 ≡ₚ data1 /\
    current_index s' = 0%Z /\
    session_ok s' /\
    setText file_label ("파일: " +:+ "a") ∈ cmds /\
    setMaximum 2 ∈ cmds.
Proof.
  apply (load_from_cache_selected_after_add home0 alnum0 repr0 rng0 t0 "a"
           "local" "/x/a.xlsx" records1 ∅ [] initial_session).
  - exact rng0_permutation.
  - reflexivity.
  - reflexivity.
  - discriminate.
  - vm_compute. apply not_elem_of_nil.
Defined.

Lemma load_from_cache_selected_without_data_witness :
  load_from_cache_selected home0 repr0 rng0 (Some entry_a) ∅ session0
    = (Ok tt, ∅, session0, [not_found]).
Proof.
  assert (getitem entry_a "cache_file" = Ok (JStr "a_20240305_140709.json"))
    as Hfile by (vm_compute; reflexivity).
  destruct (load_from_cache_selected_without_data home0 repr0 rng0 entry_a
              "a_20240305_140709.json" ∅ session0 Hfile eq_refl)
    as (_ & Hmissing & _).
  apply Hmissing. reflexivity.
Defined.

Lemma load_local_excel_caches_witness :
  exists s' cmds,
    load_local_excel home0 alnum0 repr0 str_exn0 rng0 t0 "/x/a.xlsx"
        (read_frame example_rows) ∅ initial_session
      = (Ok tt, disk_a, s', cmds) /\
    hanja_list s' = JArr (rng0 data0) /\
    current_index s' = 0%Z /\
    session_ok s' /\
    addItem "💻 a (1개)" (Some entry_a) ∈ cmds /\
    List.last cmds combo_clear
      = QMessageBox information "로드 완료" "1개의 한자를 로드했습니다.".
Proof.
  apply (load_local_excel_caches home0 alnum0 repr0 str_exn0 rng0 t0
           "/x/a.xlsx" example_rows ∅ [] initial_session).
  - exact rng0_permutation.
  - discriminate.
  - discriminate.
  - reflexivity.
  - reflexivity.
  - reflexivity.
Defined.

Lemma load_google_sheet_caches_witness :
  exists s' cmds,
    load_google_sheet home0 alnum0 repr0 str_exn0 rng0 t0 true sheet_url0
        "sheet" (read_frame example_rows) ∅ initial_session
      = (Ok tt,
         snd (add_to_cache home0 alnum0 t0 "sheet" "google" sheet_url0 data0 ∅),
         s', cmds) /\
    hanja_list s' = JArr (rng0 data0) /\
    current_index s' = 0%Z /\
    session_ok s' /\
    addItem "☁️ sheet (1개)"
      (Some (new_entry "sheet" "google" sheet_url0
               "sheet_20240305_140709.json" "20240305_140709" data0)) ∈ cmds /\
    List.last cmds combo_clear
      = QMessageBox information "로드 완료"
          "구글 시트에서 1개의 한자를 로드했습니다.".
Proof.
  apply (load_google_sheet_caches home0 alnum0 repr0 str_exn0 rng0 t0
           sheet_url0 "sheet" (export_url "ABC123") example_rows ∅ []
           initial_session).
  - exact rng0_permutation.
  - vm_compute. reflexivity.
  - discriminate.
  - reflexivity.
  - reflexivity.
  - reflexivity.
Defined.

Lemma load_without_records_witness :
  load_local_excel home0 alnum0 repr0 str_exn0 rng0 t0 "/x/a.xlsx"
      (read_frame nan_rows) disk_a session0 = (Ok tt, disk_a, session0, []) /\
  (get_google_sheet_csv_url sheet_url0 "0" = Some (export_url "ABC123") ->
   load_google_sheet home0 alnum0 repr0 str_exn0 rng0 t0 true sheet_url0 "sheet"
       (read_frame nan_rows) disk_a session0
     = (Ok tt, disk_a, session0,
        [QMessageBox warning "알림" "데이터를 찾을 수 없습니다."])).
Proof.
  apply (load_without_records home0 alnum0 repr0 str_exn0 rng0 t0 "/x/a.xlsx"
           sheet_url0 "sheet" (export_url "ABC123") nan_rows disk_a session0).
  reflexivity.
Defined.

Lemma load_google_sheet_rejects_witness :
  load_google_sheet home0 alnum0 repr0 str_exn0 rng0 t0 true "" "sheet"
      (read_frame example_rows) disk_a session0
    = (Ok tt, disk_a, session0, [QMessageBox warning "알림" "URL을 입력해주세요."]).
Proof.
  apply (load_google_sheet_rejects home0 alnum0 repr0 str_exn0 rng0 t0 true ""
           "sheet" (read_frame example_rows) disk_a session0).
  - reflexivity.
  - reflexivity.
Defined.

Lemma load_local_excel_reports_witness :
  load_local_excel home0 alnum0 repr0 str_exn0 rng0 t0 "/x/a.xlsx"
      (read_frame example_rows) disk_no_files session0
    = (Ok tt, <[path_a := Json (JArr data0)]> disk_no_files, session0,
       [QMessageBox critical "오류" ("파일 읽기 오류:" +:+ newline +:+ "'files'")]).
Proof.
  apply (load_local_excel_reports home0 alnum0 repr0 str_exn0 rng0 t0
           "/x/a.xlsx" example_rows "" KeyError disk_no_files session0).
  - discriminate.
  - discriminate.
  - vm_compute. reflexivity.
Defined.

Lemma splitext_basename_witness :
  os_path_basename "/x/a.xlsx" = "a.xlsx" /\
  splitext_root (os_path_basename "/x/a.xlsx") = "a".
Proof.
  apply (splitext_basename "/x" "a" "xlsx"); reflexivity.
Defined.
